(** * Resilient call engine of the VICE MCP client

    A shallow embedding of [tools/resilience/vice_mcp_resilient.py]:
    the schema validator ([_validate_type], [validate_params]), the
    reliability monitor ([MCPReliabilityMonitor]) and the retry and
    fallback controller ([ViceMCPClient._call_raw], [ViceMCPClient.call]).

    Conventions of the embedding.
    - Python [int] is [Z]; Python [float] is idealised as an exact rational
      [Q] (no rounding error, no infinities), compared with [==].  The
      statistics of [get_stats] are the exception: there a quotient is
      rounded to a few decimals, and which decimal comes out near a tie
      depends on the binary64 quotient, so the division is the binary64
      one ([double_of_Q]).
    - A Python value that can travel in a JSON document is a [pyvalue];
      a [dict] inside such a value is an association list in insertion
      order, with distinct keys.
    - The process-wide mutable objects (the id counter of the client, the
      entry list of the monitor) live in an explicit [world] that every
      operation threads; exceptions are an explicit [Raise] result.
    - Whatever the module obtains from outside (HTTP, clock, file system,
      [json], [repr]) is a field of the [Runtime] interface.
    - Calls to [logger] only print; they are left out. *)

From Stdlib Require Import ZArith QArith Qround Qabs Qpower Lqa String Ascii List Sorted Lia.
From stdpp Require Import base option list strings pretty gmap.

Local Open Scope string_scope.
Local Open Scope list_scope.
Local Open Scope Z_scope.

#[local] Set Warnings "-register-all".

(** ** Python values *)

Inductive pyvalue : Type :=
| PyNone
| PyBool (b : bool)
| PyInt (z : Z)
| PyFloat (q : Q)
| PyStr (s : string)
| PyList (l : list pyvalue)
| PyTuple (l : list pyvalue)
| PyDict (d : list (string * pyvalue)).

Abbreviation pydict := (list (string * pyvalue)).

(** The builtin classes that occur in [isinstance] tests. *)
Inductive pytype : Type :=
| Tbool | Tint | Tfloat | Tstr | Tlist | Ttuple | Tdict.

(** [isinstance(v, t)]: [bool] is a subclass of [int]. *)
Definition isinstance1 (v : pyvalue) (t : pytype) : bool :=
  match v, t with
  | PyBool _, Tbool | PyBool _, Tint => true
  | PyInt _, Tint => true
  | PyFloat _, Tfloat => true
  | PyStr _, Tstr => true
  | PyList _, Tlist => true
  | PyTuple _, Ttuple => true
  | PyDict _, Tdict => true
  | _, _ => false
  end.

(** [isinstance(v, (t1, ..., tn))]. *)
Definition isinstance (v : pyvalue) (ts : list pytype) : bool :=
  existsb (isinstance1 v) ts.

(** [type(v).__name__]. *)
Definition type_name (v : pyvalue) : string :=
  match v with
  | PyNone => "NoneType"
  | PyBool _ => "bool"
  | PyInt _ => "int"
  | PyFloat _ => "float"
  | PyStr _ => "str"
  | PyList _ => "list"
  | PyTuple _ => "tuple"
  | PyDict _ => "dict"
  end.

(** [d.get(k)] and [d[k]] on a dict; [None] when [k not in d]. *)
Fixpoint dict_get (d : pydict) (k : string) : option pyvalue :=
  match d with
  | [] => None
  | (k', v) :: d' => if String.eqb k' k then Some v else dict_get d' k
  end.

(** ** Error codes *)

Definition JSONRPC_PARSE_ERROR : Z := -32700.
Definition JSONRPC_INVALID_REQUEST : Z := -32600.
Definition JSONRPC_METHOD_NOT_FOUND : Z := -32601.
Definition JSONRPC_INVALID_PARAMS : Z := -32602.
Definition JSONRPC_INTERNAL_ERROR : Z := -32603.

(** [_PROTOCOL_ERROR_CODES = frozenset(range(-32799, -32599))]. *)
Definition in_protocol_range (z : Z) : bool :=
  (-32799 <=? z) && (z <? -32599).

(** ** Schema registry and validator *)

Record tool_schema : Type := {
  required : list (string * string);
  optional : list (string * string)
}.

Definition TOOL_SCHEMAS_items : list (string * tool_schema) :=
  [
    ("vice.ping",
     {| required := [];
        optional := [] |});
    ("vice.execution.run",
     {| required := [];
        optional := [] |});
    ("vice.execution.pause",
     {| required := [];
        optional := [] |});
    ("vice.execution.step",
     {| required := [];
        optional := [("count", "number"); ("step_over", "boolean")] |});
    ("vice.registers.get",
     {| required := [];
        optional := [] |});
    ("vice.registers.set",
     {| required := [("register", "string"); ("value", "number")];
        optional := [] |});
    ("vice.memory.read",
     {| required := [("address", "any"); ("size", "number")];
        optional := [("bank", "string")] |});
    ("vice.memory.write",
     {| required := [("address", "any"); ("data", "array")];
        optional := [] |});
    ("vice.memory.banks",
     {| required := [];
        optional := [] |});
    ("vice.memory.search",
     {| required := [("start", "any"); ("end", "any"); ("pattern", "array")];
        optional := [("mask", "array"); ("max_results", "number")] |});
    ("vice.checkpoint.add",
     {| required := [("start", "any")];
        optional := [("end", "any"); ("stop", "boolean"); ("load", "boolean"); ("store", "boolean"); ("exec", "boolean")] |});
    ("vice.checkpoint.delete",
     {| required := [("checkpoint_num", "number")];
        optional := [] |});
    ("vice.checkpoint.list",
     {| required := [];
        optional := [] |});
    ("vice.checkpoint.toggle",
     {| required := [("checkpoint_num", "number"); ("enabled", "boolean")];
        optional := [] |});
    ("vice.checkpoint.set_condition",
     {| required := [("checkpoint_num", "number"); ("condition", "string")];
        optional := [] |});
    ("vice.checkpoint.set_ignore_count",
     {| required := [("checkpoint_num", "number"); ("count", "number")];
        optional := [] |});
    ("vice.sprite.get",
     {| required := [];
        optional := [("sprite", "number")] |});
    ("vice.sprite.set",
     {| required := [("sprite", "number")];
        optional := [("enabled", "boolean"); ("x", "number"); ("y", "number"); ("color", "number"); ("multicolor", "boolean"); ("expand_x", "boolean"); ("expand_y", "boolean"); ("priority", "boolean"); ("multicolor0", "number"); ("multicolor1", "number"); ("pointer", "number")] |});
    ("vice.vicii.get_state",
     {| required := [];
        optional := [] |});
    ("vice.vicii.set_state",
     {| required := [];
        optional := [("registers", "array")] |});
    ("vice.sid.get_state",
     {| required := [];
        optional := [] |});
    ("vice.sid.set_state",
     {| required := [];
        optional := [("registers", "array")] |});
    ("vice.cia.get_state",
     {| required := [];
        optional := [] |});
    ("vice.cia.set_state",
     {| required := [];
        optional := [("cia1_registers", "array"); ("cia2_registers", "array")] |});
    ("vice.disk.attach",
     {| required := [("unit", "number"); ("path", "string")];
        optional := [] |});
    ("vice.disk.detach",
     {| required := [("unit", "number")];
        optional := [] |});
    ("vice.disk.list",
     {| required := [("unit", "number")];
        optional := [] |});
    ("vice.disk.read_sector",
     {| required := [("unit", "number"); ("track", "number"); ("sector", "number")];
        optional := [] |});
    ("vice.autostart",
     {| required := [("path", "string")];
        optional := [("program", "string"); ("run", "boolean"); ("index", "number")] |});
    ("vice.machine.reset",
     {| required := [];
        optional := [("mode", "string"); ("run_after", "boolean")] |});
    ("vice.display.screenshot",
     {| required := [];
        optional := [("path", "string"); ("format", "string"); ("return_base64", "boolean")] |});
    ("vice.display.get_dimensions",
     {| required := [];
        optional := [] |});
    ("vice.keyboard.type",
     {| required := [("text", "string")];
        optional := [("petscii_upper", "boolean")] |});
    ("vice.keyboard.key_press",
     {| required := [("key", "string")];
        optional := [("modifiers", "array"); ("hold_frames", "number"); ("hold_ms", "number")] |});
    ("vice.keyboard.key_release",
     {| required := [("key", "string")];
        optional := [("modifiers", "array")] |});
    ("vice.keyboard.restore",
     {| required := [];
        optional := [("pressed", "boolean")] |});
    ("vice.keyboard.matrix",
     {| required := [];
        optional := [("key", "string"); ("row", "number"); ("col", "number"); ("pressed", "boolean"); ("hold_frames", "number"); ("hold_ms", "number")] |});
    ("vice.joystick.set",
     {| required := [];
        optional := [("port", "number"); ("direction", "string"); ("fire", "boolean")] |});
    ("vice.disassemble",
     {| required := [("address", "any")];
        optional := [("count", "number"); ("show_symbols", "boolean")] |});
    ("vice.symbols.load",
     {| required := [("path", "string")];
        optional := [("format", "string")] |});
    ("vice.symbols.lookup",
     {| required := [];
        optional := [("name", "string"); ("address", "any")] |});
    ("vice.watch.add",
     {| required := [("address", "any")];
        optional := [("size", "number"); ("type", "string"); ("condition", "string")] |});
    ("vice.backtrace",
     {| required := [];
        optional := [("depth", "number")] |});
    ("vice.run_until",
     {| required := [];
        optional := [("address", "any"); ("cycles", "number")] |});
    ("vice.snapshot.save",
     {| required := [("name", "string")];
        optional := [("description", "string"); ("include_roms", "boolean"); ("include_disks", "boolean")] |});
    ("vice.snapshot.load",
     {| required := [("name", "string")];
        optional := [] |});
    ("vice.snapshot.list",
     {| required := [];
        optional := [] |});
    ("vice.cycles.stopwatch",
     {| required := [("action", "string")];
        optional := [] |});
    ("vice.memory.fill",
     {| required := [("start", "any"); ("end", "any"); ("pattern", "array")];
        optional := [] |});
    ("vice.memory.compare",
     {| required := [("mode", "string")];
        optional := [("start1", "any"); ("end1", "any"); ("start2", "any"); ("snapshot_name", "string"); ("start", "any"); ("end", "any")] |});
    ("vice.memory.map",
     {| required := [];
        optional := [("start", "any"); ("end", "any"); ("granularity", "number")] |});
    ("vice.checkpoint.group.create",
     {| required := [("name", "string")];
        optional := [("checkpoint_ids", "array")] |});
    ("vice.checkpoint.group.add",
     {| required := [("group", "string"); ("checkpoint_ids", "array")];
        optional := [] |});
    ("vice.checkpoint.group.toggle",
     {| required := [("group", "string"); ("enabled", "boolean")];
        optional := [] |});
    ("vice.checkpoint.group.list",
     {| required := [];
        optional := [] |});
    ("vice.checkpoint.set_auto_snapshot",
     {| required := [("checkpoint_id", "number"); ("snapshot_prefix", "string")];
        optional := [("max_snapshots", "number"); ("include_disks", "boolean")] |});
    ("vice.checkpoint.clear_auto_snapshot",
     {| required := [("checkpoint_id", "number")];
        optional := [] |});
    ("vice.trace.start",
     {| required := [("output_file", "string")];
        optional := [("pc_filter_start", "any"); ("pc_filter_end", "any"); ("max_instructions", "number"); ("include_registers", "boolean")] |});
    ("vice.trace.stop",
     {| required := [("trace_id", "string")];
        optional := [] |});
    ("vice.interrupt.log.start",
     {| required := [];
        optional := [("types", "array"); ("max_entries", "number")] |});
    ("vice.interrupt.log.stop",
     {| required := [("log_id", "string")];
        optional := [] |});
    ("vice.interrupt.log.read",
     {| required := [("log_id", "string")];
        optional := [("since_index", "number")] |});
    ("vice.sprite.inspect",
     {| required := [("sprite_number", "number")];
        optional := [("format", "string")] |})
  ].

Definition TOOL_SCHEMAS : gmap string tool_schema :=
  list_to_map TOOL_SCHEMAS_items.

Definition _validate_type (value : pyvalue) (type_str : string) : bool :=
  if String.eqb type_str "any" then true
  else if String.eqb type_str "number" then
    isinstance value [Tint; Tfloat] && negb (isinstance value [Tbool])
  else if String.eqb type_str "string" then isinstance value [Tstr]
  else if String.eqb type_str "boolean" then isinstance value [Tbool]
  else if String.eqb type_str "array" then isinstance value [Tlist; Ttuple]
  else if String.eqb type_str "object" then isinstance value [Tdict]
  else true.

Definition msg_missing (param_name tool_name : string) : string :=
  "Missing required parameter '" +:+ param_name +:+ "' for " +:+ tool_name.

Definition msg_wrong_type (param_name tool_name param_type : string)
    (v : pyvalue) : string :=
  "Parameter '" +:+ param_name +:+ "' for " +:+ tool_name +:+ " must be "
    +:+ param_type +:+ ", got " +:+ type_name v.

(** The first loop of [validate_params], over [schema["required"]]. *)
Fixpoint check_required (tool_name : string) (params : pydict)
    (req : list (string * string)) : list string :=
  match req with
  | [] => []
  | (param_name, param_type) :: req' =>
      match dict_get params param_name with
      | None => [msg_missing param_name tool_name]
      | Some v =>
          if negb (_validate_type v param_type)
          then [msg_wrong_type param_name tool_name param_type v]
          else []
      end ++ check_required tool_name params req'
  end.

(** The second loop, over [schema["optional"]]. *)
Fixpoint check_optional (tool_name : string) (params : pydict)
    (opt : list (string * string)) : list string :=
  match opt with
  | [] => []
  | (param_name, param_type) :: opt' =>
      match dict_get params param_name with
      | Some v =>
          if negb (_validate_type v param_type)
          then [msg_wrong_type param_name tool_name param_type v]
          else []
      | None => []
      end ++ check_optional tool_name params opt'
  end.

(** [validate_params] against an arbitrary registry. *)
Definition validate_params_in (schemas : gmap string tool_schema)
    (tool_name : string) (params : pydict) : list string :=
  match schemas !! tool_name with
  | None => []
  | Some schema =>
      check_required tool_name params (required schema)
        ++ check_optional tool_name params (optional schema)
  end.

Definition validate_params : string -> pydict -> list string :=
  validate_params_in TOOL_SCHEMAS.

(** The keys the third loop of [validate_params] warns about; they are
    logged, never returned. *)
Definition unexpected_params (schema : tool_schema) (params : pydict)
    : list string :=
  let known_names := (required schema).*1 ++ (optional schema).*1 in
  filter (fun key => key ∉ known_names) params.*1.

(** ** Numbers and strings of the Python runtime *)

(** Nearest integer, ties to the even one: Python's rounding rule. *)
Definition round_half_even (q : Q) : Z :=
  let f := Qfloor q in
  match Qcompare (q - inject_Z f) (1 # 2) with
  | Lt => f
  | Gt => f + 1
  | Eq => if Z.even f then f else f + 1
  end.

(** [round(q, ndigits)] for [ndigits >= 0]. *)
Definition py_round (q : Q) (ndigits : Z) : Q :=
  Qred (inject_Z (round_half_even (q * inject_Z (10 ^ ndigits)))
        / inject_Z (10 ^ ndigits)).

(** The binary64 arithmetic [get_stats] depends on.  [binade q] is the
    exponent of the power of two at or just below a positive [q];
    [double_of_Q q] is the nearest number with a 53-bit significand, ties
    to the even significand: the double an operation with exact result
    [q] returns.  The exponent range is not modelled (no overflow, no
    subnormals); the quotients of [get_stats] are far from its ends. *)
Definition binade (q : Q) : Z :=
  let a := Z.log2 (Qnum q) - Z.log2 (Zpos (Qden q)) in
  if Qle_bool (2 ^ a) q then a else a - 1.

Definition double_of_Q (q : Q) : Q :=
  if Qeq_bool q 0 then 0%Q
  else
    let ulp := (2 ^ (binade (Qabs q) - 52))%Q in
    Qred (inject_Z (round_half_even (q / ulp)) * ulp).

(** [a / b] for two [int]s: the correctly rounded quotient. *)
Definition int_truediv (a b : Z) : Q :=
  double_of_Q (inject_Z a / inject_Z b).

(** [x / n] for a [float] and an [int]: the [int] becomes a [float]
    first. *)
Definition float_div_int (x : Q) (n : Z) : Q :=
  double_of_Q (x / double_of_Q (inject_Z n)).

(** [str(n)] for an [int]. *)
Definition str_int (z : Z) : string := pretty z.

(** [s.lower()], on ASCII letters. *)
Definition lower_ascii (c : ascii) : ascii :=
  let n := N_of_ascii c in
  if ((65 <=? n) && (n <=? 90))%N then ascii_of_N (n + 32) else c.

Fixpoint lower (s : string) : string :=
  match s with
  | EmptyString => EmptyString
  | String c s' => String (lower_ascii c) (lower s')
  end.

(** [needle in hay] for strings. *)
Fixpoint contains (needle hay : string) : bool :=
  if String.prefix needle hay then true
  else match hay with
       | EmptyString => false
       | String _ hay' => contains needle hay'
       end.

(** [l[i:]], Python's slice from [i] to the end. *)
Definition slice_from {A : Type} (l : list A) (i : Z) : list A :=
  let len := Z.of_nat (length l) in
  let start := if i <? 0 then Z.max 0 (len + i) else Z.min i len in
  drop (Z.to_nat start) l.

(** The type name of the first unhashable component of a value, if any:
    [hash(v)] raises [TypeError] on a list or a dict, and on a tuple that
    holds one. *)
Fixpoint unhashable (v : pyvalue) : option string :=
  match v with
  | PyList _ => Some "list"
  | PyDict _ => Some "dict"
  | PyTuple l =>
      (fix first (l : list pyvalue) : option string :=
         match l with
         | [] => None
         | x :: l' =>
             match unhashable x with
             | Some n => Some n
             | None => first l'
             end
         end) l
  | _ => None
  end.

(** ** Exceptions *)

Inductive exc_class : Type :=
| ViceMCPError
| ViceMCPConnectionError
| ViceMCPTimeoutError
| ViceMCPProtocolError
| ViceMCPToolError
| ViceMCPValidationError
| OSError          (* [OSError] and its subclasses, [ConnectionError] among them *)
| OtherException.  (* any other [Exception] *)

(** [isinstance(exc, ViceMCPError)]. *)
Definition is_vice_error (c : exc_class) : bool :=
  match c with
  | OSError | OtherException => false
  | _ => true
  end.

Definition class_name (c : exc_class) : string :=
  match c with
  | ViceMCPError => "ViceMCPError"
  | ViceMCPConnectionError => "ViceMCPConnectionError"
  | ViceMCPTimeoutError => "ViceMCPTimeoutError"
  | ViceMCPProtocolError => "ViceMCPProtocolError"
  | ViceMCPToolError => "ViceMCPToolError"
  | ViceMCPValidationError => "ViceMCPValidationError"
  | OSError => "OSError"
  | OtherException => "Exception"
  end.

(** An exception object: its class, [type(exc).__name__], [str(exc)],
    [getattr(exc, "code", None)] and, for the client's own classes,
    the [data] attribute. *)
Record pyexc : Type := {
  exc_class_of : exc_class;
  exc_name : string;
  exc_str : string;
  exc_code : pyvalue;
  exc_data : pyvalue
}.

(** What the HTTP backend can raise: an [OSError] (both backends derive
    their connection and timeout errors from it) or another exception. *)
Record transport_error : Type := {
  te_is_oserror : bool;
  te_name : string;
  te_str : string;
  te_code : pyvalue
}.

Definition exc_of_transport (te : transport_error) : pyexc :=
  {| exc_class_of := if te_is_oserror te then OSError else OtherException;
     exc_name := te_name te;
     exc_str := te_str te;
     exc_code := te_code te;
     exc_data := PyNone |}.

Inductive http_outcome : Type :=
| HttpOk (status_code : Z) (body : string)
| HttpRaise (te : transport_error).

Inductive result (A : Type) : Type :=
| Ok (a : A)
| Raise (e : pyexc).
Arguments Ok {A} a.
Arguments Raise {A} e.

(** ** The reliability log *)

Record LogEntry : Type := {
  ts : string;
  tool : string;
  duration_ms : Q;
  success : bool;
  error : option string;
  error_code : pyvalue;
  retry_count : Z;
  fallback_used : bool
}.

(** The dict [get_stats] returns. *)
Record Stats : Type := {
  total_calls : Z;
  failures : Z;
  avg_latency_ms : Q;
  failure_rate : Q;
  failures_by_tool : gmap string Z
}.

(** ** The world outside the module *)

(** Observable effects, kept in the order they happen: every request
    handed to the HTTP backend with the timeout used and what came back,
    and every sleep. *)
Inductive event : Type :=
| EvPost (url : string) (payload : pyvalue) (timeout : Q)
    (outcome : http_outcome)
| EvSleep (seconds : Q).

(** What the module asks of its surroundings.  [Env] is the state of the
    outside world (network, clock, disk).
    - [http_post url payload timeout] is [_http_post]; the payload is the
      request object, serialised by the backend.
    - [append_entry path e] opens [path] for appending and writes [e] as
      one JSON line; [false] stands for an [OSError].
    - [json_loads] is [json.loads]: [inl msg] for a [JSONDecodeError].
    - [py_repr] is [repr].
    - [float_sum] is the builtin [sum] on a list of [float]s, whose
      rounding is the interpreter's: plain left-to-right addition before
      Python 3.12, compensated summation since. *)
Class Runtime (Env : Type) : Type := {
  utc_now_isoformat : Env -> string * Env;
  time_monotonic : Env -> Q * Env;
  os_sleep : Q -> Env -> Env;
  http_post : string -> pyvalue -> Q -> Env -> http_outcome * Env;
  append_entry : string -> LogEntry -> Env -> bool * Env;
  json_loads : string -> string + pyvalue;
  py_repr : pyvalue -> string;
  float_sum : list Q -> Q
}.

(** The mutable objects of the process and the trace of its effects. *)
Record world (Env : Type) : Type := {
  env : Env;
  _id_counter : Z;               (* [ViceMCPClient._id_counter] *)
  _entries : list LogEntry;      (* [MCPReliabilityMonitor._entries] *)
  trace : list event
}.
Arguments env {Env} w.
Arguments _id_counter {Env} w.
Arguments _entries {Env} w.
Arguments trace {Env} w.
Arguments Build_world {Env} env _id_counter _entries trace.

(** The attributes [__init__] stores and never changes afterwards. *)
Record ViceMCPClient : Type := {
  _base_url : string;
  max_retries : Z;
  retry_delay : Q;
  timeout : Q;
  validate : bool;
  log_path : string
}.

(** ** A state and exception monad over the world *)

Definition M (Env A : Type) : Type := world Env -> result A * world Env.

Definition ret {Env A} (a : A) : M Env A := fun w => (Ok a, w).

Definition raise {Env A} (e : pyexc) : M Env A := fun w => (Raise e, w).

Definition bind {Env A B} (c : M Env A) (k : A -> M Env B) : M Env B :=
  fun w =>
    match c w with
    | (Ok a, w') => k a w'
    | (Raise e, w') => (Raise e, w')
    end.

(** [try: c except Exception as exc: h exc]; what [h] raises propagates. *)
Definition try_except {Env A} (c : M Env A) (h : pyexc -> M Env A)
    : M Env A :=
  fun w =>
    match c w with
    | (Ok a, w') => (Ok a, w')
    | (Raise e, w') => h e w'
    end.

Declare Scope monad_scope.
Delimit Scope monad_scope with monad.
Notation "x <- c ;; k" := (bind c (fun x => k))
  (at level 20, c at level 99, k at level 200) : monad_scope.
Notation "c ;; k" := (bind c (fun _ => k))
  (at level 100, k at level 200, right associativity) : monad_scope.
Local Open Scope monad_scope.

(** Lifting a pure computation that may raise. *)
Definition lift {Env A} (r : result A) : M Env A := fun w => (r, w).

Section Engine.

Context {Env : Type} `{RT : Runtime Env}.

(** *** Calls into the runtime *)

Definition now_iso : M Env string :=
  fun w =>
    let '(s, e) := utc_now_isoformat (env w) in
    (Ok s, Build_world e (_id_counter w) (_entries w) (trace w)).

Definition monotonic : M Env Q :=
  fun w =>
    let '(t, e) := time_monotonic (env w) in
    (Ok t, Build_world e (_id_counter w) (_entries w) (trace w)).

(** [time.sleep(secs)]: a negative length is a [ValueError]. *)
Definition time_sleep (secs : Q) : M Env unit :=
  fun w =>
    if Qle_bool 0 secs then
      (Ok tt, Build_world (os_sleep secs (env w)) (_id_counter w)
                (_entries w) (trace w ++ [EvSleep secs]))
    else
      (Raise {| exc_class_of := OtherException;
                exc_name := "ValueError";
                exc_str := "sleep length must be non-negative";
                exc_code := PyNone;
                exc_data := PyNone |}, w).

Definition _http_post (url : string) (payload : pyvalue) (tmo : Q)
    : M Env (Z * string) :=
  fun w =>
    let '(o, e) := http_post url payload tmo (env w) in
    let w' := Build_world e (_id_counter w) (_entries w)
                (trace w ++ [EvPost url payload tmo o]) in
    match o with
    | HttpOk status_code body => (Ok (status_code, body), w')
    | HttpRaise te => (Raise (exc_of_transport te), w')
    end.

(** [str(v)]: a [str] is itself, anything else prints as its [repr]. *)
Definition py_str (v : pyvalue) : string :=
  match v with
  | PyStr s => s
  | _ => py_repr v
  end.

(** [cls(message, code=code, data=data)] for the client's own classes. *)
Definition vice_error (cls : exc_class) (message : pyvalue) (code : pyvalue)
    (data : pyvalue) : pyexc :=
  {| exc_class_of := cls;
     exc_name := class_name cls;
     exc_str := py_str message;
     exc_code := code;
     exc_data := data |}.

(** *** MCPReliabilityMonitor *)

(** The file write of [record] with its [except OSError]: the outcome of
    the write is dropped. *)
Definition persist (path : string) (entry : LogEntry) : M Env unit :=
  fun w =>
    let '(_, e) := append_entry path entry (env w) in
    (Ok tt, Build_world e (_id_counter w) (_entries w) (trace w)).

Definition record (path : string) (tool_ : string) (duration_ms_ : Q)
    (success_ : bool) (error_ : option string) (error_code_ : pyvalue)
    (retry_count_ : Z) (fallback_used_ : bool) : M Env unit :=
  stamp <- now_iso ;;
  let entry :=
    {| ts := stamp;
       tool := tool_;
       duration_ms := py_round duration_ms_ 2;
       success := success_;
       error := error_;
       error_code := error_code_;
       retry_count := retry_count_;
       fallback_used := fallback_used_ |} in
  (fun w => (Ok tt, Build_world (env w) (_id_counter w)
                      (_entries w ++ [entry]) (trace w))) ;;
  persist path entry.

End Engine.

(** [failures_by_tool[e["tool"]] = failures_by_tool.get(e["tool"], 0) + 1]. *)
Definition count_failure (m : gmap string Z) (e : LogEntry)
    : gmap string Z :=
  <[tool e := default 0 (m !! tool e) + 1]> m.

Section Stats.
Context {Env : Type} `{RT : Runtime Env}.

(** [round] is applied to the doubles the two divisions return; the
    float it returns is the double nearest to the decimal, and is
    represented by that decimal. *)
Definition get_stats_of (entries : list LogEntry) : Stats :=
  let total := Z.of_nat (length entries) in
  if total =? 0 then
    {| total_calls := 0;
       failures := 0;
       avg_latency_ms := 0%Q;
       failure_rate := 0%Q;
       failures_by_tool := ∅ |}
  else
    let failed := filter (fun e => success e = false) entries in
    let durations := map duration_ms entries in
    {| total_calls := total;
       failures := Z.of_nat (length failed);
       avg_latency_ms :=
         py_round (float_div_int (float_sum durations) total) 2;
       failure_rate :=
         py_round (int_truediv (Z.of_nat (length failed)) total) 4;
       failures_by_tool := foldl count_failure ∅ failed |}.

End Stats.

Definition get_recent_failures_of (entries : list LogEntry) (n : Z)
    : list LogEntry :=
  let failed := filter (fun e => success e = false) entries in
  slice_from failed (- n).

Definition get_stats {Env} `{RT : Runtime Env} : M Env Stats :=
  fun w => (Ok (get_stats_of (_entries w)), w).

Definition get_recent_failures {Env} (n : Z) : M Env (list LogEntry) :=
  fun w => (Ok (get_recent_failures_of (_entries w) n), w).

(** ** ViceMCPClient *)

Section Client.

Context {Env : Type} `{RT : Runtime Env}.

Definition _next_id : M Env Z :=
  fun w =>
    let n := _id_counter w + 1 in
    (Ok n, Build_world (env w) n (_entries w) (trace w)).

(** The request object of the wrapped encoding. *)
Definition _build_mcp_payload (tool_name : string) (arguments : pydict)
    : M Env pyvalue :=
  i <- _next_id ;;
  ret (PyDict [("jsonrpc", PyStr "2.0");
               ("method", PyStr "tools/call");
               ("params", PyDict [("name", PyStr tool_name);
                                  ("arguments", PyDict arguments)]);
               ("id", PyInt i)]).

(** The request object of the direct encoding. *)
Definition _build_direct_payload (tool_name : string) (arguments : pydict)
    : M Env pyvalue :=
  i <- _next_id ;;
  ret (PyDict [("jsonrpc", PyStr "2.0");
               ("method", PyStr tool_name);
               ("params", PyDict arguments);
               ("id", PyInt i)]).

Definition _parse_response (body : string) : result pydict :=
  match json_loads body with
  | inl exc =>
      Raise (vice_error ViceMCPProtocolError
               (PyStr ("Invalid JSON in response: " +:+ exc))
               (PyInt JSONRPC_PARSE_ERROR) PyNone)
  | inr (PyDict data) => Ok data
  | inr _ =>
      Raise (vice_error ViceMCPProtocolError
               (PyStr "Response is not a JSON object")
               (PyInt JSONRPC_INVALID_REQUEST) PyNone)
  end.

(** [code in _PROTOCOL_ERROR_CODES]: the set holds the integers of the
    band, a number is found by its value ([True] is 1, a float that is
    whole counts as that integer), and an unhashable value is a
    [TypeError]. *)
Definition in_protocol_codes (code : pyvalue) : result bool :=
  match unhashable code with
  | Some n =>
      Raise {| exc_class_of := OtherException;
               exc_name := "TypeError";
               exc_str := "unhashable type: '" +:+ n +:+ "'";
               exc_code := PyNone;
               exc_data := PyNone |}
  | None =>
      Ok match code with
         | PyInt z => in_protocol_range z
         | PyBool b => in_protocol_range (if b then 1 else 0)
         | PyFloat q =>
             Qeq_bool q (inject_Z (Qfloor q)) && in_protocol_range (Qfloor q)
         | _ => false
         end
  end.

Definition _unwrap_result (data : pydict) : result pyvalue :=
  match dict_get data "error" with
  | Some err =>
      let '(code, message, err_data) :=
        match err with
        | PyDict d =>
            (default (PyInt (-1)) (dict_get d "code"),
             default (PyStr (py_str err)) (dict_get d "message"),
             default PyNone (dict_get d "data"))
        | _ => (PyInt (-1), PyStr (py_str err), PyNone)
        end in
      match in_protocol_codes code with
      | Raise e => Raise e
      | Ok true => Raise (vice_error ViceMCPProtocolError message code err_data)
      | Ok false => Raise (vice_error ViceMCPToolError message code err_data)
      end
  | None =>
      let result_ := default PyNone (dict_get data "result") in
      match result_ with
      | PyDict r =>
          match dict_get r "content" with
          | Some content =>
              match content with
              | PyList [PyDict block] =>
                  match dict_get block "type" with
                  | Some (PyStr "text") =>
                      let text := default (PyStr "") (dict_get block "text") in
                      match text with
                      | PyStr s =>
                          match json_loads s with
                          | inr v => Ok v
                          | inl _ => Ok text
                          end
                      | _ => Ok text
                      end
                  | _ => Ok content
                  end
              | _ => Ok content
              end
          | None => Ok result_
          end
      | _ => Ok result_
      end
  end.

(** How one pass through the body of the [for] loop ends; the loop
    variables [last_error] and [fallback_used] travel with it. *)
Inductive loop_ctl : Type :=
| Continue (last_error : option pyexc) (fallback_used_ : bool)
| Break (last_error : option pyexc) (fallback_used_ : bool)
| Return (v : pyvalue).

(** [time.sleep(self.retry_delay * (2 ** attempt))]. *)
Definition backoff (self : ViceMCPClient) (attempt : Z) : M Env unit :=
  time_sleep (retry_delay self * inject_Z (2 ^ attempt)).

(** The [try] block of the loop body: send, decode, record the success
    and return. *)
Definition try_block (self : ViceMCPClient) (tool_name : string)
    (start : Q) (attempt : Z) (fallback_used_ : bool) (payload : pyvalue)
    : M Env loop_ctl :=
  let current_timeout := (timeout self * (3 # 2) ^ attempt)%Q in
  resp <- _http_post (_base_url self) payload current_timeout ;;
  data <- lift (_parse_response resp.2) ;;
  result_ <- lift (_unwrap_result data) ;;
  now <- monotonic ;;
  let elapsed := ((now - start) * inject_Z 1000)%Q in
  record (log_path self) tool_name elapsed true None PyNone attempt
    fallback_used_ ;;
  ret (Return result_).

(** The four [except] clauses of the loop body, tried in the order of
    the source: [ViceMCPProtocolError], [ViceMCPToolError],
    [(OSError, ConnectionError)], [Exception]. *)
Definition except_clauses (self : ViceMCPClient) (tool_name : string)
    (start : Q) (attempt : Z) (last_error : option pyexc)
    (fallback_used_ : bool) (exc : pyexc) : M Env loop_ctl :=
  match exc_class_of exc with
  | ViceMCPProtocolError =>
      if negb fallback_used_ then ret (Continue (Some exc) true)
      else
        (if attempt <? max_retries self
         then backoff self attempt else ret tt) ;;
        ret (Continue (Some exc) fallback_used_)
  | ViceMCPToolError =>
      now <- monotonic ;;
      let elapsed := ((now - start) * inject_Z 1000)%Q in
      record (log_path self) tool_name elapsed false
        (match last_error with
         | Some le => Some (exc_str le)
         | None => None
         end)
        (match last_error with
         | Some le => exc_code le
         | None => PyNone
         end)
        attempt fallback_used_ ;;
      raise exc
  | OSError =>
      (if attempt <? max_retries self
       then backoff self attempt else ret tt) ;;
      ret (Continue (Some exc) fallback_used_)
  | _ =>
      let exc_name_ := exc_name exc in
      let is_timeout :=
        contains "timeout" (lower exc_name_)
        || contains "Timeout" (exc_str exc) in
      let is_connection :=
        contains "connect" (lower exc_name_)
        || contains "Connect" (exc_str exc) in
      if is_timeout && (attempt <? max_retries self) then
        backoff self attempt ;; ret (Continue (Some exc) fallback_used_)
      else if is_connection && (attempt <? max_retries self) then
        backoff self attempt ;; ret (Continue (Some exc) fallback_used_)
      else if attempt <? max_retries self then
        backoff self attempt ;; ret (Continue (Some exc) fallback_used_)
      else ret (Break (Some exc) fallback_used_)
  end.

(** The body of the [for attempt in range(self.max_retries + 1)] loop of
    [_call_raw]: the payload is built before the [try]. *)
Definition attempt_body (self : ViceMCPClient) (tool_name : string)
    (arguments : pydict) (start : Q) (attempt : Z)
    (last_error : option pyexc) (fallback_used_ : bool) : M Env loop_ctl :=
  payload <- (if fallback_used_
              then _build_direct_payload tool_name arguments
              else _build_mcp_payload tool_name arguments) ;;
  try_except
    (try_block self tool_name start attempt fallback_used_ payload)
    (except_clauses self tool_name start attempt last_error fallback_used_).

(** How the loop as a whole ends: by [return], or by running out of
    attempts (or [break]) with the loop variables as they then are. *)
Inductive loop_exit : Type :=
| Returned (v : pyvalue)
| Exhausted (last_error : option pyexc) (fallback_used_ : bool) (attempts : Z).

(** The [for] loop over the attempt numbers still to run. *)
Fixpoint retry_loop (self : ViceMCPClient) (tool_name : string)
    (arguments : pydict) (start : Q) (todo : list Z)
    (last_error : option pyexc) (fallback_used_ : bool) (attempts : Z)
    : M Env loop_exit :=
  match todo with
  | [] => ret (Exhausted last_error fallback_used_ attempts)
  | attempt :: todo' =>
      let attempts := attempt + 1 in
      ctl <- attempt_body self tool_name arguments start attempt
               last_error fallback_used_ ;;
      match ctl with
      | Return v => ret (Returned v)
      | Continue le fu =>
          retry_loop self tool_name arguments start todo' le fu attempts
      | Break le fu => ret (Exhausted le fu attempts)
      end
  end.

(** [range(n)]. *)
Definition range (n : Z) : list Z := map Z.of_nat (seq 0 (Z.to_nat n)).

Definition _call_raw (self : ViceMCPClient) (tool_name : string)
    (arguments : pydict) : M Env pyvalue :=
  start <- monotonic ;;
  ex <- retry_loop self tool_name arguments start
          (range (max_retries self + 1)) None false 0 ;;
  match ex with
  | Returned v => ret v
  | Exhausted last_error fallback_used_ attempts =>
      now <- monotonic ;;
      let elapsed := ((now - start) * inject_Z 1000)%Q in
      let error_msg :=
        match last_error with
        | Some le => exc_str le
        | None => "Unknown error"
        end in
      let error_code_ :=
        match last_error with
        | Some le => exc_code le
        | None => PyNone
        end in
      record (log_path self) tool_name elapsed false (Some error_msg)
        error_code_ (attempts - 1) fallback_used_ ;;
      match last_error with
      | Some le =>
          if is_vice_error (exc_class_of le) then raise le
          else
            match exc_class_of le with
            | OSError =>
                raise (vice_error ViceMCPConnectionError
                         (PyStr ("Failed to connect after " +:+ str_int attempts
                                   +:+ " attempts: " +:+ exc_str le))
                         (PyInt 0) PyNone)
            | _ =>
                raise (vice_error ViceMCPError
                         (PyStr ("Call to " +:+ tool_name +:+ " failed after "
                                   +:+ str_int attempts +:+ " attempts: "
                                   +:+ error_msg))
                         (PyInt 0) PyNone)
            end
      | None =>
          raise (vice_error ViceMCPError
                   (PyStr ("Call to " +:+ tool_name +:+ " failed after "
                             +:+ str_int attempts +:+ " attempts: "
                             +:+ error_msg))
                   (PyInt 0) PyNone)
      end
  end.

Definition call (self : ViceMCPClient) (tool_name : string)
    (kwargs : pydict) : M Env pyvalue :=
  if validate self then
    let errors := validate_params tool_name kwargs in
    match errors with
    | _ :: _ =>
        raise (vice_error ViceMCPValidationError
                 (PyStr (String.concat "; " errors))
                 (PyInt JSONRPC_INVALID_PARAMS) PyNone)
    | [] => _call_raw self tool_name kwargs
    end
  else _call_raw self tool_name kwargs.

End Client.

(** ** A scripted runtime

    A small, fully computable [Runtime] used to run the engine on
    concrete inputs: the network answers from a script, one outcome per
    request, and refuses the connection once the script is used up; the
    clock advances by one second at every reading; the disk can be full;
    [sum] adds doubles from left to right. *)

Record stub_env : Type := {
  script : list http_outcome;
  clock : Z;
  disk_full : bool
}.

Definition connection_refused : transport_error :=
  {| te_is_oserror := true;
     te_name := "ConnectionRefusedError";
     te_str := "[Errno 111] Connection refused";
     te_code := PyNone |}.

(** The few response bodies the scripted runtime can parse. *)
Definition stub_json_loads (s : string) : string + pyvalue :=
  if String.eqb s "ok" then
    inr (PyDict [("jsonrpc", PyStr "2.0"); ("id", PyInt 1);
                 ("result", PyDict [("pong", PyBool true)])])
  else if String.eqb s "method-not-found" then
    inr (PyDict [("jsonrpc", PyStr "2.0"); ("id", PyInt 1);
                 ("error", PyDict [("code", PyInt (-32601));
                                   ("message", PyStr "Method not found")])])
  else if String.eqb s "invalid-address" then
    inr (PyDict [("jsonrpc", PyStr "2.0"); ("id", PyInt 1);
                 ("error", PyDict [("code", PyInt (-32002));
                                   ("message", PyStr "Invalid address")])])
  else inl "Expecting value: line 1 column 1 (char 0)".

#[local] Instance stub_runtime : Runtime stub_env := {
  utc_now_isoformat e := ("2026-01-01T00:00:00+00:00", e);
  time_monotonic e :=
    (inject_Z (clock e),
     {| script := script e; clock := clock e + 1; disk_full := disk_full e |});
  os_sleep _ e := e;
  http_post _ _ _ e :=
    match script e with
    | [] => (HttpRaise connection_refused, e)
    | o :: s =>
        (o, {| script := s; clock := clock e; disk_full := disk_full e |})
    end;
  append_entry _ _ e := (negb (disk_full e), e);
  json_loads := stub_json_loads;
  py_repr _ := "<object>";
  float_sum := foldl (fun acc x => double_of_Q (acc + x)) 0%Q
}.

(** The state [ViceMCPClient.__init__] and [MCPReliabilityMonitor.__init__]
    leave behind: counter at zero, no entries. *)
Definition init_world {Env : Type} (e : Env) : world Env :=
  Build_world e 0 [] [].

Definition stub_world (s : list http_outcome) (full : bool)
    : world stub_env :=
  init_world {| script := s; clock := 0; disk_full := full |}.

(** The constructor's defaults, with an explicit log path. *)
Definition default_client : ViceMCPClient :=
  {| _base_url := "http://127.0.0.1:6510/mcp";
     max_retries := 3;
     retry_delay := 1 # 2;
     timeout := 10 # 1;
     validate := true;
     log_path := "reliability.jsonl" |}.

(** ** Vocabulary of the statements

    Names for the worlds, requests and events the properties below speak
    about.  None of this is part of the client; each definition describes
    what one step of it leaves behind. *)

Section Vocabulary.

Context {Env : Type} `{RT : Runtime Env}.

(** The entry [record] builds in world [w]. *)
Definition entry_in (w : world Env) (tool_ : string) (d : Q) (s : bool)
    (er : option string) (c : pyvalue) (rc : Z) (fu : bool) : LogEntry :=
  {| ts := (utc_now_isoformat (env w)).1;
     tool := tool_;
     duration_ms := py_round d 2;
     success := s;
     error := er;
     error_code := c;
     retry_count := rc;
     fallback_used := fu |}.

(** The world [record] leaves behind. *)
Definition recorded (path : string) (tool_ : string) (d : Q) (s : bool)
    (er : option string) (c : pyvalue) (rc : Z) (fu : bool) (w : world Env)
    : world Env :=
  let entry := entry_in w tool_ d s er c rc fu in
  Build_world (append_entry path entry (utc_now_isoformat (env w)).2).2
    (_id_counter w) (_entries w ++ [entry]) (trace w).

(** The request object of the wrapped and of the direct encoding with
    request id [i]. *)
Definition wrapped_request (tool_name : string) (arguments : pydict) (i : Z)
    : pyvalue :=
  PyDict [("jsonrpc", PyStr "2.0");
          ("method", PyStr "tools/call");
          ("params", PyDict [("name", PyStr tool_name);
                             ("arguments", PyDict arguments)]);
          ("id", PyInt i)].

Definition direct_request (tool_name : string) (arguments : pydict) (i : Z)
    : pyvalue :=
  PyDict [("jsonrpc", PyStr "2.0");
          ("method", PyStr tool_name);
          ("params", PyDict arguments);
          ("id", PyInt i)].

Definition request_of (direct : bool) (tool_name : string)
    (arguments : pydict) (i : Z) : pyvalue :=
  if direct then direct_request tool_name arguments i
  else wrapped_request tool_name arguments i.

(** The timeout of attempt [attempt]. *)
Definition attempt_timeout (self : ViceMCPClient) (attempt : Z) : Q :=
  (timeout self * (3 # 2) ^ attempt)%Q.

(** The back-off slept after attempt [attempt]. *)
Definition backoff_delay (self : ViceMCPClient) (attempt : Z) : Q :=
  (retry_delay self * inject_Z (2 ^ attempt))%Q.

(** What the client makes of a response body: [_parse_response] followed
    by [_unwrap_result]. *)
Definition decode (body : string) : result pyvalue :=
  match _parse_response body with
  | Ok data => _unwrap_result data
  | Raise e => Raise e
  end.

(** What the client makes of the outcome of a send. *)
Definition outcome_result (o : http_outcome) : result pyvalue :=
  match o with
  | HttpOk _ body => decode body
  | HttpRaise te => Raise (exc_of_transport te)
  end.

(** What the backend answers when attempt [attempt] is sent from world
    [w] in the encoding chosen by [direct]. *)
Definition reply (self : ViceMCPClient) (tool_name : string)
    (arguments : pydict) (attempt : Z) (direct : bool) (w : world Env)
    : http_outcome :=
  (http_post (_base_url self)
     (request_of direct tool_name arguments (_id_counter w + 1))
     (attempt_timeout self attempt) (env w)).1.

(** The [EvPost] event of that send. *)
Definition post_event (self : ViceMCPClient) (tool_name : string)
    (arguments : pydict) (attempt : Z) (direct : bool) (w : world Env)
    : event :=
  EvPost (_base_url self)
    (request_of direct tool_name arguments (_id_counter w + 1))
    (attempt_timeout self attempt)
    (reply self tool_name arguments attempt direct w).

(** The world right after that send. *)
Definition sent (self : ViceMCPClient) (tool_name : string)
    (arguments : pydict) (attempt : Z) (direct : bool) (w : world Env)
    : world Env :=
  Build_world
    (http_post (_base_url self)
       (request_of direct tool_name arguments (_id_counter w + 1))
       (attempt_timeout self attempt) (env w)).2
    (_id_counter w + 1) (_entries w)
    (trace w ++ [post_event self tool_name arguments attempt direct w]).

(** The world after [start = time.monotonic()]. *)
Definition started (w : world Env) : world Env :=
  Build_world (time_monotonic (env w)).2 (_id_counter w) (_entries w)
    (trace w).

(** The world after a sleep of [secs]. *)
Definition slept (secs : Q) (w : world Env) : world Env :=
  Build_world (os_sleep secs (env w)) (_id_counter w) (_entries w)
    (trace w ++ [EvSleep secs]).

(** The tail of the [try] block once the response is decoded. *)
Definition on_success (self : ViceMCPClient) (tool_name : string)
    (start : Q) (attempt : Z) (fu : bool) (v : pyvalue) : M Env loop_ctl :=
  now <- monotonic ;;
  record (log_path self) tool_name ((now - start) * inject_Z 1000)%Q true
    None PyNone attempt fu ;;
  ret (Return v).

(** The error [_call_raw] raises once the loop is over. *)
Definition exhausted_error (tool_name : string) (last_error : option pyexc)
    (attempts : Z) : pyexc :=
  let generic msg :=
    vice_error ViceMCPError
      (PyStr ("Call to " +:+ tool_name +:+ " failed after "
                +:+ str_int attempts +:+ " attempts: " +:+ msg))
      (PyInt 0) PyNone in
  match last_error with
  | Some le =>
      if is_vice_error (exc_class_of le) then le
      else
        match exc_class_of le with
        | OSError =>
            vice_error ViceMCPConnectionError
              (PyStr ("Failed to connect after " +:+ str_int attempts
                        +:+ " attempts: " +:+ exc_str le))
              (PyInt 0) PyNone
        | _ => generic (exc_str le)
        end
  | None => generic "Unknown error"
  end.

(** The [id] member of a request object, when it is an integer. *)
Definition request_id (payload : pyvalue) : option Z :=
  match payload with
  | PyDict d =>
      match dict_get d "id" with
      | Some (PyInt i) => Some i
      | _ => None
      end
  | _ => None
  end.

(** The ids of the requests of a trace, in the order they were sent;
    [None] marks a request without an integer id. *)
Fixpoint sent_ids (tr : list event) : list (option Z) :=
  match tr with
  | [] => []
  | EvPost _ payload _ _ :: tr' => request_id payload :: sent_ids tr'
  | EvSleep _ :: tr' => sent_ids tr'
  end.

(** [c + 1, ..., c + n]. *)
Definition ids_from (c : Z) (n : nat) : list Z :=
  (fun k => c + Z.of_nat k) <$> seq 1 n.

(** From [w] to [w'] the client sent [n] requests, numbered with the next
    [n] values of the counter. *)
Definition advances (w w' : world Env) : Prop :=
  exists n : nat,
    _id_counter w' = _id_counter w + Z.of_nat n /\
    sent_ids (trace w')
    = sent_ids (trace w) ++ (Some <$> ids_from (_id_counter w) n).

(** From [w] to [w'] no request was sent. *)
Definition quiet (w w' : world Env) : Prop :=
  _id_counter w' = _id_counter w /\
  sent_ids (trace w') = sent_ids (trace w).

(** A caller that makes one call after the other, whatever each of them
    returns or raises. *)
Fixpoint run_calls (self : ViceMCPClient) (calls : list (string * pydict))
    (w : world Env) : world Env :=
  match calls with
  | [] => w
  | (tool_name, kwargs) :: calls' =>
      run_calls self calls' (call self tool_name kwargs w).2
  end.

End Vocabulary.

Definition invalid_address_error : pyexc :=
  vice_error ViceMCPToolError (PyStr "Invalid address") (PyInt (-32002))
    PyNone.

Definition method_not_found_error : pyexc :=
  vice_error ViceMCPProtocolError (PyStr "Method not found")
    (PyInt (-32601)) PyNone.

(** A runtime whose network is down: every send is refused. *)
Definition down_runtime : Runtime stub_env :=
  {| utc_now_isoformat := utc_now_isoformat (Runtime := stub_runtime);
     time_monotonic := time_monotonic (Runtime := stub_runtime);
     os_sleep := os_sleep (Runtime := stub_runtime);
     http_post _ _ _ e := (HttpRaise connection_refused, e);
     append_entry := append_entry (Runtime := stub_runtime);
     json_loads := stub_json_loads;
     py_repr := py_repr (Runtime := stub_runtime);
     float_sum := float_sum (Runtime := stub_runtime) |}.

Definition sample_entry (ok : bool) : LogEntry :=
  {| ts := "2026-01-01T00:00:00+00:00";
     tool := "vice.ping";
     duration_ms := 5 # 1;
     success := ok;
     error := if ok then None else Some "boom";
     error_code := PyNone;
     retry_count := 0;
     fallback_used := false |}.

(** The classification of exhaustion in the words of the specification:
    a connection-class error when the last failure is transport-level, a
    generic exhaustion error otherwise. *)
Definition transport_level (c : exc_class) : bool :=
  match c with
  | OSError | OtherException => true
  | _ => false
  end.

Definition exhaustion_as_specified (last_failure raised : pyexc) : Prop :=
  if transport_level (exc_class_of last_failure)
  then exc_class_of raised = ViceMCPConnectionError
  else exc_class_of raised = ViceMCPError.

(** ** What a run leaves in the trace *)

(** The payloads, the timeouts and the sleeps of a trace, each in the
    order of the events. *)
Fixpoint post_payloads (tr : list event) : list pyvalue :=
  match tr with
  | [] => []
  | EvPost _ payload _ _ :: tr' => payload :: post_payloads tr'
  | EvSleep _ :: tr' => post_payloads tr'
  end.

Fixpoint post_timeouts (tr : list event) : list Q :=
  match tr with
  | [] => []
  | EvPost _ _ tmo _ :: tr' => tmo :: post_timeouts tr'
  | EvSleep _ :: tr' => post_timeouts tr'
  end.

Fixpoint sleeps (tr : list event) : list Q :=
  match tr with
  | [] => []
  | EvPost _ _ _ _ :: tr' => sleeps tr'
  | EvSleep secs :: tr' => secs :: sleeps tr'
  end.

(** [range(a, a + n)]. *)
Definition range_from (a : Z) (n : nat) : list Z :=
  (fun i => a + Z.of_nat i) <$> seq 0 n.

(** The [ValueError] of [time.sleep] on a negative length. *)
Definition sleep_value_error : pyexc :=
  {| exc_class_of := OtherException;
     exc_name := "ValueError";
     exc_str := "sleep length must be non-negative";
     exc_code := PyNone;
     exc_data := PyNone |}.

#[local] Instance exc_class_eq_dec : EqDecision exc_class.
Proof. solve_decision. Defined.


Section Steps.

Context {Env : Type} `{RT : Runtime Env}.

(** The ways one pass through the loop body can end, read off the [try]
    block and its [except] clauses: the result of the pass and the world
    it leaves, for attempt [attempt] started in world [w] with the loop
    variables [le] ([last_error]) and [fu] ([fallback_used]). *)
Inductive attempt_step (self : ViceMCPClient) (tool_name : string)
    (arguments : pydict) (start : Q) (attempt : Z) (le : option pyexc)
    (fu : bool) (w : world Env) : result loop_ctl -> world Env -> Prop :=
| step_success v :
    outcome_result (reply self tool_name arguments attempt fu w) = Ok v ->
    attempt_step self tool_name arguments start attempt le fu w
      (Ok (Return v))
      (recorded (log_path self) tool_name
         (((time_monotonic
              (env (sent self tool_name arguments attempt fu w))).1
           - start) * inject_Z 1000)%Q
         true None PyNone attempt fu
         (started (sent self tool_name arguments attempt fu w)))
| step_tool_error exc :
    outcome_result (reply self tool_name arguments attempt fu w)
    = Raise exc ->
    exc_class_of exc = ViceMCPToolError ->
    attempt_step self tool_name arguments start attempt le fu w
      (Raise exc)
      (recorded (log_path self) tool_name
         (((time_monotonic
              (env (sent self tool_name arguments attempt fu w))).1
           - start) * inject_Z 1000)%Q
         false (exc_str <$> le) (from_option exc_code PyNone le) attempt fu
         (started (sent self tool_name arguments attempt fu w)))
| step_fallback exc :
    outcome_result (reply self tool_name arguments attempt fu w)
    = Raise exc ->
    exc_class_of exc = ViceMCPProtocolError ->
    fu = false ->
    attempt_step self tool_name arguments start attempt le fu w
      (Ok (Continue (Some exc) true))
      (sent self tool_name arguments attempt fu w)
| step_backoff exc :
    outcome_result (reply self tool_name arguments attempt fu w)
    = Raise exc ->
    exc_class_of exc <> ViceMCPToolError ->
    (exc_class_of exc = ViceMCPProtocolError -> fu = true) ->
    attempt < max_retries self ->
    Qle_bool 0 (backoff_delay self attempt) = true ->
    attempt_step self tool_name arguments start attempt le fu w
      (Ok (Continue (Some exc) fu))
      (slept (backoff_delay self attempt)
         (sent self tool_name arguments attempt fu w))
| step_bad_sleep exc :
    outcome_result (reply self tool_name arguments attempt fu w)
    = Raise exc ->
    exc_class_of exc <> ViceMCPToolError ->
    (exc_class_of exc = ViceMCPProtocolError -> fu = true) ->
    attempt < max_retries self ->
    Qle_bool 0 (backoff_delay self attempt) = false ->
    attempt_step self tool_name arguments start attempt le fu w
      (Raise sleep_value_error)
      (sent self tool_name arguments attempt fu w)
| step_last exc (by_break : bool) :
    outcome_result (reply self tool_name arguments attempt fu w)
    = Raise exc ->
    exc_class_of exc <> ViceMCPToolError ->
    (exc_class_of exc = ViceMCPProtocolError -> fu = true) ->
    max_retries self <= attempt ->
    attempt_step self tool_name arguments start attempt le fu w
      (Ok (if by_break then Break (Some exc) fu else Continue (Some exc) fu))
      (sent self tool_name arguments attempt fu w).

End Steps.

(** What one attempt leaves in the trace: the encoding used, what came
    back, and whether a back-off sleep followed. *)
Record attempt_rec : Type := {
  ar_direct : bool;
  ar_outcome : http_outcome;
  ar_slept : bool
}.

Section Runs.

Context {Env : Type} `{RT : Runtime Env}.

(** The events of consecutive attempts, the first one numbered [k] and
    sent with request id [c + 1]. *)
Fixpoint render (self : ViceMCPClient) (tool_name : string)
    (arguments : pydict) (c : Z) (k : Z) (recs : list attempt_rec)
    : list event :=
  match recs with
  | [] => []
  | r :: recs' =>
      EvPost (_base_url self)
        (request_of (ar_direct r) tool_name arguments (c + 1))
        (attempt_timeout self k) (ar_outcome r)
      :: (if ar_slept r then [EvSleep (backoff_delay self k)] else [])
      ++ render self tool_name arguments (c + 1) (k + 1) recs'
  end.

(** Whether an outcome decodes to a protocol error. *)
Definition protocol_failure (o : http_outcome) : bool :=
  match outcome_result o with
  | Raise e => bool_decide (exc_class_of e = ViceMCPProtocolError)
  | Ok _ => false
  end.

(** The encodings of consecutive attempts when the first one starts with
    [fallback_used = fu]: an attempt is direct exactly when the flag is
    set, and a protocol failure sets it for good. *)
Fixpoint encodings_follow (fu : bool) (recs : list attempt_rec) : Prop :=
  match recs with
  | [] => True
  | r :: recs' =>
      ar_direct r = fu /\
      encodings_follow (fu || protocol_failure (ar_outcome r)) recs'
  end.

(** A sleep follows attempt [k + i] only if more attempts are allowed
    after it, and then another attempt does follow. *)
Fixpoint sleeps_between (self : ViceMCPClient) (k : Z)
    (recs : list attempt_rec) : Prop :=
  match recs with
  | [] => True
  | r :: recs' =>
      (ar_slept r = true -> k < max_retries self /\ recs' <> []) /\
      sleeps_between self (k + 1) recs'
  end.

End Runs.

(** What came back for each request of a trace, in the order of the
    events. *)
Fixpoint post_outcomes (tr : list event) : list http_outcome :=
  match tr with
  | [] => []
  | EvPost _ _ _ o :: tr' => o :: post_outcomes tr'
  | EvSleep _ :: tr' => post_outcomes tr'
  end.

(** ** The convenience methods

    One method per tool: each shapes its arguments into a keyword
    dictionary and hands it to [call].  Arguments are taken at their
    annotated types: [int] is [Z], [Optional[T]] is [option T],
    [Union[int, str]] is [int_or_str], [Sequence[T]] is [list T]. *)

(** [d[k] = v]: the value is replaced in place when the key is there,
    appended otherwise. *)
Fixpoint dict_set (d : pydict) (k : string) (v : pyvalue) : pydict :=
  match d with
  | [] => [(k, v)]
  | (k', v') :: d' =>
      if String.eqb k' k then (k', v) :: d' else (k', v') :: dict_set d' k v
  end.

(** [if cond: d[k] = v]. *)
Definition set_if (cond : bool) (k : string) (v : pyvalue) (d : pydict)
    : pydict :=
  if cond then dict_set d k v else d.

(** [if x is not None: d[k] = conv(x)]. *)
Definition set_some {A : Type} (k : string) (conv : A -> pyvalue)
    (x : option A) (d : pydict) : pydict :=
  match x with
  | Some a => dict_set d k (conv a)
  | None => d
  end.

Inductive int_or_str : Type :=
| an_int (z : Z)
| a_str (s : string).

Definition py_int_or_str (x : int_or_str) : pyvalue :=
  match x with
  | an_int z => PyInt z
  | a_str s => PyStr s
  end.

(** [list(xs)] for a sequence of ints, of strings, and of register
    dicts ([Dict[str, int]]). *)
Definition py_int_list (xs : list Z) : pyvalue := PyList (PyInt <$> xs).

Definition py_str_list (xs : list string) : pyvalue := PyList (PyStr <$> xs).

Definition py_register_list (xs : list (list (string * Z))) : pyvalue :=
  PyList ((fun d => PyDict ((fun kv => (kv.1, PyInt kv.2)) <$> d)) <$> xs).

Module Convenience.

(** A call of a convenience method with its arguments. *)
Inductive method : Type :=
| ping
| execution_run
| execution_pause
| execution_step (count : Z) (step_over : bool)
| registers_get
| registers_set (register : string) (value : Z)
| memory_read (address : int_or_str) (size : Z) (bank : option string)
| memory_write (address : int_or_str) (data : list Z)
| memory_banks
| memory_search (start end_ : int_or_str) (pattern : list Z)
    (mask : option (list Z)) (max_results : option Z)
| memory_fill (start end_ : int_or_str) (pattern : list Z)
| memory_compare (mode : string) (kwargs : pydict)
| memory_map (start end_ : option int_or_str) (granularity : option Z)
| checkpoint_add (start : int_or_str) (end_ : option int_or_str)
    (stop load store exec_ : bool)
| checkpoint_delete (checkpoint_num : Z)
| checkpoint_list
| checkpoint_toggle (checkpoint_num : Z) (enabled : bool)
| checkpoint_set_condition (checkpoint_num : Z) (condition : string)
| checkpoint_set_ignore_count (checkpoint_num : Z) (count : Z)
| checkpoint_group_create (name : string) (checkpoint_ids : option (list Z))
| checkpoint_group_add (group : string) (checkpoint_ids : list Z)
| checkpoint_group_toggle (group : string) (enabled : bool)
| checkpoint_group_list
| checkpoint_set_auto_snapshot (checkpoint_id : Z) (snapshot_prefix : string)
    (max_snapshots : option Z) (include_disks : option bool)
| checkpoint_clear_auto_snapshot (checkpoint_id : Z)
| sprite_get (sprite : option Z)
| sprite_set (sprite : Z) (kwargs : pydict)
| sprite_inspect (sprite_number : Z) (format : option string)
| vicii_get_state
| vicii_set_state (registers : option (list (list (string * Z))))
| sid_get_state
| sid_set_state (registers : option (list (list (string * Z))))
| cia_get_state
| cia_set_state (kwargs : pydict)
| disk_attach (unit_ : Z) (path : string)
| disk_detach (unit_ : Z)
| disk_list (unit_ : Z)
| disk_read_sector (unit_ : Z) (track : Z) (sector : Z)
| autostart (path : string) (program : option string) (run : bool)
    (index : option Z)
| machine_reset (mode : option string) (run_after : option bool)
| display_screenshot (path : option string) (format : option string)
    (return_base64 : bool)
| display_get_dimensions
| keyboard_type (text : string) (petscii_upper : bool)
| keyboard_key_press (key : string) (modifiers : option (list string))
    (hold_frames : option Z) (hold_ms : option Z)
| keyboard_key_release (key : string) (modifiers : option (list string))
| keyboard_restore (pressed : bool)
| keyboard_matrix (key : option string) (row col : option Z) (pressed : bool)
    (hold_frames : option Z) (hold_ms : option Z)
| joystick_set (port : option Z) (direction : option string)
    (fire : option bool)
| disassemble (address : int_or_str) (count : option Z)
    (show_symbols : option bool)
| symbols_load (path : string) (format : option string)
| symbols_lookup (name : option string) (address : option int_or_str)
| watch_add (address : int_or_str) (size : option Z) (type_ : option string)
    (condition : option string)
| backtrace (depth : option Z)
| run_until (address : option int_or_str) (cycles : option Z)
| snapshot_save (name : string) (description : option string)
    (include_roms : option bool) (include_disks : option bool)
| snapshot_load (name : string)
| snapshot_list
| cycles_stopwatch (action : string)
| trace_start (output_file : string) (kwargs : pydict)
| trace_stop (trace_id : string)
| interrupt_log_start (types : option (list string)) (max_entries : option Z)
| interrupt_log_stop (log_id : string)
| interrupt_log_read (log_id : string) (since_index : option Z).

(** The tool name the method passes to [call]. *)
Definition tool_of (m : method) : string :=
  match m with
  | ping => "vice.ping"
  | execution_run => "vice.execution.run"
  | execution_pause => "vice.execution.pause"
  | execution_step _ _ => "vice.execution.step"
  | registers_get => "vice.registers.get"
  | registers_set _ _ => "vice.registers.set"
  | memory_read _ _ _ => "vice.memory.read"
  | memory_write _ _ => "vice.memory.write"
  | memory_banks => "vice.memory.banks"
  | memory_search _ _ _ _ _ => "vice.memory.search"
  | memory_fill _ _ _ => "vice.memory.fill"
  | memory_compare _ _ => "vice.memory.compare"
  | memory_map _ _ _ => "vice.memory.map"
  | checkpoint_add _ _ _ _ _ _ => "vice.checkpoint.add"
  | checkpoint_delete _ => "vice.checkpoint.delete"
  | checkpoint_list => "vice.checkpoint.list"
  | checkpoint_toggle _ _ => "vice.checkpoint.toggle"
  | checkpoint_set_condition _ _ => "vice.checkpoint.set_condition"
  | checkpoint_set_ignore_count _ _ => "vice.checkpoint.set_ignore_count"
  | checkpoint_group_create _ _ => "vice.checkpoint.group.create"
  | checkpoint_group_add _ _ => "vice.checkpoint.group.add"
  | checkpoint_group_toggle _ _ => "vice.checkpoint.group.toggle"
  | checkpoint_group_list => "vice.checkpoint.group.list"
  | checkpoint_set_auto_snapshot _ _ _ _ => "vice.checkpoint.set_auto_snapshot"
  | checkpoint_clear_auto_snapshot _ => "vice.checkpoint.clear_auto_snapshot"
  | sprite_get _ => "vice.sprite.get"
  | sprite_set _ _ => "vice.sprite.set"
  | sprite_inspect _ _ => "vice.sprite.inspect"
  | vicii_get_state => "vice.vicii.get_state"
  | vicii_set_state _ => "vice.vicii.set_state"
  | sid_get_state => "vice.sid.get_state"
  | sid_set_state _ => "vice.sid.set_state"
  | cia_get_state => "vice.cia.get_state"
  | cia_set_state _ => "vice.cia.set_state"
  | disk_attach _ _ => "vice.disk.attach"
  | disk_detach _ => "vice.disk.detach"
  | disk_list _ => "vice.disk.list"
  | disk_read_sector _ _ _ => "vice.disk.read_sector"
  | autostart _ _ _ _ => "vice.autostart"
  | machine_reset _ _ => "vice.machine.reset"
  | display_screenshot _ _ _ => "vice.display.screenshot"
  | display_get_dimensions => "vice.display.get_dimensions"
  | keyboard_type _ _ => "vice.keyboard.type"
  | keyboard_key_press _ _ _ _ => "vice.keyboard.key_press"
  | keyboard_key_release _ _ => "vice.keyboard.key_release"
  | keyboard_restore _ => "vice.keyboard.restore"
  | keyboard_matrix _ _ _ _ _ _ => "vice.keyboard.matrix"
  | joystick_set _ _ _ => "vice.joystick.set"
  | disassemble _ _ _ => "vice.disassemble"
  | symbols_load _ _ => "vice.symbols.load"
  | symbols_lookup _ _ => "vice.symbols.lookup"
  | watch_add _ _ _ _ => "vice.watch.add"
  | backtrace _ => "vice.backtrace"
  | run_until _ _ => "vice.run_until"
  | snapshot_save _ _ _ _ => "vice.snapshot.save"
  | snapshot_load _ => "vice.snapshot.load"
  | snapshot_list => "vice.snapshot.list"
  | cycles_stopwatch _ => "vice.cycles.stopwatch"
  | trace_start _ _ => "vice.trace.start"
  | trace_stop _ => "vice.trace.stop"
  | interrupt_log_start _ _ => "vice.interrupt.log.start"
  | interrupt_log_stop _ => "vice.interrupt.log.stop"
  | interrupt_log_read _ _ => "vice.interrupt.log.read"
  end.

(** The keyword arguments the method passes to [call], built in the
    order of the method's body. *)
Definition kwargs_of (m : method) : pydict :=
  match m with
  | ping | execution_run | execution_pause | registers_get | memory_banks
  | checkpoint_list | checkpoint_group_list | vicii_get_state
  | sid_get_state | cia_get_state | display_get_dimensions
  | snapshot_list => []
  | execution_step count step_over =>
      let args := [] in
      let args := set_if (negb (count =? 1)) "count" (PyInt count) args in
      let args := set_if step_over "step_over" (PyBool step_over) args in
      args
  | registers_set register value =>
      [("register", PyStr register); ("value", PyInt value)]
  | memory_read address size bank =>
      let args := [("address", py_int_or_str address);
                   ("size", PyInt size)] in
      let args := set_some "bank" PyStr bank args in
      args
  | memory_write address data =>
      [("address", py_int_or_str address); ("data", py_int_list data)]
  | memory_search start end_ pattern mask max_results =>
      let args := [("start", py_int_or_str start);
                   ("end", py_int_or_str end_);
                   ("pattern", py_int_list pattern)] in
      let args := set_some "mask" py_int_list mask args in
      let args := set_some "max_results" PyInt max_results args in
      args
  | memory_fill start end_ pattern =>
      [("start", py_int_or_str start); ("end", py_int_or_str end_);
       ("pattern", py_int_list pattern)]
  | memory_compare mode kwargs => ("mode", PyStr mode) :: kwargs
  | memory_map start end_ granularity =>
      let args := [] in
      let args := set_some "start" py_int_or_str start args in
      let args := set_some "end" py_int_or_str end_ args in
      let args := set_some "granularity" PyInt granularity args in
      args
  | checkpoint_add start end_ stop load store exec_ =>
      let args := [("start", py_int_or_str start)] in
      let args := set_some "end" py_int_or_str end_ args in
      let args := set_if (negb stop) "stop" (PyBool stop) args in
      let args := set_if load "load" (PyBool load) args in
      let args := set_if store "store" (PyBool store) args in
      let args := set_if (negb exec_) "exec" (PyBool exec_) args in
      args
  | checkpoint_delete checkpoint_num =>
      [("checkpoint_num", PyInt checkpoint_num)]
  | checkpoint_toggle checkpoint_num enabled =>
      [("checkpoint_num", PyInt checkpoint_num); ("enabled", PyBool enabled)]
  | checkpoint_set_condition checkpoint_num condition =>
      [("checkpoint_num", PyInt checkpoint_num);
       ("condition", PyStr condition)]
  | checkpoint_set_ignore_count checkpoint_num count =>
      [("checkpoint_num", PyInt checkpoint_num); ("count", PyInt count)]
  | checkpoint_group_create name checkpoint_ids =>
      let args := [("name", PyStr name)] in
      let args := set_some "checkpoint_ids" py_int_list checkpoint_ids args in
      args
  | checkpoint_group_add group checkpoint_ids =>
      [("group", PyStr group); ("checkpoint_ids", py_int_list checkpoint_ids)]
  | checkpoint_group_toggle group enabled =>
      [("group", PyStr group); ("enabled", PyBool enabled)]
  | checkpoint_set_auto_snapshot checkpoint_id snapshot_prefix max_snapshots
      include_disks =>
      let args := [("checkpoint_id", PyInt checkpoint_id);
                   ("snapshot_prefix", PyStr snapshot_prefix)] in
      let args := set_some "max_snapshots" PyInt max_snapshots args in
      let args := set_some "include_disks" PyBool include_disks args in
      args
  | checkpoint_clear_auto_snapshot checkpoint_id =>
      [("checkpoint_id", PyInt checkpoint_id)]
  | sprite_get sprite =>
      let args := [] in
      let args := set_some "sprite" PyInt sprite args in
      args
  | sprite_set sprite kwargs => ("sprite", PyInt sprite) :: kwargs
  | sprite_inspect sprite_number format =>
      let args := [("sprite_number", PyInt sprite_number)] in
      let args := set_some "format" PyStr format args in
      args
  | vicii_set_state registers =>
      let args := [] in
      let args := set_some "registers" py_register_list registers args in
      args
  | sid_set_state registers =>
      let args := [] in
      let args := set_some "registers" py_register_list registers args in
      args
  | cia_set_state kwargs => kwargs
  | disk_attach unit_ path => [("unit", PyInt unit_); ("path", PyStr path)]
  | disk_detach unit_ => [("unit", PyInt unit_)]
  | disk_list unit_ => [("unit", PyInt unit_)]
  | disk_read_sector unit_ track sector =>
      [("unit", PyInt unit_); ("track", PyInt track);
       ("sector", PyInt sector)]
  | autostart path program run index =>
      let args := [("path", PyStr path)] in
      let args := set_some "program" PyStr program args in
      let args := set_if (negb run) "run" (PyBool run) args in
      let args := set_some "index" PyInt index args in
      args
  | machine_reset mode run_after =>
      let args := [] in
      let args := set_some "mode" PyStr mode args in
      let args := set_some "run_after" PyBool run_after args in
      args
  | display_screenshot path format return_base64 =>
      let args := [] in
      let args := set_some "path" PyStr path args in
      let args := set_some "format" PyStr format args in
      let args :=
        set_if return_base64 "return_base64" (PyBool return_base64) args in
      args
  | keyboard_type text petscii_upper =>
      let args := [("text", PyStr text)] in
      let args :=
        set_if (negb petscii_upper) "petscii_upper" (PyBool petscii_upper)
          args in
      args
  | keyboard_key_press key modifiers hold_frames hold_ms =>
      let args := [("key", PyStr key)] in
      let args := set_some "modifiers" py_str_list modifiers args in
      let args := set_some "hold_frames" PyInt hold_frames args in
      let args := set_some "hold_ms" PyInt hold_ms args in
      args
  | keyboard_key_release key modifiers =>
      let args := [("key", PyStr key)] in
      let args := set_some "modifiers" py_str_list modifiers args in
      args
  | keyboard_restore pressed =>
      let args := [] in
      let args := set_if (negb pressed) "pressed" (PyBool pressed) args in
      args
  | keyboard_matrix key row col pressed hold_frames hold_ms =>
      let args := [] in
      let args := set_some "key" PyStr key args in
      let args := set_some "row" PyInt row args in
      let args := set_some "col" PyInt col args in
      let args := set_if (negb pressed) "pressed" (PyBool pressed) args in
      let args := set_some "hold_frames" PyInt hold_frames args in
      let args := set_some "hold_ms" PyInt hold_ms args in
      args
  | joystick_set port direction fire =>
      let args := [] in
      let args := set_some "port" PyInt port args in
      let args := set_some "direction" PyStr direction args in
      let args := set_some "fire" PyBool fire args in
      args
  | disassemble address count show_symbols =>
      let args := [("address", py_int_or_str address)] in
      let args := set_some "count" PyInt count args in
      let args := set_some "show_symbols" PyBool show_symbols args in
      args
  | symbols_load path format =>
      let args := [("path", PyStr path)] in
      let args := set_some "format" PyStr format args in
      args
  | symbols_lookup name address =>
      let args := [] in
      let args := set_some "name" PyStr name args in
      let args := set_some "address" py_int_or_str address args in
      args
  | watch_add address size type_ condition =>
      let args := [("address", py_int_or_str address)] in
      let args := set_some "size" PyInt size args in
      let args := set_some "type" PyStr type_ args in
      let args := set_some "condition" PyStr condition args in
      args
  | backtrace depth =>
      let args := [] in
      let args := set_some "depth" PyInt depth args in
      args
  | run_until address cycles =>
      let args := [] in
      let args := set_some "address" py_int_or_str address args in
      let args := set_some "cycles" PyInt cycles args in
      args
  | snapshot_save name description include_roms include_disks =>
      let args := [("name", PyStr name)] in
      let args := set_some "description" PyStr description args in
      let args := set_some "include_roms" PyBool include_roms args in
      let args := set_some "include_disks" PyBool include_disks args in
      args
  | snapshot_load name => [("name", PyStr name)]
  | cycles_stopwatch action => [("action", PyStr action)]
  | trace_start output_file kwargs =>
      ("output_file", PyStr output_file) :: kwargs
  | trace_stop trace_id => [("trace_id", PyStr trace_id)]
  | interrupt_log_start types max_entries =>
      let args := [] in
      let args := set_some "types" py_str_list types args in
      let args := set_some "max_entries" PyInt max_entries args in
      args
  | interrupt_log_stop log_id => [("log_id", PyStr log_id)]
  | interrupt_log_read log_id since_index =>
      let args := [("log_id", PyStr log_id)] in
      let args := set_some "since_index" PyInt since_index args in
      args
  end.

(** The methods whose signature is closed; the other four take free
    [**kwargs]. *)
Definition fixed_signature (m : method) : bool :=
  match m with
  | memory_compare _ _ | sprite_set _ _ | cia_set_state _
  | trace_start _ _ => false
  | _ => true
  end.


End Convenience.

(** What is checked of the arguments a convenience method builds against
    the schema of its tool: both loops of the validator find nothing, no
    key is unknown to the schema, no key occurs twice and no value is
    [None]. *)
Definition is_none (v : pyvalue) : bool :=
  match v with PyNone => true | _ => false end.

Definition well_shaped (schema : tool_schema) (tool_name : string)
    (args : pydict) : bool :=
  bool_decide (check_required tool_name args (required schema)
                 ++ check_optional tool_name args (optional schema) = [])
  && bool_decide (unexpected_params schema args = [])
  && bool_decide (NoDup args.*1)
  && forallb (fun kv => negb (is_none kv.2)) args.

(** ** More scripted runtimes and clients *)

(** The scripted runtime, with a parser that also knows a response whose
    error object has an array for a code. *)
Definition list_code_runtime : Runtime stub_env :=
  {| utc_now_isoformat := utc_now_isoformat (Runtime := stub_runtime);
     time_monotonic := time_monotonic (Runtime := stub_runtime);
     os_sleep := os_sleep (Runtime := stub_runtime);
     http_post := http_post (Runtime := stub_runtime);
     append_entry := append_entry (Runtime := stub_runtime);
     json_loads s :=
       if String.eqb s "list-code" then
         inr (PyDict [("jsonrpc", PyStr "2.0"); ("id", PyInt 1);
                      ("error", PyDict [("code", PyList [PyInt 1]);
                                        ("message", PyStr "odd")])])
       else stub_json_loads s;
     py_repr := py_repr (Runtime := stub_runtime);
     float_sum := float_sum (Runtime := stub_runtime) |}.

(** The default client with another retry budget or base delay. *)
Definition client_with (retries : Z) (delay : Q) : ViceMCPClient :=
  {| _base_url := _base_url default_client;
     max_retries := retries;
     retry_delay := delay;
     timeout := timeout default_client;
     validate := validate default_client;
     log_path := log_path default_client |}.

(** * Properties *)

(** ** The definitions at work *)

Example validate_memory_read_ok :
  validate_params "vice.memory.read"
    [("address", PyStr "$C000"); ("size", PyInt 256)] = [].
Proof. by vm_compute. Qed.

Example validate_registers_set_bool :
  validate_params "vice.registers.set"
    [("register", PyStr "A"); ("value", PyBool true)]
  = ["Parameter 'value' for vice.registers.set must be number, got bool"].
Proof. by vm_compute. Qed.

Example validate_missing_and_wrong :
  validate_params "vice.memory.read" [("size", PyStr "256")]
  = ["Missing required parameter 'address' for vice.memory.read";
     "Parameter 'size' for vice.memory.read must be number, got str"].
Proof. by vm_compute. Qed.

Example validate_unknown_tool :
  validate_params "vice.no.such.tool" [("x", PyNone)] = [].
Proof. by vm_compute. Qed.

Example unexpected_params_example :
  unexpected_params
    {| required := [("register", "string"); ("value", "number")];
       optional := [] |}
    [("register", PyStr "A"); ("value", PyInt 1); ("extra", PyNone)]
  = ["extra"].
Proof. by vm_compute. Qed.

Example py_round_ties_to_even : py_round (1 # 32) 4 = (39 # 1250)%Q.
Proof. reflexivity. Qed.

(** The double nearest to 1/160 = 0.00625 lies just above it, so the
    quotient rounds up; the exact quotient would be a tie and round to the
    even 0.0062. *)
Example double_of_one_160th :
  double_of_Q (1 # 160) = (3602879701896397 # 576460752303423488)%Q /\
  py_round (int_truediv 1 160) 4 = (63 # 10000)%Q /\
  py_round (1 # 160) 4 = (31 # 5000)%Q.
Proof. by vm_compute. Qed.

Example failure_rate_near_tie :
  failure_rate
    (get_stats_of (sample_entry false :: replicate 159 (sample_entry true)))
  = (63 # 10000)%Q.
Proof. by vm_compute. Qed.

Example py_round_third : py_round (1 # 3) 4 = (3333 # 10000)%Q.
Proof. reflexivity. Qed.

Example slice_from_minus_zero : slice_from [1; 2; 3] (- 0) = [1; 2; 3].
Proof. reflexivity. Qed.

Example slice_from_last_two : slice_from [1; 2; 3] (- 2) = [2; 3].
Proof. reflexivity. Qed.

Example contains_timeout : contains "timeout" (lower "ReadTimeout") = true.
Proof. reflexivity. Qed.

Example protocol_band_edges :
  in_protocol_range (-32799) = true /\ in_protocol_range (-32600) = true /\
  in_protocol_range (-32800) = false /\ in_protocol_range (-32599) = false /\
  in_protocol_range (-32000) = false.
Proof. by repeat split. Qed.

(** A full call on the scripted runtime: the wrapped request is answered
    with "method not found", the direct one succeeds. *)
Example call_with_fallback :
  call default_client "vice.ping" []
    (stub_world [HttpOk 200 "method-not-found"; HttpOk 200 "ok"] false)
  = (Ok (PyDict [("pong", PyBool true)]),
     {| env := {| script := []; clock := 2; disk_full := false |};
        _id_counter := 2;
        _entries :=
          [{| ts := "2026-01-01T00:00:00+00:00";
              tool := "vice.ping";
              duration_ms := 1000 # 1;
              success := true;
              error := None;
              error_code := PyNone;
              retry_count := 1;
              fallback_used := true |}];
        trace :=
          [EvPost "http://127.0.0.1:6510/mcp"
             (PyDict [("jsonrpc", PyStr "2.0");
                      ("method", PyStr "tools/call");
                      ("params", PyDict [("name", PyStr "vice.ping");
                                         ("arguments", PyDict [])]);
                      ("id", PyInt 1)])
             (10 # 1) (HttpOk 200 "method-not-found");
           EvPost "http://127.0.0.1:6510/mcp"
             (PyDict [("jsonrpc", PyStr "2.0");
                      ("method", PyStr "vice.ping");
                      ("params", PyDict []);
                      ("id", PyInt 2)])
             (30 # 2) (HttpOk 200 "ok")] |}).
Proof. by vm_compute. Qed.

(** ** The validator *)

Section Validator.

Lemma bool_is_not_a_number (b : bool) :
  _validate_type (PyBool b) "number" = false.
Proof. reflexivity. Qed.

Lemma check_required_wrong_type tool_name params req name ty v :
  (name, ty) ∈ req ->
  dict_get params name = Some v ->
  _validate_type v ty = false ->
  msg_wrong_type name tool_name ty v ∈ check_required tool_name params req.
Proof.
  intros Hin Hget Hty.
  induction req as [|[n t] req IH]; [by apply elem_of_nil in Hin|].
  apply elem_of_cons in Hin as [Heq | Hin]; cbn [check_required].
  - inversion Heq; subst n t. rewrite Hget, Hty. cbn. left.
  - apply elem_of_app. right. by apply IH.
Qed.

Lemma check_optional_wrong_type tool_name params opt name ty v :
  (name, ty) ∈ opt ->
  dict_get params name = Some v ->
  _validate_type v ty = false ->
  msg_wrong_type name tool_name ty v ∈ check_optional tool_name params opt.
Proof.
  intros Hin Hget Hty.
  induction opt as [|[n t] opt IH]; [by apply elem_of_nil in Hin|].
  apply elem_of_cons in Hin as [Heq | Hin]; cbn [check_optional].
  - inversion Heq; subst n t. rewrite Hget, Hty. cbn. left.
  - apply elem_of_app. right. by apply IH.
Qed.

Lemma check_required_missing tool_name params req name ty :
  (name, ty) ∈ req ->
  dict_get params name = None ->
  msg_missing name tool_name ∈ check_required tool_name params req.
Proof.
  intros Hin Hget.
  induction req as [|[n t] req IH]; [by apply elem_of_nil in Hin|].
  apply elem_of_cons in Hin as [Heq | Hin]; cbn [check_required].
  - inversion Heq; subst n t. rewrite Hget. cbn. left.
  - apply elem_of_app. right. by apply IH.
Qed.

(** C6. A boolean never passes the kind check against "number", and a
    boolean supplied for a parameter that a registered schema declares as
    a number, required or optional, appears in the violation list: this
    holds for every registry, and so for [TOOL_SCHEMAS]. *)
Theorem boolean_rejected_as_number :
  (forall b : bool, _validate_type (PyBool b) "number" = false) /\
  (forall (schemas : gmap string tool_schema) tool_name schema name
          (params : pydict) (b : bool),
      schemas !! tool_name = Some schema ->
      (name, "number") ∈ required schema ++ optional schema ->
      dict_get params name = Some (PyBool b) ->
      msg_wrong_type name tool_name "number" (PyBool b)
        ∈ validate_params_in schemas tool_name params /\
      validate_params_in schemas tool_name params <> []) /\
  (forall tool_name schema name (params : pydict) (b : bool),
      TOOL_SCHEMAS !! tool_name = Some schema ->
      (name, "number") ∈ required schema ++ optional schema ->
      dict_get params name = Some (PyBool b) ->
      validate_params tool_name params <> []).
Proof.
  assert (Hgen : forall (schemas : gmap string tool_schema) tool_name schema
                        name (params : pydict) (b : bool),
             schemas !! tool_name = Some schema ->
             (name, "number") ∈ required schema ++ optional schema ->
             dict_get params name = Some (PyBool b) ->
             msg_wrong_type name tool_name "number" (PyBool b)
               ∈ validate_params_in schemas tool_name params).
  { intros schemas tool_name schema name params b Hs Hin Hget.
    unfold validate_params_in. rewrite Hs.
    apply elem_of_app. apply elem_of_app in Hin as [Hin | Hin].
    - left. by apply check_required_wrong_type.
    - right. by apply check_optional_wrong_type. }
  split; [exact bool_is_not_a_number|]. split.
  - intros schemas tool_name schema name params b Hs Hin Hget.
    pose proof (Hgen _ _ _ _ _ _ Hs Hin Hget) as Hel.
    split; [exact Hel|]. intros Hnil. rewrite Hnil in Hel.
    by apply elem_of_nil in Hel.
  - intros tool_name schema name params b Hs Hin Hget.
    pose proof (Hgen _ _ _ _ _ _ Hs Hin Hget) as Hel.
    unfold validate_params. intros Hnil. rewrite Hnil in Hel.
    by apply elem_of_nil in Hel.
Qed.

End Validator.

Lemma registers_set_schema :
  TOOL_SCHEMAS !! "vice.registers.set"
  = Some {| required := [("register", "string"); ("value", "number")];
            optional := [] |}.
Proof. vm_compute. reflexivity. Qed.

Lemma boolean_rejected_as_number_witness :
  validate_params "vice.registers.set"
    [("register", PyStr "A"); ("value", PyBool true)] <> [].
Proof.
  refine (proj2 (proj2 boolean_rejected_as_number) "vice.registers.set"
            _ "value" _ true registers_set_schema _ _).
  - cbn. apply list_elem_of_In. cbn. right. left. reflexivity.
  - reflexivity.
Defined.

(** ** The reliability monitor: statistics *)

Section Statistics.
Context {Env : Type} `{RT : Runtime Env}.

Lemma round_half_even_near (q : Q) :
  (Qabs (inject_Z (round_half_even q) - q) <= 1 # 2)%Q.
Proof.
  pose proof (Qfloor_le q) as Hlo. pose proof (Qlt_floor q) as Hhi.
  rewrite inject_Z_plus in Hhi. change (inject_Z 1) with 1%Q in Hhi.
  unfold round_half_even.
  destruct (Qcompare (q - inject_Z (Qfloor q)) (1 # 2)) eqn:Hc.
  - apply Qeq_alt in Hc.
    destruct (Z.even (Qfloor q));
      [|rewrite inject_Z_plus; change (inject_Z 1) with 1%Q];
      apply Qabs_case; intros; lra.
  - apply Qlt_alt in Hc. apply Qabs_case; intros; lra.
  - apply Qgt_alt in Hc. rewrite inject_Z_plus. change (inject_Z 1) with 1%Q.
    apply Qabs_case; intros; lra.
Qed.

(** Rounding to four decimals moves a number by at most 0.00005. *)
Lemma py_round_4_near (q : Q) :
  (Qabs (py_round q 4 - q) <= 1 # 20000)%Q.
Proof.
  unfold py_round. rewrite Qred_correct.
  change (inject_Z (10 ^ 4)) with (10000 # 1)%Q.
  pose proof (round_half_even_near (q * (10000 # 1))) as H.
  set (r := inject_Z (round_half_even (q * (10000 # 1)))) in *.
  revert H. apply Qabs_case; intros H1 H2; apply Qabs_case; intros H3.
  all: try (assert (r / (10000 # 1) == r * (1 # 10000))%Q as -> by field).
  all: lra.
Qed.

(** The power of two of its binade is at most the number. *)
Lemma binade_le (q : Q) : (0 < q)%Q -> (2 ^ binade q <= q)%Q.
Proof.
  intros Hq. unfold binade.
  destruct (Qle_bool _ q) eqn:Hb; [by apply Qle_bool_iff in Hb|]. clear Hb.
  destruct q as [n d]. cbn [Qnum Qden].
  assert (Hn : 0 < n) by (revert Hq; unfold Qlt; cbn; lia).
  pose proof (Z.log2_spec n Hn) as [Hn1 _].
  pose proof (Z.log2_spec (Z.pos d) (Pos2Z.is_pos d)) as [_ Hd2].
  pose proof (Z.log2_nonneg n) as Hln.
  pose proof (Z.log2_nonneg (Z.pos d)) as Hld.
  set (ln := Z.log2 n) in *. set (ld := Z.log2 (Z.pos d)) in *.
  replace (ln - ld - 1) with (ln - Z.succ ld) by lia.
  rewrite Qpower_minus by discriminate.
  change 2%Q with (inject_Z 2).
  rewrite <- !Zpower_Qpower by lia.
  apply Qle_shift_div_r.
  - change 0%Q with (inject_Z 0). rewrite <- Zlt_Qlt. lia.
  - unfold Qle, Qmult, inject_Z. cbn [Qnum Qden].
    rewrite Pos.mul_1_r. nia.
Qed.

(** Rounding to a double moves a number by at most half a unit in the
    last place: a relative error of 2^-53. *)
Lemma double_of_Q_near (q : Q) :
  (Qabs (double_of_Q q - q) <= Qabs q * (1 # 2 ^ 53))%Q.
Proof.
  unfold double_of_Q. destruct (Qeq_bool q 0) eqn:Hz.
  - apply Qeq_bool_iff in Hz. rewrite Hz. by vm_compute.
  - assert (Hpos : (0 < Qabs q)%Q).
    { destruct (Qlt_le_dec 0 (Qabs q)) as [|Hle]; [done|].
      pose proof (Qabs_nonneg q) as Hge.
      assert (Hq0 : (Qabs q == 0)%Q) by lra.
      assert (Hq : (q == 0)%Q).
      { revert Hq0. apply Qabs_case; intros; lra. }
      apply Qeq_bool_iff in Hq. congruence. }
    cbv zeta. rewrite Qred_correct.
    pose proof (binade_le _ Hpos) as Hb.
    set (b := binade (Qabs q)) in *.
    assert (Hulp : (2 ^ (b - 52) == 2 ^ b * (1 # 2 ^ 52))%Q).
    { rewrite Qpower_minus by discriminate. reflexivity. }
    assert (Hu : (0 < 2 ^ (b - 52))%Q) by (by apply Qpower_0_lt).
    set (u := (2 ^ (b - 52))%Q) in *.
    pose proof (round_half_even_near (q / u)) as Hr.
    set (r := inject_Z (round_half_even (q / u))) in *.
    assert (Hd : (r * u - q == (r - q / u) * u)%Q).
    { field. intros Hu0. rewrite Hu0 in Hu. by apply Qlt_irrefl in Hu. }
    rewrite Hd, Qabs_Qmult, (Qabs_pos u) by lra.
    assert (Hb' : (2 ^ b == u * (2 ^ 52 # 1))%Q).
    { rewrite Hulp, <- Qmult_assoc.
      assert (((1 # 2 ^ 52) * (2 ^ 52 # 1) == 1)%Q) as -> by (by vm_compute).
      by rewrite Qmult_1_r. }
    rewrite Hb' in Hb.
    set (a := Qabs (r - q / u)) in *.
    assert (H1 : (a * u <= (1 # 2) * u)%Q).
    { apply Qmult_le_compat_r; lra. }
    clearbody a. clear Hr Hd Hulp Hb'. clearbody r. clearbody u.
    let c := eval vm_compute in (2 ^ 52)%Z in
    change (2 ^ 52)%Z with c in Hb.
    let c := eval vm_compute in (2 ^ 53)%positive in
    change (2 ^ 53)%positive with c.
    lra.
Qed.

(** The double quotient of a count by a larger count, rounded to four
    decimals, is within 0.00005 + 2^-53 of the exact quotient. *)
Lemma rounded_rate_near (m n : Z) :
  0 <= m <= n -> 0 < n ->
  (Qabs (py_round (int_truediv m n) 4 - inject_Z m / inject_Z n)
   <= (1 # 20000) + (1 # 2 ^ 53))%Q.
Proof.
  intros Hm Hn. unfold int_truediv.
  set (q := (inject_Z m / inject_Z n)%Q).
  assert (Hn' : (0 < inject_Z n)%Q).
  { change 0%Q with (inject_Z 0). by rewrite <- Zlt_Qlt. }
  assert (Hq0 : (0 <= q)%Q).
  { apply Qle_shift_div_l; [done|]. rewrite Qmult_0_l.
    change 0%Q with (inject_Z 0). rewrite <- Zle_Qle. lia. }
  assert (Hq1 : (q <= 1)%Q).
  { apply Qle_shift_div_r; [done|]. rewrite Qmult_1_l.
    rewrite <- Zle_Qle. lia. }
  pose proof (double_of_Q_near q) as Hd.
  pose proof (py_round_4_near (double_of_Q q)) as Hr.
  rewrite (Qabs_pos q) in Hd by done.
  let c := eval vm_compute in (2 ^ 53)%positive in
  change (2 ^ 53)%positive with c in *.
  revert Hd Hr. clearbody q.
  generalize (double_of_Q q) (py_round (double_of_Q q) 4). intros x y.
  apply Qabs_case; intros H1 H2; apply Qabs_case; intros H3 H4;
    apply Qabs_case; intros H5; lra.
Qed.

Lemma count_failures_same_tool (t : string) (l : list LogEntry)
    (m : gmap string Z) :
  Forall (fun e => tool e = t) l ->
  l <> [] ->
  foldl count_failure m l
  = <[t := default 0 (m !! t) + Z.of_nat (length l)]> m.
Proof.
  revert m. induction l as [|e l IH]; intros m Hall Hne; [done|].
  apply Forall_cons in Hall as [He Hall]. cbn [foldl].
  destruct l as [|e' l'].
  - cbn. unfold count_failure. rewrite He. reflexivity.
  - rewrite IH by done. unfold count_failure. rewrite He.
    rewrite lookup_insert_eq, insert_insert_eq. cbn [default].
    f_equal. rewrite !length_cons. unfold id. lia.
Qed.

Lemma filter_success_split (l : list LogEntry) :
  (length (filter (fun e => success e = true) l)
   + length (filter (fun e => success e = false) l) = length l)%nat.
Proof.
  induction l as [|e l IH]; [done|].
  rewrite !filter_cons. destruct (success e) eqn:Hs.
  - rewrite decide_True by done. rewrite decide_False by done.
    cbn [length]. lia.
  - rewrite decide_False by done. rewrite decide_True by done.
    cbn [length]. lia.
Qed.

Lemma Forall_filter_tool (t : string) (P : LogEntry -> Prop)
    `{!forall e, Decision (P e)} (l : list LogEntry) :
  Forall (fun e => tool e = t) l ->
  Forall (fun e => tool e = t) (filter P l).
Proof.
  rewrite !Forall_forall. intros Hall e He.
  apply list_elem_of_filter in He as [_ He]. by apply Hall.
Qed.

(** C7, as the code has it.  On an empty log [get_stats] returns zero
    calls and a failure rate of 0.0.  For a non-empty log made of [N]
    successful and [M] failed entries of one tool, it counts [N + M] calls
    and [M] failures, [failures_by_tool] maps the tool to [M] when
    [M >= 1] and has no key for it when [M = 0], and the failure rate is
    [round(M / (N + M), 4)]: the double quotient rounded to four
    decimals, a multiple of 0.0001 within 0.00005 + 2^-53 of the exact
    quotient. *)
Theorem stats_of_one_tool :
  (total_calls (get_stats_of []) = 0 /\
   (failure_rate (get_stats_of []) == 0)%Q /\
   failures (get_stats_of []) = 0 /\
   failures_by_tool (get_stats_of []) = ∅) /\
  (forall (entries : list LogEntry) (t : string),
      Forall (fun e => tool e = t) entries ->
      entries <> [] ->
      let N := Z.of_nat (length (filter (fun e => success e = true) entries)) in
      let M := Z.of_nat (length (filter (fun e => success e = false) entries)) in
      let s := get_stats_of entries in
      total_calls s = N + M /\
      failures s = M /\
      failures_by_tool s !! t = (if M =? 0 then None else Some M) /\
      failure_rate s
      = py_round (double_of_Q (inject_Z M / inject_Z (N + M))) 4 /\
      (exists k : Z, failure_rate s == inject_Z k / inject_Z 10000)%Q /\
      (Qabs (failure_rate s - inject_Z M / inject_Z (N + M))
       <= (1 # 20000) + (1 # 2 ^ 53))%Q).
Proof.
  split; [by repeat split|].
  intros entries t Hall Hne. cbv zeta.
  remember (filter (fun e => success e = false) entries) as failed eqn:Hf.
  set (N := Z.of_nat (length (filter (fun e => success e = true) entries))).
  set (M := Z.of_nat (length failed)).
  assert (Hlen : Z.of_nat (length entries) = N + M).
  { subst N M failed. pose proof (filter_success_split entries). lia. }
  assert (Hnz : (Z.of_nat (length entries) =? 0) = false).
  { apply Z.eqb_neq. destruct entries; [done|]. cbn [length]. lia. }
  unfold get_stats_of. rewrite Hnz, <- Hf.
  cbn [total_calls failures failures_by_tool failure_rate].
  fold M. rewrite Hlen. repeat split.
  - destruct failed as [|e l].
    + reflexivity.
    + assert (HM : (M =? 0) = false).
      { apply Z.eqb_neq. subst M. cbn [length]. lia. }
      rewrite HM. rewrite (count_failures_same_tool t).
      * rewrite lookup_insert_eq, lookup_empty. reflexivity.
      * rewrite Hf. by apply Forall_filter_tool.
      * done.
  - eexists. unfold py_round. apply Qred_correct.
  - apply rounded_rate_near; subst N M; [|destruct entries; [done|]];
      cbn [length]; lia.
Qed.

End Statistics.

(** ** The reliability monitor: recording *)

Section Recording.

Context {Env : Type} `{RT : Runtime Env}.

Lemma monotonic_run (w : world Env) :
  monotonic w
  = (Ok (time_monotonic (env w)).1,
     Build_world (time_monotonic (env w)).2 (_id_counter w) (_entries w)
       (trace w)).
Proof. unfold monotonic. by destruct (time_monotonic (env w)). Qed.

Lemma record_run path tool_ d s er c rc fu (w : world Env) :
  record path tool_ d s er c rc fu w
  = (Ok tt, recorded path tool_ d s er c rc fu w).
Proof.
  unfold record, bind, now_iso, persist, recorded, entry_in.
  destruct (utc_now_isoformat (env w)) as [stamp e1]. cbn.
  by destruct (append_entry _ _ e1).
Qed.

Lemma total_calls_length (l : list LogEntry) :
  total_calls (get_stats_of l) = Z.of_nat (length l).
Proof.
  unfold get_stats_of. destruct (Z.eqb_spec (Z.of_nat (length l)) 0); cbn; lia.
Qed.

Lemma recent_failures_snoc (l : list LogEntry) (e : LogEntry) (n : Z) :
  success e = false ->
  1 <= n ->
  last (get_recent_failures_of (l ++ [e]) n) = Some e.
Proof.
  intros Hs Hn. unfold get_recent_failures_of.
  rewrite filter_app, filter_cons, decide_True, filter_nil by done.
  set (F := filter (fun e => success e = false) l).
  unfold slice_from. rewrite length_app. cbn [length].
  destruct (Z.ltb_spec (- n) 0) as [_|]; [|lia].
  rewrite drop_app_le by lia. apply last_snoc.
Qed.

(** C9. [record] always returns normally, whatever the write to the
    durable store does (the runtime's [append_entry] is arbitrary, so it
    may fail every time): the entry, with the fields given, is appended to
    the in-memory log, nothing else of the client changes, [get_stats]
    counts one call more, and a failed entry is the last one
    [get_recent_failures(n)] returns for every [n >= 1]. *)
Theorem record_swallows_persist_failure
    path tool_ d s er c rc fu (w : world Env) :
  exists (entry : LogEntry) (w' : world Env),
    record path tool_ d s er c rc fu w = (Ok tt, w') /\
    _entries w' = _entries w ++ [entry] /\
    _id_counter w' = _id_counter w /\
    trace w' = trace w /\
    (tool entry = tool_ /\ success entry = s /\ error entry = er /\
     error_code entry = c /\ retry_count entry = rc /\
     fallback_used entry = fu /\ duration_ms entry = py_round d 2) /\
    total_calls (get_stats_of (_entries w'))
      = total_calls (get_stats_of (_entries w)) + 1 /\
    (s = false ->
     forall n : Z, 1 <= n ->
       last (get_recent_failures_of (_entries w') n) = Some entry).
Proof.
  eexists _, _. split; [apply record_run|]. cbn.
  repeat split.
  - rewrite !total_calls_length, length_app. cbn. lia.
  - intros -> n Hn. by apply recent_failures_snoc.
Qed.

End Recording.



(** ** The retry and fallback controller *)

Section Attempts.

Context {Env : Type} `{RT : Runtime Env}.

(** *** One pass through the loop body *)

Lemma build_payload_run (direct : bool) tool_name arguments (w : world Env) :
  (if direct then _build_direct_payload tool_name arguments
   else _build_mcp_payload tool_name arguments) w
  = (Ok (request_of direct tool_name arguments (_id_counter w + 1)),
     Build_world (env w) (_id_counter w + 1) (_entries w) (trace w)).
Proof. by destruct direct. Qed.

Lemma on_success_run self tool_name start attempt fu v (w : world Env) :
  on_success self tool_name start attempt fu v w
  = (Ok (Return v),
     recorded (log_path self) tool_name
       (((time_monotonic (env w)).1 - start) * inject_Z 1000)%Q true None
       PyNone attempt fu (started w)).
Proof.
  unfold on_success, bind. rewrite monotonic_run. fold (started w).
  by rewrite record_run.
Qed.

Lemma attempt_body_run self tool_name arguments start attempt le fu
    (w : world Env) :
  attempt_body self tool_name arguments start attempt le fu w
  = match outcome_result (reply self tool_name arguments attempt fu w) with
    | Ok v =>
        on_success self tool_name start attempt fu v
          (sent self tool_name arguments attempt fu w)
    | Raise exc =>
        except_clauses self tool_name start attempt le fu exc
          (sent self tool_name arguments attempt fu w)
    end.
Proof.
  unfold attempt_body, bind at 1. rewrite build_payload_run.
  unfold try_except, try_block, bind at 1, _http_post,
    outcome_result, sent, post_event, reply, attempt_timeout.
  cbn [env _id_counter _entries trace].
  destruct (http_post _ _ _ (env w)) as [[status body | te] e1];
    cbn [fst snd]; [|reflexivity].
  unfold decode, bind at 1, lift. cbn [snd].
  destruct (_parse_response body) as [data | e]; [|reflexivity].
  unfold bind at 1.
  destruct (_unwrap_result data) as [v | e]; [|reflexivity].
  fold (on_success self tool_name start attempt fu v).
  by rewrite on_success_run.
Qed.

Lemma except_protocol_first self tool_name start attempt le exc
    (w : world Env) :
  exc_class_of exc = ViceMCPProtocolError ->
  except_clauses self tool_name start attempt le false exc w
  = (Ok (Continue (Some exc) true), w).
Proof. intros Hc. unfold except_clauses. by rewrite Hc. Qed.

Lemma except_tool_error self tool_name start attempt le fu exc
    (w : world Env) :
  exc_class_of exc = ViceMCPToolError ->
  except_clauses self tool_name start attempt le fu exc w
  = (Raise exc,
     recorded (log_path self) tool_name
       (((time_monotonic (env w)).1 - start) * inject_Z 1000)%Q false
       (exc_str <$> le) (from_option exc_code PyNone le) attempt fu
       (started w)).
Proof.
  intros Hc. unfold except_clauses. rewrite Hc.
  unfold bind. rewrite monotonic_run. fold (started w).
  rewrite record_run. by destruct le.
Qed.

Lemma backoff_run self attempt (w : world Env) :
  (0 <= retry_delay self)%Q ->
  backoff self attempt w = (Ok tt, slept (backoff_delay self attempt) w).
Proof.
  intros Hd. unfold backoff, time_sleep, slept, backoff_delay.
  assert (H : Qle_bool 0 (retry_delay self * inject_Z (2 ^ attempt)) = true).
  { apply Qle_bool_iff. apply Qmult_le_0_compat; [done|].
    change 0%Q with (inject_Z 0). rewrite <- Zle_Qle.
    apply Z.pow_nonneg. lia. }
  by rewrite H.
Qed.

Lemma except_oserror self tool_name start attempt le fu exc (w : world Env) :
  exc_class_of exc = OSError ->
  (0 <= retry_delay self)%Q ->
  except_clauses self tool_name start attempt le fu exc w
  = (Ok (Continue (Some exc) fu),
     if attempt <? max_retries self
     then slept (backoff_delay self attempt) w else w).
Proof.
  intros Hc Hd. unfold except_clauses. rewrite Hc. unfold bind.
  destruct (attempt <? max_retries self); [|reflexivity].
  by rewrite backoff_run.
Qed.

(** *** The whole call *)

Lemma call_raw_run self tool_name arguments (w : world Env) :
  _call_raw self tool_name arguments w
  = match retry_loop self tool_name arguments (time_monotonic (env w)).1
            (range (max_retries self + 1)) None false 0 (started w) with
    | (Ok (Returned v), w') => (Ok v, w')
    | (Ok (Exhausted le fu n), w2) =>
        (Raise (exhausted_error tool_name le n),
         recorded (log_path self) tool_name
           (((time_monotonic (env w2)).1 - (time_monotonic (env w)).1)
            * inject_Z 1000)%Q false
           (Some (from_option exc_str "Unknown error" le))
           (from_option exc_code PyNone le) (n - 1) fu (started w2))
    | (Raise e, w') => (Raise e, w')
    end.
Proof.
  unfold _call_raw, bind at 1. rewrite monotonic_run. fold (started w).
  unfold bind at 1.
  destruct (retry_loop _ _ _ _ _ _ _ _ _) as [[[v | le fu n] | e] w2];
    [reflexivity | | reflexivity].
  unfold bind at 1. rewrite monotonic_run. fold (started w2).
  unfold bind at 1. rewrite record_run.
  unfold exhausted_error.
  destruct le as [le|]; [|reflexivity]. cbn [from_option].
  destruct (is_vice_error (exc_class_of le)); [reflexivity|].
  by destruct (exc_class_of le).
Qed.

Lemma range_head (n : Z) : 0 < n -> exists rest, range n = 0 :: rest.
Proof.
  intros Hn. unfold range.
  destruct (Z.to_nat n) as [|k] eqn:Hk; [lia|]. cbn. by eexists.
Qed.

Lemma range_head2 (n : Z) : 1 < n -> exists rest, range n = 0 :: 1 :: rest.
Proof.
  intros Hn. unfold range.
  destruct (Z.to_nat n) as [|[|k]] eqn:Hk; [lia | lia |]. cbn. by eexists.
Qed.

(** *** Tool errors *)

(** What a tool error on the first attempt does to the call: shared by
    the two theorems below. *)
Lemma call_raw_tool_error_first self tool_name arguments (w : world Env) exc :
  0 <= max_retries self ->
  outcome_result (reply self tool_name arguments 0 false (started w))
  = Raise exc ->
  exc_class_of exc = ViceMCPToolError ->
  let w1 := sent self tool_name arguments 0 false (started w) in
  _call_raw self tool_name arguments w
  = (Raise exc,
     recorded (log_path self) tool_name
       (((time_monotonic (env w1)).1 - (time_monotonic (env w)).1)
        * inject_Z 1000)%Q false None PyNone 0 false (started w1)).
Proof.
  intros Hm Hout Hcls w1. rewrite call_raw_run.
  destruct (range_head (max_retries self + 1)) as [rest ->]; [lia|].
  cbn [retry_loop]. unfold bind at 1.
  rewrite attempt_body_run, Hout, except_tool_error by done.
  reflexivity.
Qed.

(** C3. When the first response decodes to a tool-level error, the call
    raises that error after attempt 0: the trace of the call is the one
    request of attempt 0 in the wrapped encoding, with no second request
    and no sleep, one request id is used, and exactly one entry is
    appended to the log, with [success = false] and [retry_count = 0]. *)
Theorem tool_error_is_not_retried
    self tool_name arguments (w : world Env) status body exc :
  0 <= max_retries self ->
  reply self tool_name arguments 0 false (started w) = HttpOk status body ->
  decode body = Raise exc ->
  exc_class_of exc = ViceMCPToolError ->
  exists (entry : LogEntry) (w' : world Env),
    _call_raw self tool_name arguments w = (Raise exc, w') /\
    trace w'
    = trace w
      ++ [EvPost (_base_url self)
            (wrapped_request tool_name arguments (_id_counter w + 1))
            (timeout self * (3 # 2) ^ 0)%Q (HttpOk status body)] /\
    _id_counter w' = _id_counter w + 1 /\
    _entries w' = _entries w ++ [entry] /\
    tool entry = tool_name /\
    success entry = false /\
    retry_count entry = 0.
Proof.
  intros Hm Hrep Hdec Hcls.
  eexists _, _. split.
  - apply call_raw_tool_error_first; [done| |done].
    rewrite Hrep. exact Hdec.
  - cbn. unfold post_event. cbn. rewrite Hrep. by repeat split.
Qed.

(** C10. When the tool error comes on the first attempt, the failed
    entry recorded for the call carries neither the error's message nor
    its code: [error] and [error_code] are both [None], because they are
    taken from [last_error], which is still unset. *)
Theorem first_attempt_tool_error_logged_without_message
    self tool_name arguments (w : world Env) status body exc :
  0 <= max_retries self ->
  reply self tool_name arguments 0 false (started w) = HttpOk status body ->
  decode body = Raise exc ->
  exc_class_of exc = ViceMCPToolError ->
  exists (entry : LogEntry) (w' : world Env),
    _call_raw self tool_name arguments w = (Raise exc, w') /\
    _entries w' = _entries w ++ [entry] /\
    success entry = false /\
    error entry = None /\
    error_code entry = PyNone.
Proof.
  intros Hm Hrep Hdec Hcls.
  eexists _, _. split.
  - apply call_raw_tool_error_first; [done| |done].
    rewrite Hrep. exact Hdec.
  - cbn. by repeat split.
Qed.

(** *** Fallback to the direct encoding *)

(** C2. When the first attempt, in the wrapped encoding, ends in a
    protocol error and the second attempt, in the direct encoding,
    succeeds, the call returns the decoded result; its trace is the two
    requests with nothing (no sleep) between them; and the one entry
    recorded has [success = true], [fallback_used = true] and
    [retry_count = 1]. *)
Theorem fallback_succeeds_without_delay
    self tool_name arguments (w : world Env) exc v :
  1 <= max_retries self ->
  outcome_result (reply self tool_name arguments 0 false (started w))
  = Raise exc ->
  exc_class_of exc = ViceMCPProtocolError ->
  outcome_result
    (reply self tool_name arguments 1 true
       (sent self tool_name arguments 0 false (started w)))
  = Ok v ->
  exists (entry : LogEntry) (w' : world Env),
    _call_raw self tool_name arguments w = (Ok v, w') /\
    trace w'
    = trace w
      ++ [EvPost (_base_url self)
            (wrapped_request tool_name arguments (_id_counter w + 1))
            (timeout self * (3 # 2) ^ 0)%Q
            (reply self tool_name arguments 0 false (started w));
          EvPost (_base_url self)
            (direct_request tool_name arguments (_id_counter w + 2))
            (timeout self * (3 # 2) ^ 1)%Q
            (reply self tool_name arguments 1 true
               (sent self tool_name arguments 0 false (started w)))] /\
    _entries w' = _entries w ++ [entry] /\
    tool entry = tool_name /\
    success entry = true /\
    fallback_used entry = true /\
    retry_count entry = 1.
Proof.
  intros Hm Hout0 Hcls Hout1. rewrite call_raw_run.
  destruct (range_head2 (max_retries self + 1)) as [rest ->]; [lia|].
  cbn [retry_loop]. unfold bind at 1.
  rewrite attempt_body_run, Hout0, except_protocol_first by done.
  unfold bind at 1.
  rewrite attempt_body_run, Hout1, on_success_run.
  eexists _, _. split; [reflexivity|]. cbn.
  unfold post_event. cbn. rewrite <- app_assoc. cbn.
  replace (_id_counter w + 1 + 1) with (_id_counter w + 2) by lia.
  by repeat split.
Qed.

(** *** Transport failures and exhaustion *)

(** One pass of the loop whose send ends in an [OSError]. *)
Lemma retry_loop_oserror self tool_name arguments start attempt todo le fu n
    (w : world Env) te :
  reply self tool_name arguments attempt fu w = HttpRaise te ->
  te_is_oserror te = true ->
  (0 <= retry_delay self)%Q ->
  retry_loop self tool_name arguments start (attempt :: todo) le fu n w
  = retry_loop self tool_name arguments start todo
      (Some (exc_of_transport te)) fu (attempt + 1)
      (if attempt <? max_retries self
       then slept (backoff_delay self attempt)
              (sent self tool_name arguments attempt fu w)
       else sent self tool_name arguments attempt fu w).
Proof.
  intros Hrep Hos Hd. cbn [retry_loop]. unfold bind at 1.
  rewrite attempt_body_run, Hrep. cbn [outcome_result].
  rewrite except_oserror; [reflexivity | | done].
  unfold exc_of_transport. cbn. by rewrite Hos.
Qed.

Lemma attempt_timeout_grows self (attempt : Z) :
  (0 < timeout self)%Q ->
  (attempt_timeout self attempt < attempt_timeout self (attempt + 1))%Q.
Proof.
  intros Ht. unfold attempt_timeout.
  assert (Hp : (0 < (3 # 2) ^ attempt)%Q) by (by apply Qpower_0_lt).
  rewrite Qpower_plus by done.
  change ((3 # 2) ^ 1)%Q with (3 # 2)%Q.
  set (x := ((3 # 2) ^ attempt)%Q) in *.
  assert (0 < timeout self * x)%Q by (by apply Qmult_lt_0_compat).
  lra.
Qed.

(** C4. Against a backend that fails every send with a connection error
    (an [OSError]), a client with [max_retries = 3], a positive base
    timeout and a non-negative base delay makes exactly four attempts,
    all in the wrapped encoding, separated by three sleeps; attempt [k]
    is sent with timeout [timeout * 1.5^k], each strictly longer than the
    one before; one failed entry with [retry_count = 3] is recorded; and
    the call raises a [ViceMCPConnectionError] whose message is
    "Failed to connect after 4 attempts: " followed by the message of the
    fourth transport failure. *)
Theorem connection_errors_exhaust_four_attempts
    self tool_name arguments (w : world Env) :
  max_retries self = 3 ->
  (0 < timeout self)%Q ->
  (0 <= retry_delay self)%Q ->
  (forall url payload tmo e,
      exists te, (http_post url payload tmo e).1 = HttpRaise te /\
                 te_is_oserror te = true) ->
  exists (te0 te1 te2 te3 : transport_error) (entry : LogEntry)
         (exc : pyexc) (w' : world Env),
    _call_raw self tool_name arguments w = (Raise exc, w') /\
    trace w'
    = trace w
      ++ [EvPost (_base_url self)
            (wrapped_request tool_name arguments (_id_counter w + 1))
            (timeout self * (3 # 2) ^ 0)%Q (HttpRaise te0);
          EvSleep (retry_delay self * inject_Z (2 ^ 0))%Q;
          EvPost (_base_url self)
            (wrapped_request tool_name arguments (_id_counter w + 2))
            (timeout self * (3 # 2) ^ 1)%Q (HttpRaise te1);
          EvSleep (retry_delay self * inject_Z (2 ^ 1))%Q;
          EvPost (_base_url self)
            (wrapped_request tool_name arguments (_id_counter w + 3))
            (timeout self * (3 # 2) ^ 2)%Q (HttpRaise te2);
          EvSleep (retry_delay self * inject_Z (2 ^ 2))%Q;
          EvPost (_base_url self)
            (wrapped_request tool_name arguments (_id_counter w + 4))
            (timeout self * (3 # 2) ^ 3)%Q (HttpRaise te3)] /\
    (timeout self * (3 # 2) ^ 0 < timeout self * (3 # 2) ^ 1)%Q /\
    (timeout self * (3 # 2) ^ 1 < timeout self * (3 # 2) ^ 2)%Q /\
    (timeout self * (3 # 2) ^ 2 < timeout self * (3 # 2) ^ 3)%Q /\
    exc_class_of exc = ViceMCPConnectionError /\
    exc_str exc = "Failed to connect after 4 attempts: " +:+ te_str te3 /\
    _entries w' = _entries w ++ [entry] /\
    success entry = false /\
    retry_count entry = 3 /\
    error entry = Some (te_str te3).
Proof.
  intros Hm Ht Hd Hfail.
  assert (Hrep : forall k fu w0,
             exists te, reply self tool_name arguments k fu w0 = HttpRaise te
                        /\ te_is_oserror te = true).
  { intros k fu w0. unfold reply. apply Hfail. }
  rewrite call_raw_run, Hm.
  change (range (3 + 1)) with [0; 1; 2; 3].
  set (w0 := started w).
  destruct (Hrep 0 false w0) as (te0 & Hr0 & Ho0).
  rewrite (retry_loop_oserror _ _ _ _ _ _ _ _ _ _ te0 Hr0 Ho0 Hd), Hm.
  cbn [Z.ltb Z.compare Pos.compare Pos.compare_cont].
  set (w1 := slept _ (sent self tool_name arguments 0 false w0)).
  destruct (Hrep 1 false w1) as (te1 & Hr1 & Ho1).
  rewrite (retry_loop_oserror _ _ _ _ _ _ _ _ _ _ te1 Hr1 Ho1 Hd), Hm.
  cbn [Z.ltb Z.compare Pos.compare Pos.compare_cont].
  set (w2 := slept _ (sent self tool_name arguments 1 false w1)).
  destruct (Hrep 2 false w2) as (te2 & Hr2 & Ho2).
  rewrite (retry_loop_oserror _ _ _ _ _ _ _ _ _ _ te2 Hr2 Ho2 Hd), Hm.
  cbn [Z.ltb Z.compare Pos.compare Pos.compare_cont].
  set (w3 := slept _ (sent self tool_name arguments 2 false w2)).
  destruct (Hrep 3 false w3) as (te3 & Hr3 & Ho3).
  rewrite (retry_loop_oserror _ _ _ _ _ _ _ _ _ _ te3 Hr3 Ho3 Hd), Hm.
  cbn [Z.ltb Z.compare Pos.compare Pos.compare_cont retry_loop ret].
  exists te0, te1, te2, te3. eexists _, _, _. split; [reflexivity|].
  split.
  { cbn [trace recorded started sent]. unfold post_event.
    rewrite Hr3. subst w3. cbn [trace slept sent _id_counter].
    unfold post_event. rewrite Hr2. subst w2. cbn [trace slept sent _id_counter].
    unfold post_event. rewrite Hr1. subst w1. cbn [trace slept sent _id_counter].
    unfold post_event. rewrite Hr0. subst w0. cbn [trace started _id_counter].
    rewrite <- !app_assoc. cbn [app].
    unfold request_of, attempt_timeout, backoff_delay.
    replace (_id_counter w + 1 + 1 + 1 + 1) with (_id_counter w + 4) by lia.
    replace (_id_counter w + 1 + 1 + 1) with (_id_counter w + 3) by lia.
    replace (_id_counter w + 1 + 1) with (_id_counter w + 2) by lia.
    reflexivity. }
  split; [by apply (attempt_timeout_grows self 0)|].
  split; [by apply (attempt_timeout_grows self 1)|].
  split; [by apply (attempt_timeout_grows self 2)|].
  unfold exhausted_error, exc_of_transport. cbn. rewrite Ho3. cbn.
  by repeat split.
Qed.



(** *** Request ids *)

Lemma sent_ids_app (tr1 tr2 : list event) :
  sent_ids (tr1 ++ tr2) = sent_ids tr1 ++ sent_ids tr2.
Proof.
  induction tr1 as [|[] tr1 IH]; cbn; [done| |done]. by rewrite IH.
Qed.

Lemma ids_from_app (c : Z) (n m : nat) :
  ids_from c (n + m) = ids_from c n ++ ids_from (c + Z.of_nat n) m.
Proof.
  unfold ids_from. rewrite seq_app, fmap_app. f_equal.
  generalize 1%nat as a. induction m as [|m IH]; intros a; [done|].
  cbn [seq fmap list_fmap]. f_equal; [lia|].
  change (S (a + n)) with (S a + n)%nat. apply IH.
Qed.

Lemma quiet_refl (w : world Env) : quiet w w.
Proof. by split. Qed.

Lemma quiet_trans (w1 w2 w3 : world Env) :
  quiet w1 w2 -> quiet w2 w3 -> quiet w1 w3.
Proof. intros [H1 H2] [H3 H4]. split; congruence. Qed.

Lemma quiet_advances (w w' : world Env) : quiet w w' -> advances w w'.
Proof.
  intros [Hc Ht]. exists 0%nat. rewrite Hc, Ht. cbn.
  split; [lia|]. by rewrite app_nil_r.
Qed.

Lemma advances_trans (w1 w2 w3 : world Env) :
  advances w1 w2 -> advances w2 w3 -> advances w1 w3.
Proof.
  intros (n & Hc1 & Ht1) (m & Hc2 & Ht2). exists (n + m)%nat.
  split; [lia|].
  rewrite Ht2, Ht1, Hc1, ids_from_app, fmap_app. by rewrite app_assoc.
Qed.

Lemma quiet_started (w : world Env) : quiet w (started w).
Proof. by split. Qed.

Lemma quiet_slept secs (w : world Env) : quiet w (slept secs w).
Proof.
  split; [done|]. cbn. rewrite sent_ids_app. cbn. by rewrite app_nil_r.
Qed.

Lemma quiet_recorded path t d s er c rc fu (w : world Env) :
  quiet w (recorded path t d s er c rc fu w).
Proof. by split. Qed.

Lemma advances_sent self tool_name arguments attempt fu (w : world Env) :
  advances w (sent self tool_name arguments attempt fu w).
Proof.
  exists 1%nat. split; [cbn; lia|].
  cbn. rewrite sent_ids_app. cbn. do 3 f_equal.
  - by destruct fu.
Qed.

(** The [except] clauses send nothing; and when they let the loop go on
    they have recorded nothing. *)
Lemma except_clauses_quiet self tool_name start attempt le fu exc
    (w : world Env) r w' :
  except_clauses self tool_name start attempt le fu exc w = (r, w') ->
  quiet w w' /\
  (forall ctl, r = Ok ctl ->
     _entries w' = _entries w /\ forall v, ctl <> Return v).
Proof.
  assert (Hb : forall (ctl : loop_ctl) (b : bool) r0 w0,
    ((if b then backoff self attempt else ret tt) ;; @ret Env loop_ctl ctl) w
    = (r0, w0) ->
    (r0 = Ok ctl \/ exists e, r0 = Raise e) /\ quiet w w0 /\
    _entries w0 = _entries w).
  { intros ctl b r0 w0. unfold bind, backoff, time_sleep, ret.
    destruct b; [destruct (Qle_bool _ _)|]; intros [= <- <-].
    - split; [by left|]. split; [apply (quiet_slept _ w)|done].
    - split; [right; by eexists|]. by split.
    - split; [by left|]. by split. }
  unfold except_clauses.
  destruct (exc_class_of exc).
  5: { unfold bind. rewrite monotonic_run. fold (started w).
       rewrite record_run. unfold raise. intros [= <- <-].
       split; [|done].
       eapply quiet_trans; [apply quiet_started|apply quiet_recorded]. }
  4: { destruct fu; cbn [negb].
       - intros H. apply Hb in H as ([-> | [e ->]] & Hq & He);
           (split; [done|]); intros ctl [= <-]; by split.
       - intros [= <- <-]. split; [done|]. intros ctl [= <-]. by split. }
  5: { intros H. apply Hb in H as ([-> | [e ->]] & Hq & He);
         (split; [done|]); intros ctl [= <-]; by split. }
  all: cbv zeta;
    repeat match goal with
           | |- context [if ?c then _ else _] =>
               lazymatch c with
               | (_ && _)%bool => destruct c eqn:?
               | (_ <? _) => destruct c eqn:?
               end
           end;
    try (intros H;
         apply (Hb _ true) in H as ([-> | [e ->]] & Hq & He);
         (split; [done|]); intros ctl [= <-]; by split);
    try (intros [= <- <-]; split; [done|]; intros ctl [= <-]; by split).
Qed.

Lemma attempt_body_advances self tool_name arguments start attempt le fu
    (w : world Env) r w' :
  attempt_body self tool_name arguments start attempt le fu w = (r, w') ->
  advances w w' /\
  (forall ctl, r = Ok ctl -> (forall v, ctl <> Return v) ->
     _entries w' = _entries w).
Proof.
  rewrite attempt_body_run.
  pose proof (advances_sent self tool_name arguments attempt fu w) as Hs.
  destruct (outcome_result _) as [v | exc].
  - rewrite on_success_run. intros [= <- <-]. split.
    + eapply advances_trans; [exact Hs|]. apply quiet_advances.
      eapply quiet_trans; [apply quiet_started|apply quiet_recorded].
    + intros ctl [= <-] Hno. by destruct (Hno v).
  - intros H. apply except_clauses_quiet in H as [Hq Hok]. split.
    + eapply advances_trans; [exact Hs|]. by apply quiet_advances.
    + intros ctl Hr _. by destruct (Hok ctl Hr) as [-> _].
Qed.

Lemma retry_loop_advances self tool_name arguments start todo le fu n
    (w : world Env) r w' :
  retry_loop self tool_name arguments start todo le fu n w = (r, w') ->
  advances w w' /\
  (forall le' fu' n', r = Ok (Exhausted le' fu' n') ->
     _entries w' = _entries w).
Proof.
  revert le fu n w.
  induction todo as [|attempt todo IH]; intros le fu n w.
  - intros [= <- <-]. split; [|done]. apply quiet_advances, quiet_refl.
  - cbn [retry_loop]. unfold bind at 1.
    destruct (attempt_body _ _ _ _ _ _ _ w) as [[ctl | e] w1] eqn:Hb;
      apply attempt_body_advances in Hb as [Ha He].
    + destruct ctl as [le1 fu1 | le1 fu1 | v].
      * intros H. apply IH in H as [Ha' He']. split.
        -- by eapply advances_trans.
        -- intros le' fu' n' Hr. rewrite (He' _ _ _ Hr).
           by apply (He _ eq_refl).
      * intros [= <- <-]. split; [done|]. intros le' fu' n' _.
        by apply (He _ eq_refl).
      * intros [= <- <-]. by split.
    + intros [= <- <-]. by split.
Qed.

Lemma call_raw_advances self tool_name arguments (w : world Env) r w' :
  _call_raw self tool_name arguments w = (r, w') -> advances w w'.
Proof.
  rewrite call_raw_run.
  destruct (retry_loop _ _ _ _ _ _ _ _ _) as [[[v | le fu n] | e] w2] eqn:Hl;
    apply retry_loop_advances in Hl as [Ha _];
    intros [= <- <-];
    (eapply advances_trans; [apply quiet_advances, quiet_started|]);
    [done | | done].
  eapply advances_trans; [exact Ha|]. apply quiet_advances.
  eapply quiet_trans; [apply quiet_started|apply quiet_recorded].
Qed.

Lemma call_advances self tool_name kwargs (w : world Env) r w' :
  call self tool_name kwargs w = (r, w') -> advances w w'.
Proof.
  unfold call.
  destruct (validate self); [destruct (validate_params _ _)|];
    try apply call_raw_advances.
  intros [= <- <-]. apply quiet_advances, quiet_refl.
Qed.

Lemma run_calls_advances self calls (w : world Env) :
  advances w (run_calls self calls w).
Proof.
  revert w. induction calls as [|[t a] calls IH]; intros w; cbn.
  - apply quiet_advances, quiet_refl.
  - eapply advances_trans; [|apply IH].
    apply (call_advances self t a w (call self t a w).1).
    by destruct (call self t a w).
Qed.

Lemma ids_from_sorted (c : Z) (n : nat) : StronglySorted Z.lt (ids_from c n).
Proof.
  unfold ids_from. generalize 1%nat as a.
  induction n as [|n IH]; intros a; cbn; constructor; [apply IH|].
  apply Forall_forall. intros x Hx.
  apply list_elem_of_fmap in Hx as (k & -> & Hk).
  apply elem_of_seq in Hk. lia.
Qed.

Lemma sorted_lt_NoDup (l : list Z) : StronglySorted Z.lt l -> NoDup l.
Proof.
  induction 1 as [|x l Hs IH Hall]; constructor; [|done].
  intros Hin. rewrite Forall_forall in Hall. specialize (Hall x Hin). lia.
Qed.

(** C8, as the code has it.  The counter belongs to the client object:
    over the whole life of one client, from its construction on and
    through any sequence of calls, every request it sends carries an
    integer id, the ids are 1, 2, 3, ... in the order of sending (each
    attempt takes the next value of the counter), so they increase
    strictly and no two requests of that client, of one call or of
    different calls, share an id. *)
Theorem request_ids_are_unique
    (self : ViceMCPClient) (calls : list (string * pydict)) (e : Env) :
  exists ids : list Z,
    sent_ids (trace (run_calls self calls (init_world e))) = Some <$> ids /\
    ids = ids_from 0 (length ids) /\
    _id_counter (run_calls self calls (init_world e))
    = Z.of_nat (length ids) /\
    StronglySorted Z.lt ids /\
    NoDup ids.
Proof.
  destruct (run_calls_advances self calls (init_world e)) as (n & Hc & Ht).
  cbn in Hc, Ht. exists (ids_from 0 n).
  assert (Hlen : length (ids_from 0 n) = n).
  { unfold ids_from. by rewrite length_fmap, length_seq. }
  rewrite Hlen. repeat split; [done | lia | apply ids_from_sorted |].
  apply sorted_lt_NoDup, ids_from_sorted.
Qed.



(** *** Exhaustion *)

(** What follows the loop in [_call_raw], from the values the loop
    leaves in [last_error], [fallback_used] and [attempts]: one failed
    entry, nothing more sent, and an error chosen by the class of
    [last_error]. *)
Lemma call_raw_after_exhaustion
    self tool_name arguments (w : world Env) le fu n w2 :
  retry_loop self tool_name arguments (time_monotonic (env w)).1
    (range (max_retries self + 1)) None false 0 (started w)
  = (Ok (Exhausted le fu n), w2) ->
  exists (entry : LogEntry) (raised : pyexc) (w' : world Env),
    _call_raw self tool_name arguments w = (Raise raised, w') /\
    _entries w' = _entries w ++ [entry] /\
    trace w' = trace w2 /\
    (tool entry = tool_name /\ success entry = false /\
     retry_count entry = n - 1 /\ fallback_used entry = fu) /\
    match le with
    | Some e =>
        error entry = Some (exc_str e) /\
        error_code entry = exc_code e /\
        match exc_class_of e with
        | OSError =>
            exc_class_of raised = ViceMCPConnectionError /\
            exc_str raised
            = "Failed to connect after " +:+ str_int n +:+ " attempts: "
                +:+ exc_str e
        | OtherException =>
            exc_class_of raised = ViceMCPError /\
            exc_str raised
            = "Call to " +:+ tool_name +:+ " failed after " +:+ str_int n
                +:+ " attempts: " +:+ exc_str e
        | _ => raised = e
        end
    | None =>
        error entry = Some "Unknown error" /\
        error_code entry = PyNone /\
        exc_class_of raised = ViceMCPError /\
        exc_str raised
        = "Call to " +:+ tool_name +:+ " failed after " +:+ str_int n
            +:+ " attempts: Unknown error"
    end.
Proof.
  intros Hloop. rewrite call_raw_run, Hloop.
  apply retry_loop_advances in Hloop as [_ Hent].
  specialize (Hent _ _ _ eq_refl). cbn in Hent.
  eexists _, _, _. split; [reflexivity|]. cbn. rewrite Hent.
  repeat split.
  destruct le as [e|]; [|by repeat split].
  unfold exhausted_error. cbn.
  by destruct (exc_class_of e).
Qed.

(** *** Validation *)

(** C1, as the code has it.  With validation enabled, a call whose
    arguments violate the schema raises [ViceMCPValidationError], with
    code -32602 and the violations joined by "; ", and leaves the world
    exactly as it was: no request is sent, no sleep, no request id is
    used, and nothing is recorded by the monitor. *)
Theorem validation_failure_aborts_unrecorded
    self tool_name kwargs (w : world Env) :
  validate self = true ->
  validate_params tool_name kwargs <> [] ->
  exists exc : pyexc,
    call self tool_name kwargs w = (Raise exc, w) /\
    exc_class_of exc = ViceMCPValidationError /\
    exc_code exc = PyInt JSONRPC_INVALID_PARAMS /\
    exc_str exc = String.concat "; " (validate_params tool_name kwargs).
Proof.
  intros Hv Herr. unfold call. rewrite Hv.
  destruct (validate_params tool_name kwargs) as [|err errs]; [done|].
  eexists. by repeat split.
Qed.

End Attempts.

(** ** Runs on the scripted runtime *)

Lemma tool_error_is_not_retried_witness :
  exists w',
    _call_raw default_client "vice.memory.read"
      [("address", PyInt 49152); ("size", PyInt 70000)]
      (stub_world [HttpOk 200 "invalid-address"] false)
    = (Raise invalid_address_error, w') /\
    length (_entries w') = 1%nat /\
    length (trace w') = 1%nat.
Proof.
  destruct (tool_error_is_not_retried default_client "vice.memory.read"
              [("address", PyInt 49152); ("size", PyInt 70000)]
              (stub_world [HttpOk 200 "invalid-address"] false)
              200 "invalid-address" invalid_address_error)
    as (entry & w' & Hrun & Htr & _ & Hent & _);
    [by vm_compute | reflexivity | reflexivity | reflexivity |].
  exists w'. split; [exact Hrun|]. by rewrite Hent, Htr.
Defined.

Lemma first_attempt_tool_error_logged_without_message_witness :
  exists entry w',
    _call_raw default_client "vice.memory.read"
      [("address", PyInt 49152); ("size", PyInt 70000)]
      (stub_world [HttpOk 200 "invalid-address"] false)
    = (Raise invalid_address_error, w') /\
    _entries w' = [entry] /\
    error entry = None /\
    error_code entry = PyNone.
Proof.
  destruct (first_attempt_tool_error_logged_without_message default_client
              "vice.memory.read"
              [("address", PyInt 49152); ("size", PyInt 70000)]
              (stub_world [HttpOk 200 "invalid-address"] false)
              200 "invalid-address" invalid_address_error)
    as (entry & w' & Hrun & Hent & _ & Herr & Hcode);
    [by vm_compute | reflexivity | reflexivity | reflexivity |].
  by exists entry, w'.
Defined.

Lemma fallback_succeeds_without_delay_witness :
  exists entry w',
    _call_raw default_client "vice.ping" []
      (stub_world [HttpOk 200 "method-not-found"; HttpOk 200 "ok"] false)
    = (Ok (PyDict [("pong", PyBool true)]), w') /\
    _entries w' = [entry] /\
    fallback_used entry = true /\
    retry_count entry = 1 /\
    length (trace w') = 2%nat.
Proof.
  destruct (fallback_succeeds_without_delay default_client "vice.ping" []
              (stub_world [HttpOk 200 "method-not-found"; HttpOk 200 "ok"]
                 false)
              method_not_found_error (PyDict [("pong", PyBool true)]))
    as (entry & w' & Hrun & Htr & Hent & _ & _ & Hfb & Hrc);
    [by vm_compute | reflexivity | reflexivity | reflexivity |].
  exists entry, w'. by rewrite Htr.
Defined.

Lemma connection_errors_exhaust_four_attempts_witness :
  exists exc w',
    _call_raw (RT := down_runtime) default_client "vice.ping" []
      (stub_world [] false)
    = (Raise exc, w') /\
    exc_class_of exc = ViceMCPConnectionError /\
    exc_str exc
    = "Failed to connect after 4 attempts: [Errno 111] Connection refused" /\
    length (trace w') = 7%nat.
Proof.
  destruct (connection_errors_exhaust_four_attempts (RT := down_runtime)
              default_client "vice.ping" [] (stub_world [] false))
    as (te0 & te1 & te2 & te3 & entry & exc & w' & Hrun & Htr & _ & _ & _
        & Hcls & Hstr & _);
    [reflexivity | reflexivity | by vm_compute | |].
  - intros url payload tmo e. by exists connection_refused.
  - exists exc, w'. split; [exact Hrun|]. split; [exact Hcls|].
    split; [|by rewrite Htr].
    vm_compute in Hrun. by injection Hrun as <- <-.
Defined.

Lemma validation_failure_aborts_unrecorded_witness :
  exists exc,
    call default_client "vice.registers.set" [("register", PyStr "A")]
      (stub_world [] false)
    = (Raise exc, stub_world [] false) /\
    exc_str exc
    = "Missing required parameter 'value' for vice.registers.set".
Proof.
  destruct (validation_failure_aborts_unrecorded default_client
              "vice.registers.set" [("register", PyStr "A")]
              (stub_world [] false))
    as (exc & Hrun & _ & _ & Hstr); [reflexivity | by vm_compute |].
  exists exc. split; [exact Hrun|]. rewrite Hstr. by vm_compute.
Defined.

Lemma record_swallows_persist_failure_witness :
  exists entry w',
    (append_entry "reliability.jsonl" entry (env (stub_world [] true))).1
    = false /\
    record "reliability.jsonl" "vice.ping" (12 # 1) false (Some "boom")
      PyNone 0 false (stub_world [] true)
    = (Ok tt, w') /\
    _entries w' = [entry] /\
    last (get_recent_failures_of (_entries w') 10) = Some entry.
Proof.
  destruct (record_swallows_persist_failure "reliability.jsonl" "vice.ping"
              (12 # 1) false (Some "boom") PyNone 0 false
              (stub_world [] true))
    as (entry & w' & Hrun & Hent & _ & _ & _ & _ & Hlast).
  exists entry, w'. split; [reflexivity|]. split; [exact Hrun|].
  split; [exact Hent|]. apply Hlast; [reflexivity | lia].
Defined.

Lemma stats_of_one_tool_witness :
  let s := get_stats_of [sample_entry true; sample_entry true;
                         sample_entry false] in
  total_calls s = 3 /\
  failures_by_tool s !! "vice.ping" = Some 1 /\
  failure_rate s = py_round (double_of_Q (1 # 3)) 4 /\
  (Qabs (failure_rate s - (1 # 3)) <= (1 # 20000) + (1 # 2 ^ 53))%Q.
Proof.
  destruct (proj2 stats_of_one_tool
              [sample_entry true; sample_entry true; sample_entry false]
              "vice.ping")
    as (Htot & _ & Hby & Hrate & _ & Hnear).
  - by repeat constructor.
  - done.
  - cbv zeta. split; [exact Htot|]. split; [exact Hby|].
    split; [exact Hrate|]. exact Hnear.
Defined.

(** ** Where the code departs from the specification *)

(** C1 as stated fails: the validation error is raised, but the monitor
    has recorded nothing, so there is no failed entry with
    [retry_count = 0] for the call. *)
Lemma validation_failure_is_not_recorded :
  let run := call default_client "vice.registers.set"
               [("register", PyStr "A")] (stub_world [] false) in
  validate default_client = true /\
  validate_params "vice.registers.set" [("register", PyStr "A")] <> [] /\
  (exists exc, run.1 = Raise exc /\
               exc_class_of exc = ViceMCPValidationError) /\
  ~ (exists entry, entry ∈ _entries run.2 /\
                   success entry = false /\ retry_count entry = 0).
Proof.
  cbv zeta. split; [reflexivity|]. split; [by vm_compute|]. split.
  - eexists. split; [vm_compute; reflexivity | reflexivity].
  - intros (entry & Hin & _). vm_compute in Hin. by apply elem_of_nil in Hin.
Qed.

(** C5 as stated fails: when every attempt ends in a protocol error, the
    last failure is not transport-level, yet what the call raises is not
    a generic exhaustion error but that [ViceMCPProtocolError] itself,
    with the server's message and code. *)
Lemma exhaustion_reraises_protocol_error :
  let w := stub_world (replicate 4 (HttpOk 200 "method-not-found")) false in
  exists w2 w',
    retry_loop default_client "vice.ping" [] (time_monotonic (env w)).1
      (range (max_retries default_client + 1)) None false 0 (started w)
    = (Ok (Exhausted (Some method_not_found_error) true 4), w2) /\
    _call_raw default_client "vice.ping" [] w
    = (Raise method_not_found_error, w') /\
    ~ exhaustion_as_specified method_not_found_error method_not_found_error.
Proof.
  cbv zeta. eexists _, _. split; [vm_compute; reflexivity|].
  split; [vm_compute; reflexivity|].
  unfold exhaustion_as_specified. cbn. discriminate.
Qed.

(** C8 as stated fails: the counter starts at zero in every client, so
    two clients built in one process, the second after the first has
    made its call, both send a request with id 1. *)
Lemma second_client_reuses_request_id :
  let first :=
    run_calls default_client [("vice.ping", [])]
      (stub_world [HttpOk 200 "ok"; HttpOk 200 "ok"] false) in
  let second :=
    run_calls default_client [("vice.ping", [])] (init_world (env first)) in
  sent_ids (trace first) = [Some 1] /\
  sent_ids (trace second) = [Some 1] /\
  ~ NoDup (sent_ids (trace first) ++ sent_ids (trace second)).
Proof.
  cbv zeta. split; [by vm_compute|]. split; [by vm_compute|].
  intros Hnd. vm_compute in Hnd. apply NoDup_cons in Hnd as [Hin _].
  apply Hin. constructor.
Qed.

(** C7 as stated fails: after two successes and one failure of one tool
    the failure rate reported is 0.3333, not 1/3. *)
Lemma failure_rate_is_rounded :
  let w := stub_world [] false in
  let run :=
    (record "reliability.jsonl" "vice.ping" (5 # 1) true None PyNone 0 false ;;
     record "reliability.jsonl" "vice.ping" (5 # 1) true None PyNone 0 false ;;
     record "reliability.jsonl" "vice.ping" (5 # 1) false (Some "boom")
       PyNone 0 false ;;
     get_stats) w in
  exists s w',
    run = (Ok s, w') /\
    total_calls s = 2 + 1 /\
    failures_by_tool s !! "vice.ping" = Some 1 /\
    failure_rate s = (3333 # 10000)%Q /\
    ~ (failure_rate s == inject_Z 1 / inject_Z (2 + 1))%Q.
Proof.
  cbv zeta. eexists _, _. split; [vm_compute; reflexivity|].
  split; [reflexivity|]. split; [by vm_compute|]. split; [by vm_compute|].
  by vm_compute.
Qed.


(** ** One pass of the loop, case by case *)

Section StepLemmas.

Context {Env : Type} `{RT : Runtime Env}.

Lemma backoff_cases self attempt (w : world Env) :
  backoff self attempt w
  = if Qle_bool 0 (backoff_delay self attempt)
    then (Ok tt, slept (backoff_delay self attempt) w)
    else (Raise sleep_value_error, w).
Proof.
  unfold backoff, time_sleep, backoff_delay, slept, sleep_value_error.
  by destruct (Qle_bool _ _).
Qed.

(** Every pass through the loop body is one of the six steps. *)
Lemma attempt_body_step self tool_name arguments start attempt le fu
    (w : world Env) :
  attempt_step self tool_name arguments start attempt le fu w
    (attempt_body self tool_name arguments start attempt le fu w).1
    (attempt_body self tool_name arguments start attempt le fu w).2.
Proof.
  rewrite attempt_body_run.
  destruct (outcome_result _) as [v | exc] eqn:Hout.
  - rewrite on_success_run. cbn [fst snd]. by apply step_success.
  - set (ws := sent self tool_name arguments attempt fu w).
    destruct (decide (exc_class_of exc = ViceMCPToolError)) as [Ht | Ht].
    { rewrite except_tool_error by done. cbn [fst snd].
      by apply step_tool_error. }
    destruct (decide (exc_class_of exc = ViceMCPProtocolError
                      /\ fu = false)) as [[Hp ->] | Hnf].
    { rewrite except_protocol_first by done. cbn [fst snd].
      by apply step_fallback. }
    assert (Hfu : exc_class_of exc = ViceMCPProtocolError -> fu = true).
    { intros Hp. destruct fu; [done|]. by destruct Hnf. }
    assert (Hgen :
      except_clauses self tool_name start attempt le fu exc ws
      = (if attempt <? max_retries self
         then if Qle_bool 0 (backoff_delay self attempt)
              then (Ok (Continue (Some exc) fu),
                    slept (backoff_delay self attempt) ws)
              else (Raise sleep_value_error, ws)
         else (Ok (Continue (Some exc) fu), ws))
      \/ (except_clauses self tool_name start attempt le fu exc ws
          = (Ok (Break (Some exc) fu), ws)
          /\ (attempt <? max_retries self) = false)).
    { unfold except_clauses.
      destruct (exc_class_of exc) eqn:Hc; try done.
      4: { left. rewrite (Hfu eq_refl). cbn [negb]. unfold bind.
           destruct (attempt <? max_retries self); [|done].
           rewrite backoff_cases. by destruct (Qle_bool _ _). }
      5: { left. unfold bind.
           destruct (attempt <? max_retries self); [|done].
           rewrite backoff_cases. by destruct (Qle_bool _ _). }
      all: cbv zeta;
        repeat match goal with
               | |- context [(?a || ?b)%bool] => destruct (a || b)%bool
               end;
        cbn [andb];
        (destruct (attempt <? max_retries self) eqn:Hlt;
         [ left; unfold bind; rewrite backoff_cases;
           by destruct (Qle_bool _ _)
         | right; by split ]). }
    destruct Hgen as [-> | [-> Hlt]].
    + destruct (Z.ltb_spec attempt (max_retries self)) as [Hlt | Hge].
      * destruct (Qle_bool _ _) eqn:Hq; cbn [fst snd];
          [by apply step_backoff | by apply (step_bad_sleep _ _ _ _ _ _ _ _ exc)].
      * cbn [fst snd]. by apply (step_last _ _ _ _ _ _ _ _ exc false).
    + apply Z.ltb_ge in Hlt. cbn [fst snd].
      by apply (step_last _ _ _ _ _ _ _ _ exc true).
Qed.

End StepLemmas.

(** ** The shape of a run *)

Section RunShape.

Context {Env : Type} `{RT : Runtime Env}.

Lemma range_is_range_from (n : Z) : range n = range_from 0 (Z.to_nat n).
Proof. unfold range, range_from. by apply list_fmap_ext. Qed.

Lemma range_from_S (a : Z) (n : nat) :
  range_from a (S n) = a :: range_from (a + 1) n.
Proof.
  unfold range_from. cbn [seq fmap list_fmap]. f_equal; [lia|].
  rewrite <- fmap_S_seq, <- list_fmap_compose.
  apply list_fmap_ext. intros _ i _. cbn. lia.
Qed.

Lemma protocol_failure_raise (o : http_outcome) exc :
  outcome_result o = Raise exc ->
  protocol_failure o = bool_decide (exc_class_of exc = ViceMCPProtocolError).
Proof. unfold protocol_failure. by intros ->. Qed.

Lemma flag_after_failure (fu : bool) (o : http_outcome) exc :
  outcome_result o = Raise exc ->
  (exc_class_of exc = ViceMCPProtocolError -> fu = true) ->
  fu || protocol_failure o = fu.
Proof.
  intros Ho Hfu. rewrite (protocol_failure_raise o exc Ho).
  destruct fu; [done|]. cbn. apply bool_decide_eq_false. intros Hp.
  by specialize (Hfu Hp).
Qed.

(** The trace of the loop: one record per attempt made. *)
Lemma retry_loop_shape self tool_name arguments start (len : nat) (k : Z)
    le fu n (w : world Env) r w' :
  k + Z.of_nat len = Z.max k (max_retries self + 1) ->
  retry_loop self tool_name arguments start (range_from k len) le fu n w
  = (r, w') ->
  exists recs : list attempt_rec,
    trace w'
    = trace w ++ render self tool_name arguments (_id_counter w) k recs /\
    _id_counter w' = _id_counter w + Z.of_nat (length recs) /\
    (length recs <= len)%nat /\
    (len <> 0%nat -> recs <> []) /\
    encodings_follow fu recs /\
    sleeps_between self k recs /\
    (forall le' fu' n', r = Ok (Exhausted le' fu' n') ->
       length recs = len /\
       fu' = foldl (fun b rc => b || protocol_failure (ar_outcome rc)) fu recs).
Proof.
  revert k le fu n w.
  induction len as [|len IH]; intros k le fu n w Hk.
  - intros [= <- <-]. exists []. cbn. rewrite app_nil_r.
    split; [done|]. split; [lia|]. split; [lia|]. split; [done|].
    split; [done|]. split; [done|]. by intros ? ? ? [= <- <- <-].
  - rewrite range_from_S. cbn [retry_loop]. unfold bind at 1.
    pose proof (attempt_body_step self tool_name arguments start k le fu w)
      as Hstep.
    destruct (attempt_body _ _ _ _ _ _ _ w) as [r1 w1]. cbn [fst snd] in Hstep.
    set (o := reply self tool_name arguments k fu w) in *.
    assert (Hsent : forall sl : bool,
      trace (sent self tool_name arguments k fu w)
        ++ (if sl then [EvSleep (backoff_delay self k)] else [])
      = trace w ++ render self tool_name arguments (_id_counter w) k
                     [{| ar_direct := fu; ar_outcome := o; ar_slept := sl |}]).
    { intros sl. cbn. unfold post_event. fold o.
      rewrite <- app_assoc. cbn. by rewrite app_nil_r. }
    assert (Hlast : forall (wx : world Env) (rx : result loop_exit),
      trace wx = trace (sent self tool_name arguments k fu w) ->
      _id_counter wx = _id_counter w + 1 ->
      (forall le' fu' n', rx = Ok (Exhausted le' fu' n') ->
         len = 0%nat /\ fu' = fu || protocol_failure o) ->
      exists recs : list attempt_rec,
        trace wx
        = trace w ++ render self tool_name arguments (_id_counter w) k recs /\
        _id_counter wx = _id_counter w + Z.of_nat (length recs) /\
        (length recs <= S len)%nat /\
        (S len <> 0%nat -> recs <> []) /\
        encodings_follow fu recs /\
        sleeps_between self k recs /\
        (forall le' fu' n', rx = Ok (Exhausted le' fu' n') ->
           length recs = S len /\
           fu' = foldl (fun b rc => b || protocol_failure (ar_outcome rc))
                   fu recs)).
    { intros wx rx Htr Hid Hx.
      exists [{| ar_direct := fu; ar_outcome := o; ar_slept := false |}].
      rewrite Htr, <- (Hsent false), app_nil_r. cbn.
      split; [done|]. split; [lia|]. split; [lia|]. split; [done|].
      split; [done|]. split; [done|].
      intros le' fu' n' Hr. by destruct (Hx _ _ _ Hr) as [-> ->]. }
    assert (Hcont : forall (sl : bool) (wx : world Env) le1 n1,
      trace wx = trace (sent self tool_name arguments k fu w)
                 ++ (if sl then [EvSleep (backoff_delay self k)] else []) ->
      _id_counter wx = _id_counter w + 1 ->
      (sl = true -> k < max_retries self) ->
      retry_loop self tool_name arguments start (range_from (k + 1) len)
        le1 (fu || protocol_failure o) n1 wx = (r, w') ->
      exists recs : list attempt_rec,
        trace w'
        = trace w ++ render self tool_name arguments (_id_counter w) k recs /\
        _id_counter w' = _id_counter w + Z.of_nat (length recs) /\
        (length recs <= S len)%nat /\
        (S len <> 0%nat -> recs <> []) /\
        encodings_follow fu recs /\
        sleeps_between self k recs /\
        (forall le' fu' n', r = Ok (Exhausted le' fu' n') ->
           length recs = S len /\
           fu' = foldl (fun b rc => b || protocol_failure (ar_outcome rc))
                   fu recs)).
    { intros sl wx le1 n1 Htr Hid Hsl Hloop.
      apply IH in Hloop as (recs & Ht & Hc & Hl & Hne & He & Hs & Hx); [|lia].
      exists ({| ar_direct := fu; ar_outcome := o; ar_slept := sl |} :: recs).
      rewrite Ht, Htr, Hid, Hc. cbn [length render ar_direct
        ar_outcome ar_slept encodings_follow sleeps_between foldl].
      unfold sent at 1. cbn [trace]. unfold post_event. fold o.
      rewrite <- !app_assoc. cbn [app].
      split; [done|]. split; [lia|]. split; [lia|]. split; [done|].
      split; [done|]. split.
      - split; [|done]. intros Hsl'. split; [by apply Hsl|].
        apply Hne. specialize (Hsl Hsl'). lia.
      - intros le' fu' n' Hr. destruct (Hx _ _ _ Hr) as [Hlen ->].
        by rewrite Hlen. }
    destruct Hstep as [v Ho | exc Ho Hc | exc Ho Hc Hfu | exc Ho Hc Hfu Hlt Hq
                       | exc Ho Hc Hfu Hlt Hq | exc by_break Ho Hc Hfu Hge].
    + intros [= <- <-]. by apply Hlast.
    + intros [= <- <-]. by apply Hlast.
    + subst fu. intros Hloop.
      apply (Hcont false (sent self tool_name arguments k false w)
               (Some exc) (k + 1)); [by rewrite app_nil_r|done|done|].
      rewrite (protocol_failure_raise o exc Ho), bool_decide_eq_true_2 by done.
      exact Hloop.
    + intros Hloop.
      apply (Hcont true
               (slept (backoff_delay self k)
                  (sent self tool_name arguments k fu w))
               (Some exc) (k + 1)); [done | done | done |].
      by rewrite (flag_after_failure fu o exc Ho Hfu).
    + intros [= <- <-]. by apply Hlast.
    + assert (Hlen : len = 0%nat) by lia. subst len.
      destruct by_break; cbn; intros [= <- <-].
      * apply Hlast; [done | done |]. intros ? ? ? [= <- <- <-].
        by rewrite (flag_after_failure fu o exc Ho Hfu).
      * apply Hlast; [done | done |]. intros ? ? ? [= <- <- <-].
        by rewrite (flag_after_failure fu o exc Ho Hfu).
Qed.

End RunShape.

(** ** Every call, whatever its outcome *)

Section EveryCall.

Context {Env : Type} `{RT : Runtime Env}.

Lemma post_timeouts_app (tr1 tr2 : list event) :
  post_timeouts (tr1 ++ tr2) = post_timeouts tr1 ++ post_timeouts tr2.
Proof. induction tr1 as [|[] tr1 IH]; cbn; [done| |done]. by rewrite IH. Qed.

Lemma post_payloads_app (tr1 tr2 : list event) :
  post_payloads (tr1 ++ tr2) = post_payloads tr1 ++ post_payloads tr2.
Proof. induction tr1 as [|[] tr1 IH]; cbn; [done| |done]. by rewrite IH. Qed.

Lemma sleeps_app (tr1 tr2 : list event) :
  sleeps (tr1 ++ tr2) = sleeps tr1 ++ sleeps tr2.
Proof. induction tr1 as [|[] tr1 IH]; cbn; [done|done|]. by rewrite IH. Qed.

Lemma render_timeouts self tool_name arguments c k (recs : list attempt_rec) :
  post_timeouts (render self tool_name arguments c k recs)
  = attempt_timeout self <$> range_from k (length recs).
Proof.
  revert c k. induction recs as [|r recs IH]; intros c k; [done|].
  cbn [render length]. rewrite range_from_S. cbn [post_timeouts fmap list_fmap].
  f_equal. rewrite post_timeouts_app, IH. by destruct (ar_slept r).
Qed.

(** The shape of the loop, lifted to [_call_raw]. *)
Lemma call_raw_shape self tool_name arguments (w : world Env) r w' :
  _call_raw self tool_name arguments w = (r, w') ->
  exists recs : list attempt_rec,
    trace w'
    = trace w ++ render self tool_name arguments (_id_counter w) 0 recs /\
    _id_counter w' = _id_counter w + Z.of_nat (length recs) /\
    Z.of_nat (length recs) <= Z.max 0 (max_retries self + 1) /\
    (0 <= max_retries self -> recs <> []) /\
    encodings_follow false recs /\
    sleeps_between self 0 recs.
Proof.
  rewrite call_raw_run, range_is_range_from.
  destruct (retry_loop _ _ _ _ _ _ _ _ _) as [r1 w1] eqn:Hloop.
  apply retry_loop_shape in Hloop as (recs & Ht & Hc & Hl & Hne & He & Hs & _);
    [|lia].
  cbn in Ht, Hc.
  assert (Hnon : 0 <= max_retries self -> recs <> []).
  { intros Hm. apply Hne. lia. }
  destruct r1 as [[v | le fu n] | e]; intros [= <- <-];
    exists recs; cbn; (repeat split; [done | done | lia | done | done | done]).
Qed.

(** Whatever becomes of a call, the requests it sends are timed by their
    position alone: request number [k] (from 0) gets the timeout
    [timeout * 1.5^k]; there are at most [max_retries + 1] of them, at
    least one when [max_retries >= 0], and each takes one request id. *)
Theorem timeouts_follow_attempt_number
    self tool_name arguments (w : world Env) :
  let w' := (_call_raw self tool_name arguments w).2 in
  exists m : nat,
    post_timeouts (trace w')
    = post_timeouts (trace w)
      ++ ((fun k => timeout self * (3 # 2) ^ k)%Q <$> range_from 0 m) /\
    Z.of_nat m <= Z.max 0 (max_retries self + 1) /\
    (0 <= max_retries self -> (1 <= m)%nat) /\
    _id_counter w' = _id_counter w + Z.of_nat m.
Proof.
  cbv zeta.
  destruct (_call_raw self tool_name arguments w) as [r w'] eqn:Hrun.
  apply call_raw_shape in Hrun as (recs & Ht & Hc & Hl & Hne & _).
  exists (length recs). cbn [snd].
  rewrite Ht, post_timeouts_app, render_timeouts.
  repeat split; [done | | done].
  intros Hm. specialize (Hne Hm). destruct recs; [done|]. cbn. lia.
Qed.

Lemma render_payloads self tool_name arguments c k fu
    (recs : list attempt_rec) :
  encodings_follow fu recs ->
  exists a b : nat,
    (a + b)%nat = length recs /\
    (fu = true -> a = 0%nat) /\
    (fu = false -> recs <> [] -> (1 <= a)%nat) /\
    post_payloads (render self tool_name arguments c k recs)
    = (wrapped_request tool_name arguments <$> range_from (c + 1) a)
      ++ (direct_request tool_name arguments
            <$> range_from (c + 1 + Z.of_nat a) b).
Proof.
  revert c k fu. induction recs as [|r recs IH]; intros c k fu He.
  - exists 0%nat, 0%nat. by repeat split.
  - destruct He as [Hd He].
    destruct (IH (c + 1) (k + 1) _ He) as (a & b & Hab & Ha0 & _ & Hp).
    cbn [render post_payloads]. rewrite post_payloads_app, Hp.
    assert (Hs : post_payloads
                   (if ar_slept r then [EvSleep (backoff_delay self k)]
                    else []) = []) by (by destruct (ar_slept r)).
    rewrite Hs. cbn [app]. rewrite Hd.
    destruct fu.
    + specialize (Ha0 eq_refl). subst a.
      exists 0%nat, (S b). cbn [length]. split; [lia|]. split; [done|].
      split; [done|]. rewrite range_from_S.
      change (range_from (c + 1) 0) with (@nil Z).
      change (range_from (c + 1 + 1) 0) with (@nil Z).
      cbn [fmap list_fmap request_of app].
      replace (c + 1 + Z.of_nat 0) with (c + 1) by lia.
      replace (c + 1 + 1 + Z.of_nat 0) with (c + 1 + 1) by lia.
      done.
    + exists (S a), b. cbn [length]. split; [lia|]. split; [done|].
      split; [lia|]. rewrite range_from_S. cbn [fmap list_fmap request_of app].
      replace (c + 1 + Z.of_nat (S a)) with (c + 1 + 1 + Z.of_nat a) by lia.
      done.
Qed.

(** In every call the requests are a run of wrapped requests followed by
    a run of direct ones, with consecutive ids: the first request is
    always wrapped, and once the client has switched to the direct
    encoding it never goes back. *)
Theorem wrapped_then_direct self tool_name arguments (w : world Env) :
  let w' := (_call_raw self tool_name arguments w).2 in
  exists a b : nat,
    post_payloads (trace w')
    = post_payloads (trace w)
      ++ (wrapped_request tool_name arguments
            <$> range_from (_id_counter w + 1) a)
      ++ (direct_request tool_name arguments
            <$> range_from (_id_counter w + 1 + Z.of_nat a) b) /\
    Z.of_nat (a + b) <= Z.max 0 (max_retries self + 1) /\
    (0 <= max_retries self -> (1 <= a)%nat).
Proof.
  cbv zeta.
  destruct (_call_raw self tool_name arguments w) as [r w'] eqn:Hrun.
  apply call_raw_shape in Hrun as (recs & Ht & Hc & Hl & Hne & He & _).
  destruct (render_payloads self tool_name arguments (_id_counter w) 0 false
              recs He) as (a & b & Hab & _ & Ha & Hp).
  exists a, b. cbn [snd]. rewrite Ht, post_payloads_app, Hp.
  split; [done|]. split; [lia|]. intros Hm. by apply Ha; [|apply Hne].
Qed.

Lemma render_sleeps self tool_name arguments c k (recs : list attempt_rec) :
  sleeps_between self k recs ->
  sublist (sleeps (render self tool_name arguments c k recs))
    (backoff_delay self <$> range_from k (length recs - 1)).
Proof.
  revert c k. induction recs as [|r recs IH]; intros c k Hs; [done|].
  destruct Hs as [Hsl Hs]. cbn [render sleeps]. rewrite sleeps_app.
  specialize (IH (c + 1) (k + 1) Hs).
  destruct recs as [|r' recs'].
  - destruct (ar_slept r); [by destruct (Hsl eq_refl) as [_ []]|]. done.
  - cbn [length Nat.sub] in *. rewrite Nat.sub_0_r in *.
    rewrite range_from_S. cbn [fmap list_fmap].
    destruct (ar_slept r); cbn [sleeps app].
    + by apply sublist_skip.
    + by apply sublist_cons.
Qed.

(** In every call the sleeps are back-off delays [retry_delay * 2^k] of
    attempts [k] that are followed by another attempt, in order: with
    [m] requests sent there are at most [m - 1] sleeps, none after the
    last request. *)
Theorem sleeps_only_between_attempts
    self tool_name arguments (w : world Env) :
  let w' := (_call_raw self tool_name arguments w).2 in
  exists m : nat,
    _id_counter w' = _id_counter w + Z.of_nat m /\
    exists sl : list Q,
      sleeps (trace w') = sleeps (trace w) ++ sl /\
      sublist sl
        ((fun k => retry_delay self * inject_Z (2 ^ k))%Q
           <$> range_from 0 (m - 1)) /\
      (length sl <= m - 1)%nat.
Proof.
  cbv zeta.
  destruct (_call_raw self tool_name arguments w) as [r w'] eqn:Hrun.
  apply call_raw_shape in Hrun as (recs & Ht & Hc & _ & _ & _ & Hs).
  exists (length recs). cbn [snd]. split; [done|].
  eexists. rewrite Ht, sleeps_app. split; [reflexivity|].
  pose proof (render_sleeps self tool_name arguments (_id_counter w) 0 recs Hs)
    as Hsub.
  split; [exact Hsub|].
  apply sublist_length in Hsub. unfold range_from in Hsub.
  by rewrite !length_fmap, length_seq in Hsub.
Qed.

End EveryCall.

(** ** The log entry of a call *)

Section EntryOfCall.

Context {Env : Type} `{RT : Runtime Env}.

Lemma backoff_delay_nonneg self (k : Z) :
  (0 <= retry_delay self)%Q -> Qle_bool 0 (backoff_delay self k) = true.
Proof.
  intros Hd. apply Qle_bool_iff. unfold backoff_delay.
  apply Qmult_le_0_compat; [done|].
  change 0%Q with (inject_Z 0). rewrite <- Zle_Qle. apply Z.pow_nonneg. lia.
Qed.

(** What the loop does to the log, with [m] the number of requests it
    sent. *)
Lemma retry_loop_entries self tool_name arguments start (len : nat) (k : Z)
    le fu n (w : world Env) r w' :
  (0 <= retry_delay self)%Q ->
  k + Z.of_nat len = Z.max k (max_retries self + 1) ->
  retry_loop self tool_name arguments start (range_from k len) le fu n w
  = (r, w') ->
  let m := _id_counter w' - _id_counter w in
  match r with
  | Ok (Returned v) =>
      exists e, _entries w' = _entries w ++ [e] /\ tool e = tool_name /\
                success e = true /\ error e = None /\
                retry_count e = k + m - 1
  | Ok (Exhausted le' fu' n') =>
      _entries w' = _entries w /\ m = Z.of_nat len /\
      n' = (if decide (len = 0%nat) then n else k + Z.of_nat len) /\
      (le' = le \/ exists exc, le' = Some exc
                               /\ exc_class_of exc <> ViceMCPToolError)
  | Raise exc =>
      exists e, _entries w' = _entries w ++ [e] /\ tool e = tool_name /\
                success e = false /\ retry_count e = k + m - 1 /\
                exc_class_of exc = ViceMCPToolError
  end.
Proof.
  intros Hd. revert k le fu n w.
  induction len as [|len IH]; intros k le fu n w Hk.
  - intros [= <- <-]. cbn. repeat split; [lia | by left].
  - rewrite range_from_S. cbn [retry_loop]. unfold bind at 1.
    pose proof (attempt_body_step self tool_name arguments start k le fu w)
      as Hstep.
    destruct (attempt_body _ _ _ _ _ _ _ w) as [r1 w1]. cbn [fst snd] in Hstep.
    assert (Hgo : forall wx le1 fu1 exc,
      _id_counter wx = _id_counter w + 1 ->
      _entries wx = _entries w ->
      le1 = Some exc -> exc_class_of exc <> ViceMCPToolError ->
      retry_loop self tool_name arguments start (range_from (k + 1) len)
        le1 fu1 (k + 1) wx = (r, w') ->
      let m := _id_counter w' - _id_counter w in
      match r with
      | Ok (Returned v) =>
          exists e, _entries w' = _entries w ++ [e] /\ tool e = tool_name /\
                    success e = true /\ error e = None /\
                    retry_count e = k + m - 1
      | Ok (Exhausted le' fu' n') =>
          _entries w' = _entries w /\ m = Z.of_nat (S len) /\
          n' = (if decide (S len = 0%nat) then n else k + Z.of_nat (S len)) /\
          (le' = le \/ exists exc, le' = Some exc
                                   /\ exc_class_of exc <> ViceMCPToolError)
      | Raise exc =>
          exists e, _entries w' = _entries w ++ [e] /\ tool e = tool_name /\
                    success e = false /\ retry_count e = k + m - 1 /\
                    exc_class_of exc = ViceMCPToolError
      end).
    { intros wx le1 fu1 exc Hid Hen Hle Hcls Hloop.
      apply IH in Hloop; [|lia]. cbv zeta in *. rewrite Hid, Hen in Hloop.
      destruct r as [[v | le' fu' n'] | exc'].
      - destruct Hloop as (e & He & Ht & Hs & Her & Hrc).
        exists e. repeat split; [done..|]. lia.
      - destruct Hloop as (He & Hm & Hn & Hle').
        split; [done|]. split; [lia|]. split.
        + rewrite Hn. destruct (decide (S len = 0%nat)); [done|].
          destruct (decide (len = 0%nat)) as [-> | ?]; lia.
        + right. destruct Hle' as [-> | Hex]; [|done]. by exists exc.
      - destruct Hloop as (e & He & Ht & Hs & Hrc & Hc).
        exists e. repeat split; [done..| | done]. lia. }
    destruct Hstep as [v Ho | exc Ho Hc | exc Ho Hc Hfu | exc Ho Hc Hfu Hlt Hq
                       | exc Ho Hc Hfu Hlt Hq | exc by_break Ho Hc Hfu Hge].
    + intros [= <- <-]. cbn. eexists.
      repeat split; unfold entry_in; cbn; lia.
    + intros [= <- <-]. cbn. eexists.
      repeat split; unfold entry_in; cbn; [lia | done].
    + intros Hloop. by eapply (Hgo _ _ _ exc); [| | | |exact Hloop];
        [done | done | done | congruence].
    + intros Hloop. by eapply (Hgo _ _ _ exc); [| | | |exact Hloop].
    + by rewrite backoff_delay_nonneg in Hq.
    + assert (Hlen : len = 0%nat) by lia. subst len.
      destruct by_break; cbn; intros [= <- <-]; cbn;
        (repeat split; first [lia | by right; exists exc]).
Qed.



End EntryOfCall.

(** ** Exhaustion *)

Section Exhaustion.

Context {Env : Type} `{RT : Runtime Env}.

Lemma post_outcomes_app (tr1 tr2 : list event) :
  post_outcomes (tr1 ++ tr2) = post_outcomes tr1 ++ post_outcomes tr2.
Proof. induction tr1 as [|[] tr1 IH]; cbn; [done | by rewrite IH | done]. Qed.

(** When the loop runs through its last attempt, the one numbered
    [max_retries], and comes out without a result, the last thing that
    happened is the request of that attempt; [last_error] is the failure
    of that request, [attempts] is the number of attempts allowed, and
    [fallback_used] tells whether a request of the loop ended in a
    protocol error. *)
Lemma retry_loop_exhausted_last self tool_name arguments start (len : nat)
    (k : Z) le fu n (w : world Env) le' fu' n' w' :
  k + Z.of_nat (S len) = max_retries self + 1 ->
  retry_loop self tool_name arguments start (range_from k (S len)) le fu n w
  = (Ok (Exhausted le' fu' n'), w') ->
  exists (tr : list event) (direct : bool) (o : http_outcome) (exc : pyexc),
    trace w' = trace w ++ tr /\
    length (post_outcomes tr) = S len /\
    last tr
    = Some (EvPost (_base_url self)
              (request_of direct tool_name arguments (_id_counter w'))
              (attempt_timeout self (max_retries self)) o) /\
    outcome_result o = Raise exc /\
    exc_class_of exc <> ViceMCPToolError /\
    le' = Some exc /\
    n' = max_retries self + 1 /\
    fu' = fu || existsb protocol_failure (post_outcomes tr) /\
    _id_counter w' = _id_counter w + Z.of_nat (S len) /\
    _entries w' = _entries w.
Proof.
  revert k le fu n w.
  induction len as [|len IH]; intros k le fu n w Hk;
    rewrite range_from_S; cbn [retry_loop]; unfold bind at 1;
    pose proof (attempt_body_step self tool_name arguments start k le fu w)
      as Hstep;
    destruct (attempt_body _ _ _ _ _ _ _ w) as [r1 w1];
    cbn [fst snd] in Hstep;
    set (o := reply self tool_name arguments k fu w) in *.
  - assert (Hend : forall exc,
      outcome_result o = Raise exc ->
      exc_class_of exc <> ViceMCPToolError ->
      le' = Some exc -> n' = k + 1 -> fu' = fu || protocol_failure o ->
      w' = sent self tool_name arguments k fu w ->
      exists (tr : list event) (direct : bool) (o : http_outcome)
             (exc : pyexc),
        trace w' = trace w ++ tr /\
        length (post_outcomes tr) = 1%nat /\
        last tr
        = Some (EvPost (_base_url self)
                  (request_of direct tool_name arguments (_id_counter w'))
                  (attempt_timeout self (max_retries self)) o) /\
        outcome_result o = Raise exc /\
        exc_class_of exc <> ViceMCPToolError /\
        le' = Some exc /\
        n' = max_retries self + 1 /\
        fu' = fu || existsb protocol_failure (post_outcomes tr) /\
        _id_counter w' = _id_counter w + Z.of_nat 1 /\
        _entries w' = _entries w).
    { intros exc Ho Hc -> -> -> ->.
      exists [post_event self tool_name arguments k fu w], fu, o, exc.
      assert (k = max_retries self) as -> by lia.
      unfold sent, post_event. cbn. fold o.
      rewrite orb_false_r. by repeat split. }
    destruct Hstep as [v Ho | exc Ho Hc | exc Ho Hc Hfu | exc Ho Hc Hfu Hlt Hq
                       | exc Ho Hc Hfu Hlt Hq | exc by_break Ho Hc Hfu Hge];
      try (by intros [=]).
    + subst fu. cbn. intros [= <- <- <- <-].
      apply (Hend exc); try done; [by rewrite Hc|].
      by rewrite (protocol_failure_raise o exc Ho), bool_decide_eq_true_2.
    + lia.
    + destruct by_break; cbn; intros [= <- <- <- <-];
        (apply (Hend exc); try done;
         by rewrite (flag_after_failure fu o exc Ho Hfu)).
  - assert (Hcont : forall (sl : bool) (wx : world Env) exc fu1 n1,
      trace wx = trace (sent self tool_name arguments k fu w)
                 ++ (if sl then [EvSleep (backoff_delay self k)] else []) ->
      _id_counter wx = _id_counter w + 1 ->
      _entries wx = _entries w ->
      fu1 = fu || protocol_failure o ->
      retry_loop self tool_name arguments start (range_from (k + 1) (S len))
        (Some exc) fu1 n1 wx = (Ok (Exhausted le' fu' n'), w') ->
      exists (tr : list event) (direct : bool) (o : http_outcome)
             (exc : pyexc),
        trace w' = trace w ++ tr /\
        length (post_outcomes tr) = S (S len) /\
        last tr
        = Some (EvPost (_base_url self)
                  (request_of direct tool_name arguments (_id_counter w'))
                  (attempt_timeout self (max_retries self)) o) /\
        outcome_result o = Raise exc /\
        exc_class_of exc <> ViceMCPToolError /\
        le' = Some exc /\
        n' = max_retries self + 1 /\
        fu' = fu || existsb protocol_failure (post_outcomes tr) /\
        _id_counter w' = _id_counter w + Z.of_nat (S (S len)) /\
        _entries w' = _entries w).
    { intros sl wx exc fu1 n1 Htr Hid Hen -> Hloop.
      apply IH in Hloop
        as (tr & direct & o' & exc' & Ht & Hn & Hl & Ho' & Hc' & Hle & Hn'
            & Hfu' & Hid' & Hen'); [|lia].
      exists ((post_event self tool_name arguments k fu w
               :: (if sl then [EvSleep (backoff_delay self k)] else []))
              ++ tr), direct, o', exc'.
      rewrite Ht, Htr. unfold sent at 1. cbn [trace].
      rewrite last_app, Hl, post_outcomes_app, length_app, Hn.
      rewrite existsb_app, Hfu', Hid', Hid, Hen', Hen.
      rewrite <- !app_assoc. unfold post_event at 2 3. fold o.
      destruct sl; cbn; rewrite orb_false_r, orb_assoc;
        (repeat split; try done; lia). }
    destruct Hstep as [v Ho | exc Ho Hc | exc Ho Hc Hfu | exc Ho Hc Hfu Hlt Hq
                       | exc Ho Hc Hfu Hlt Hq | exc by_break Ho Hc Hfu Hge];
      try (by intros [=]).
    + subst fu. intros Hloop.
      apply (Hcont false (sent self tool_name arguments k false w)
               exc true (k + 1)); try done; [by rewrite app_nil_r|].
      by rewrite (protocol_failure_raise o exc Ho), bool_decide_eq_true_2.
    + intros Hloop.
      apply (Hcont true
               (slept (backoff_delay self k)
                  (sent self tool_name arguments k fu w))
               exc fu (k + 1)); try done.
      by rewrite (flag_after_failure fu o exc Ho Hfu).
    + lia.
Qed.

(** C5, as the code has it.  Take a call whose client allows at least one
    attempt and sleeps a non-negative time, and which raises something
    else than a tool error.  Then every allowed attempt was made: the
    call sent [max_retries + 1] requests, and the last thing it did on
    the network is the request of the last attempt, which failed.  One
    failed entry is recorded, with [retry_count = max_retries], the
    message and code of that last failure, and a fallback flag that
    tells whether a request of the call ended in a protocol error.  The
    error raised depends on the class of that last failure: one of the
    client's own errors (a [ViceMCPProtocolError], in practice) is raised
    again as it is; an [OSError] becomes a [ViceMCPConnectionError]
    "Failed to connect after N attempts: ..."; any other exception
    becomes a plain [ViceMCPError]
    "Call to T failed after N attempts: ...", with N the number of
    attempts made. *)
Theorem exhaustion_error_follows_last_failure
    self tool_name arguments (w : world Env) raised w' :
  0 <= max_retries self ->
  (0 <= retry_delay self)%Q ->
  _call_raw self tool_name arguments w = (Raise raised, w') ->
  exc_class_of raised <> ViceMCPToolError ->
  exists (tr : list event) (direct : bool) (o : http_outcome) (exc : pyexc)
         (entry : LogEntry),
    trace w' = trace w ++ tr /\
    Z.of_nat (length (post_outcomes tr)) = max_retries self + 1 /\
    _id_counter w' = _id_counter w + (max_retries self + 1) /\
    last tr
    = Some (EvPost (_base_url self)
              (request_of direct tool_name arguments (_id_counter w'))
              (attempt_timeout self (max_retries self)) o) /\
    outcome_result o = Raise exc /\
    exc_class_of exc <> ViceMCPToolError /\
    _entries w' = _entries w ++ [entry] /\
    (tool entry = tool_name /\ success entry = false /\
     retry_count entry = max_retries self /\
     fallback_used entry = existsb protocol_failure (post_outcomes tr) /\
     error entry = Some (exc_str exc) /\
     error_code entry = exc_code exc) /\
    match exc_class_of exc with
    | OSError =>
        exc_class_of raised = ViceMCPConnectionError /\
        exc_str raised
        = "Failed to connect after " +:+ str_int (max_retries self + 1)
            +:+ " attempts: " +:+ exc_str exc
    | OtherException =>
        exc_class_of raised = ViceMCPError /\
        exc_str raised
        = "Call to " +:+ tool_name +:+ " failed after "
            +:+ str_int (max_retries self + 1) +:+ " attempts: "
            +:+ exc_str exc
    | _ => raised = exc
    end.
Proof.
  intros Hm Hd Hrun Hcls. rewrite call_raw_run in Hrun.
  rewrite range_is_range_from in Hrun.
  replace (Z.to_nat (max_retries self + 1))
    with (S (Z.to_nat (max_retries self))) in Hrun by lia.
  destruct (retry_loop _ _ _ _ _ _ _ _ _) as [[[v | le' fu' n'] | e] w2]
    eqn:Hloop; [done | |].
  - injection Hrun as <- <-.
    apply retry_loop_exhausted_last in Hloop
      as (tr & direct & o & exc & Ht & Hn & Hl & Ho & Hc & -> & -> & ->
          & Hid & Hen); [|lia].
    eexists tr, direct, o, exc, _. cbn in Ht, Hid, Hen.
    cbn [trace recorded started _id_counter _entries].
    rewrite Hen. split; [done|]. split; [lia|]. split; [lia|].
    split; [exact Hl|]. split; [done|]. split; [done|].
    split; [reflexivity|]. cbn. split; [by repeat split; try lia|].
    unfold exhausted_error. by destruct (exc_class_of exc).
  - injection Hrun as <- <-.
    apply retry_loop_entries in Hloop; [|done|lia].
    cbv zeta in Hloop. by destruct Hloop as (? & _ & _ & _ & _ & ?).
Qed.

End Exhaustion.

(** A refused connection followed by three protocol errors: what is
    raised in the end is the protocol error of the last request. *)
Lemma exhaustion_error_follows_last_failure_witness :
  let w :=
    stub_world (HttpRaise connection_refused
                :: replicate 3 (HttpOk 200 "method-not-found")) false in
  let run := _call_raw default_client "vice.ping" [] w in
  run.1 = Raise method_not_found_error /\
  _id_counter run.2 = 4 /\
  exists entry,
    _entries run.2 = [entry] /\ retry_count entry = 3 /\
    error entry = Some "Method not found".
Proof.
  cbv zeta.
  set (w := stub_world _ false).
  destruct (exhaustion_error_follows_last_failure default_client "vice.ping"
              [] w method_not_found_error
              (_call_raw default_client "vice.ping" [] w).2)
    as (tr & direct & o & exc & entry & Ht & _ & Hid & Hl & Ho & _ & Hen
        & (_ & _ & Hrc & _ & Her & _) & _).
  - cbn. lia.
  - done.
  - vm_compute. reflexivity.
  - discriminate.
  - split; [vm_compute; reflexivity|]. split; [exact Hid|].
    exists entry. split; [exact Hen|]. split; [exact Hrc|].
    rewrite Her. f_equal.
    assert (Htr : tr = trace (_call_raw default_client "vice.ping" [] w).2)
      by (symmetry; exact Ht).
    rewrite Htr in Hl. vm_compute in Hl. injection Hl as _ <-.
    vm_compute in Ho. by injection Ho as <-.
Defined.

(** ** Particular runs *)

Section Scenarios.

Context {Env : Type} `{RT : Runtime Env}.

(** A first attempt that succeeds: one wrapped request with the base
    timeout, no sleep, the decoded value returned, and one successful
    entry with [retry_count = 0] and [fallback_used = false]. *)
Theorem first_attempt_success self tool_name arguments (w : world Env) v :
  0 <= max_retries self ->
  outcome_result (reply self tool_name arguments 0 false (started w))
  = Ok v ->
  exists (entry : LogEntry) (w' : world Env),
    _call_raw self tool_name arguments w = (Ok v, w') /\
    trace w'
    = trace w
      ++ [EvPost (_base_url self)
            (wrapped_request tool_name arguments (_id_counter w + 1))
            (timeout self * (3 # 2) ^ 0)%Q
            (reply self tool_name arguments 0 false (started w))] /\
    _entries w' = _entries w ++ [entry] /\
    tool entry = tool_name /\ success entry = true /\
    error entry = None /\ error_code entry = PyNone /\
    retry_count entry = 0 /\ fallback_used entry = false.
Proof.
  intros Hm Hout. rewrite call_raw_run.
  destruct (range_head (max_retries self + 1)) as [rest ->]; [lia|].
  cbn [retry_loop]. unfold bind at 1.
  rewrite attempt_body_run, Hout, on_success_run.
  eexists _, _. split; [reflexivity|]. cbn. by repeat split.
Qed.

(** With a negative [max_retries] the loop body never runs: no request
    is sent and no id is used, yet a failed entry is recorded, with
    [retry_count = -1] and the message "Unknown error", and the call
    raises a plain [ViceMCPError] "... failed after 0 attempts". *)
Theorem negative_max_retries_sends_nothing
    self tool_name arguments (w : world Env) :
  max_retries self < 0 ->
  exists (entry : LogEntry) (exc : pyexc) (w' : world Env),
    _call_raw self tool_name arguments w = (Raise exc, w') /\
    trace w' = trace w /\
    _id_counter w' = _id_counter w /\
    _entries w' = _entries w ++ [entry] /\
    success entry = false /\
    retry_count entry = -1 /\
    error entry = Some "Unknown error" /\
    exc_class_of exc = ViceMCPError /\
    exc_str exc
    = "Call to " +:+ tool_name
        +:+ " failed after 0 attempts: Unknown error".
Proof.
  intros Hm. rewrite call_raw_run.
  assert (Hr : range (max_retries self + 1) = []).
  { unfold range. by replace (Z.to_nat (max_retries self + 1)) with 0%nat
      by lia. }
  rewrite Hr. cbn [retry_loop ret].
  eexists _, _, _. split; [reflexivity|]. cbn. by repeat split.
Qed.

(** With a negative base delay the first back-off is fatal: when the
    first attempt fails with a transport error and another attempt is
    allowed, [time.sleep] raises [ValueError], which leaves [_call_raw]
    as it is; one request has been sent and nothing is recorded. *)
Theorem negative_delay_raises_value_error
    self tool_name arguments (w : world Env) te :
  1 <= max_retries self ->
  (retry_delay self < 0)%Q ->
  reply self tool_name arguments 0 false (started w) = HttpRaise te ->
  exists w' : world Env,
    _call_raw self tool_name arguments w = (Raise sleep_value_error, w') /\
    _entries w' = _entries w /\
    trace w'
    = trace w
      ++ [EvPost (_base_url self)
            (wrapped_request tool_name arguments (_id_counter w + 1))
            (timeout self * (3 # 2) ^ 0)%Q (HttpRaise te)].
Proof.
  intros Hm Hd Hrep. rewrite call_raw_run.
  destruct (range_head (max_retries self + 1)) as [rest ->]; [lia|].
  cbn [retry_loop]. unfold bind at 1.
  pose proof (attempt_body_step self tool_name arguments
                (time_monotonic (env w)).1 0 None false (started w)) as Hstep.
  destruct (attempt_body _ _ _ _ _ _ _ (started w)) as [r1 w1].
  cbn [fst snd] in Hstep.
  assert (Hq : Qle_bool 0 (backoff_delay self 0) = false).
  { apply not_true_is_false. rewrite Qle_bool_iff. unfold backoff_delay.
    change (inject_Z (2 ^ 0)) with 1%Q. lra. }
  assert (Hcls : forall exc,
    outcome_result (reply self tool_name arguments 0 false (started w))
    = Raise exc -> exc = exc_of_transport te).
  { intros exc. rewrite Hrep. cbn. congruence. }
  assert (Hte : exc_class_of (exc_of_transport te) <> ViceMCPToolError
                /\ exc_class_of (exc_of_transport te)
                   <> ViceMCPProtocolError).
  { unfold exc_of_transport. cbn. by destruct (te_is_oserror te). }
  destruct Hstep as [v Ho | exc Ho Hc | exc Ho Hc Hfu | exc Ho Hc Hfu Hlt Hq'
                     | exc Ho Hc Hfu Hlt Hq' | exc by_break Ho Hc Hfu Hge].
  - by rewrite Hrep in Ho.
  - rewrite (Hcls _ Ho) in Hc. by destruct Hte.
  - rewrite (Hcls _ Ho) in Hc. by destruct Hte.
  - congruence.
  - eexists. split; [reflexivity|]. cbn. unfold post_event. by rewrite Hrep.
  - lia.
Qed.

(** A tool error that follows a protocol error is logged under the
    protocol error's name: after a protocol error on the wrapped attempt
    and a tool error on the direct one, the call raises the tool error,
    but the entry recorded carries the message and code of the protocol
    error, with [retry_count = 1] and [fallback_used = true]. *)
Theorem tool_error_after_fallback_logs_protocol_error
    self tool_name arguments (w : world Env) exc0 exc1 :
  1 <= max_retries self ->
  outcome_result (reply self tool_name arguments 0 false (started w))
  = Raise exc0 ->
  exc_class_of exc0 = ViceMCPProtocolError ->
  outcome_result
    (reply self tool_name arguments 1 true
       (sent self tool_name arguments 0 false (started w)))
  = Raise exc1 ->
  exc_class_of exc1 = ViceMCPToolError ->
  exists (entry : LogEntry) (w' : world Env),
    _call_raw self tool_name arguments w = (Raise exc1, w') /\
    _entries w' = _entries w ++ [entry] /\
    success entry = false /\
    error entry = Some (exc_str exc0) /\
    error_code entry = exc_code exc0 /\
    retry_count entry = 1 /\
    fallback_used entry = true /\
    sleeps (trace w') = sleeps (trace w).
Proof.
  intros Hm Hout0 Hcls0 Hout1 Hcls1. rewrite call_raw_run.
  destruct (range_head2 (max_retries self + 1)) as [rest ->]; [lia|].
  cbn [retry_loop]. unfold bind at 1.
  rewrite attempt_body_run, Hout0, except_protocol_first by done.
  unfold bind at 1.
  rewrite attempt_body_run, Hout1, except_tool_error by done.
  eexists _, _. split; [reflexivity|]. cbn.
  repeat split. by rewrite !sleeps_app, !app_nil_r.
Qed.

(** Only the first protocol error is free.  After protocol errors on
    attempts 0 and 1 and a success on attempt 2, the trace is: wrapped
    request, direct request at once, a sleep of [retry_delay * 2^1],
    direct request; the entry has [retry_count = 2]. *)
Theorem second_protocol_error_backs_off
    self tool_name arguments (w : world Env) exc0 exc1 v :
  2 <= max_retries self ->
  (0 <= retry_delay self)%Q ->
  let w1 := sent self tool_name arguments 0 false (started w) in
  let w2 := slept (backoff_delay self 1)
              (sent self tool_name arguments 1 true w1) in
  outcome_result (reply self tool_name arguments 0 false (started w))
  = Raise exc0 ->
  exc_class_of exc0 = ViceMCPProtocolError ->
  outcome_result (reply self tool_name arguments 1 true w1) = Raise exc1 ->
  exc_class_of exc1 = ViceMCPProtocolError ->
  outcome_result (reply self tool_name arguments 2 true w2) = Ok v ->
  exists (entry : LogEntry) (w' : world Env),
    _call_raw self tool_name arguments w = (Ok v, w') /\
    trace w'
    = trace w
      ++ [EvPost (_base_url self)
            (wrapped_request tool_name arguments (_id_counter w + 1))
            (timeout self * (3 # 2) ^ 0)%Q
            (reply self tool_name arguments 0 false (started w));
          EvPost (_base_url self)
            (direct_request tool_name arguments (_id_counter w + 2))
            (timeout self * (3 # 2) ^ 1)%Q
            (reply self tool_name arguments 1 true w1);
          EvSleep (retry_delay self * inject_Z (2 ^ 1))%Q;
          EvPost (_base_url self)
            (direct_request tool_name arguments (_id_counter w + 3))
            (timeout self * (3 # 2) ^ 2)%Q
            (reply self tool_name arguments 2 true w2)] /\
    _entries w' = _entries w ++ [entry] /\
    success entry = true /\
    retry_count entry = 2 /\
    fallback_used entry = true.
Proof.
  intros Hm Hd w1 w2 Hout0 Hcls0 Hout1 Hcls1 Hout2. rewrite call_raw_run.
  assert (Hr : exists rest, range (max_retries self + 1) = 0 :: 1 :: 2 :: rest).
  { unfold range.
    destruct (Z.to_nat (max_retries self + 1)) as [|[|[|n]]] eqn:Hn;
      [lia..|]. cbn. by eexists. }
  destruct Hr as [rest ->].
  cbn [retry_loop]. unfold bind at 1.
  rewrite attempt_body_run, Hout0, except_protocol_first by done.
  unfold bind at 1. fold w1.
  rewrite attempt_body_run, Hout1.
  assert (Hex : except_clauses self tool_name (time_monotonic (env w)).1 1
                  (Some exc0) true exc1
                  (sent self tool_name arguments 1 true w1)
                = (Ok (Continue (Some exc1) true), w2)).
  { unfold except_clauses. rewrite Hcls1. cbn [negb]. unfold bind.
    destruct (Z.ltb_spec 1 (max_retries self)) as [_|]; [|lia].
    by rewrite backoff_run. }
  rewrite Hex. unfold bind at 1.
  rewrite attempt_body_run, Hout2, on_success_run.
  eexists _, _. split; [reflexivity|]. cbn.
  unfold post_event. cbn. rewrite <- !app_assoc. cbn.
  replace (_id_counter w + 1 + 1 + 1) with (_id_counter w + 3) by lia.
  replace (_id_counter w + 1 + 1) with (_id_counter w + 2) by lia.
  by repeat split.
Qed.

(** With [max_retries = 0] a protocol error on the one attempt allowed
    sets [fallback_used] although the direct encoding is never tried:
    the call raises the protocol error after a single wrapped request,
    and the entry says [fallback_used = true], [retry_count = 0]. *)
Theorem fallback_flag_without_fallback_attempt
    self tool_name arguments (w : world Env) exc :
  max_retries self = 0 ->
  outcome_result (reply self tool_name arguments 0 false (started w))
  = Raise exc ->
  exc_class_of exc = ViceMCPProtocolError ->
  exists (entry : LogEntry) (w' : world Env),
    _call_raw self tool_name arguments w = (Raise exc, w') /\
    post_payloads (trace w')
    = post_payloads (trace w)
      ++ [wrapped_request tool_name arguments (_id_counter w + 1)] /\
    _entries w' = _entries w ++ [entry] /\
    success entry = false /\
    fallback_used entry = true /\
    retry_count entry = 0 /\
    error entry = Some (exc_str exc).
Proof.
  intros Hm Hout Hcls. rewrite call_raw_run, Hm.
  change (range (0 + 1)) with [0].
  cbn [retry_loop]. unfold bind at 1.
  rewrite attempt_body_run, Hout, except_protocol_first by done.
  cbn [ret]. unfold exhausted_error. rewrite Hcls. cbn [is_vice_error].
  eexists _, _. split; [reflexivity|]. cbn.
  rewrite post_payloads_app. by repeat split.
Qed.

End Scenarios.

(** ** A service that is down *)

Section ServiceDown.

Context {Env : Type} `{RT : Runtime Env}.



End ServiceDown.

(** ** Decoding a response *)

Section Decoding.

Context {Env : Type} `{RT : Runtime Env}.

(** An error object with an integer code is a protocol error exactly
    when the code lies in the band -32799 .. -32600, and a tool error
    otherwise; the exception carries the code, the [message] member (the
    printed error object when there is none) and the [data] member. *)
Theorem error_code_decides_class (data d : pydict) (z : Z) :
  dict_get data "error" = Some (PyDict d) ->
  dict_get d "code" = Some (PyInt z) ->
  exists exc,
    _unwrap_result data = Raise exc /\
    exc_class_of exc
    = (if (-32799 <=? z) && (z <=? -32600)
       then ViceMCPProtocolError else ViceMCPToolError) /\
    exc_code exc = PyInt z /\
    exc_str exc
    = py_str (default (PyStr (py_str (PyDict d))) (dict_get d "message")) /\
    exc_data exc = default PyNone (dict_get d "data").
Proof.
  intros He Hc. unfold _unwrap_result. rewrite He, Hc.
  cbn [from_option]. unfold id.
  unfold in_protocol_codes, in_protocol_range. cbn [unhashable].
  replace (z <? -32599) with (z <=? -32600) by lia.
  destruct ((-32799 <=? z) && (z <=? -32600));
    eexists; (split; [reflexivity|]); by repeat split.
Qed.

(** An [error] member that is not an object, or an error object without
    a [code], counts as code -1: a tool error, raised at once and never
    retried. *)
Theorem error_without_code_is_tool_error (data : pydict) (err : pyvalue) :
  dict_get data "error" = Some err ->
  match err with
  | PyDict d => dict_get d "code" = None
  | _ => True
  end ->
  exists exc,
    _unwrap_result data = Raise exc /\
    exc_class_of exc = ViceMCPToolError /\
    exc_code exc = PyInt (-1).
Proof.
  intros He Hno. unfold _unwrap_result. rewrite He.
  destruct err as [| | | | | | |d]; try (eexists; by repeat split).
  rewrite Hno. eexists; by repeat split.
Qed.




End Decoding.

Section UnhashableCode.

Context {Env : Type} `{RT : Runtime Env}.

(** An error object whose [code] is a JSON array or object is neither a
    protocol error nor a tool error: testing it against the protocol band
    raises [TypeError], which the loop takes for a transient failure.
    With attempts left, the attempt ends in a back-off sleep and the loop
    goes on, without switching the encoding and without recording
    anything. *)
Theorem unhashable_error_code_is_retried
    self tool_name arguments start attempt le fu (w : world Env)
    status body (data d : pydict) (code : pyvalue) :
  attempt < max_retries self ->
  (0 <= retry_delay self)%Q ->
  reply self tool_name arguments attempt fu w = HttpOk status body ->
  json_loads body = inr (PyDict data) ->
  dict_get data "error" = Some (PyDict d) ->
  dict_get d "code" = Some code ->
  isinstance code [Tlist; Tdict] = true ->
  exists exc,
    decode body = Raise exc /\
    exc_class_of exc = OtherException /\
    exc_name exc = "TypeError" /\
    exc_str exc = "unhashable type: '" +:+ type_name code +:+ "'" /\
    attempt_body self tool_name arguments start attempt le fu w
    = (Ok (Continue (Some exc) fu),
       slept (backoff_delay self attempt)
         (sent self tool_name arguments attempt fu w)).
Proof.
  intros Hlt Hd Hrep Hj He Hc Hty.
  assert (Hdec : decode body
                 = Raise {| exc_class_of := OtherException;
                            exc_name := "TypeError";
                            exc_str := "unhashable type: '"
                                         +:+ type_name code +:+ "'";
                            exc_code := PyNone;
                            exc_data := PyNone |}).
  { unfold decode, _parse_response. rewrite Hj.
    unfold _unwrap_result. rewrite He, Hc. cbn [from_option]. unfold id.
    by destruct code. }
  eexists. split; [exact Hdec|]. repeat split.
  pose proof (attempt_body_step self tool_name arguments start attempt le fu w)
    as Hstep.
  destruct (attempt_body _ _ _ _ _ _ _ w) as [r1 w1]. cbn [fst snd] in Hstep.
  destruct Hstep as [v Ho | exc Ho Hcl | exc Ho Hcl Hfu | exc Ho Hcl Hfu Hl Hq
                     | exc Ho Hcl Hfu Hl Hq | exc by_break Ho Hcl Hfu Hge];
    rewrite Hrep in Ho; cbn [outcome_result] in Ho; rewrite Hdec in Ho;
    try discriminate Ho; injection Ho as <-; try done.
  - by rewrite backoff_delay_nonneg in Hq.
  - lia.
Qed.

End UnhashableCode.

(** ** The monitor on any log *)

Section AnyLog.

Context {Env : Type} `{RT : Runtime Env}.

Lemma count_failure_other (t : string) (m : gmap string Z) (e : LogEntry) :
  tool e <> t -> count_failure m e !! t = m !! t.
Proof. intros Hne. unfold count_failure. by rewrite lookup_insert_ne. Qed.

Lemma count_failure_same (t : string) (m : gmap string Z) (e : LogEntry) :
  tool e = t -> count_failure m e !! t = Some (default 0 (m !! t) + 1).
Proof. intros <-. unfold count_failure. by rewrite lookup_insert_eq. Qed.

Lemma count_failures_lookup (t : string) (l : list LogEntry)
    (m : gmap string Z) :
  foldl count_failure m l !! t
  = if decide (filter (fun e => tool e = t) l = [])
    then m !! t
    else Some (default 0 (m !! t)
               + Z.of_nat (length (filter (fun e => tool e = t) l))).
Proof.
  revert m. induction l as [|e l IH]; intros m; [done|].
  cbn [foldl]. rewrite IH, filter_cons.
  destruct (decide (tool e = t)) as [He | He].
  - rewrite (count_failure_same t m e He). cbn [default].
    destruct (decide (e :: _ = [])) as [? | _]; [done|].
    destruct (decide (filter _ l = [])) as [-> | _]; cbn [length].
    + done.
    + f_equal. unfold id. lia.
  - rewrite (count_failure_other t m e He).
    by destruct (decide (filter _ l = [])).
Qed.

(** On any non-empty log, whatever the mix of tools: [failures_by_tool]
    has a key for a tool exactly when an entry of that tool failed, and
    the value is the number of its failed entries; [failures] counts the
    failed entries and never exceeds [total_calls], the length of the
    log. *)
Theorem failures_by_tool_counts (entries : list LogEntry) (t : string) :
  entries <> [] ->
  let s := get_stats_of entries in
  let failed_of_t :=
    filter (fun e => tool e = t)
      (filter (fun e => success e = false) entries) in
  failures_by_tool s !! t
  = (if decide (failed_of_t = []) then None
     else Some (Z.of_nat (length failed_of_t))) /\
  total_calls s = Z.of_nat (length entries) /\
  failures s
  = Z.of_nat (length (filter (fun e => success e = false) entries)) /\
  0 <= failures s <= total_calls s.
Proof.
  intros Hne. cbv zeta. unfold get_stats_of.
  assert (Hnz : (Z.of_nat (length entries) =? 0) = false).
  { apply Z.eqb_neq. destruct entries; [done|]. cbn [length]. lia. }
  rewrite Hnz. cbn [failures_by_tool total_calls failures].
  split; [|split; [done|split; [done|]]].
  - rewrite count_failures_lookup, lookup_empty. cbn [default].
    by destruct (decide _).
  - pose proof (length_filter (fun e => success e = false) entries). lia.
Qed.

(** [get_recent_failures(n)] is the slice [failures[-n:]]: for
    [n >= 1] the last [n] failed entries (all of them when there are
    fewer), in log order; for [n = 0] not the empty list but every failed
    entry, since [-0] is [0]; for a negative [n] the failed entries
    without the first [-n]. *)
Theorem recent_failures_slice (entries : list LogEntry) (n : Z) :
  let failed := filter (fun e => success e = false) entries in
  let recent := get_recent_failures_of entries n in
  (1 <= n ->
   recent = drop (length failed - Z.to_nat n) failed /\
   length recent = Nat.min (Z.to_nat n) (length failed)) /\
  (n = 0 -> recent = failed) /\
  (n < 0 -> recent = drop (Z.to_nat (- n)) failed).
Proof.
  cbv zeta. unfold get_recent_failures_of, slice_from.
  set (failed := filter (fun e => success e = false) entries).
  split; [|split].
  - intros Hn. destruct (Z.ltb_spec (- n) 0) as [_|]; [|lia].
    assert (Hidx : Z.to_nat (Z.max 0 (Z.of_nat (length failed) + - n))
                   = (length failed - Z.to_nat n)%nat) by lia.
    rewrite Hidx. split; [done|]. rewrite length_drop. lia.
  - intros ->. change (- 0) with 0.
    destruct (Z.ltb_spec 0 0) as [|_]; [lia|]. by rewrite Z.min_l by lia.
  - intros Hn. destruct (Z.ltb_spec (- n) 0) as [|_]; [lia|].
    destruct (Z.le_gt_cases (- n) (Z.of_nat (length failed))) as [Hle | Hgt].
    + by rewrite Z.min_l.
    + rewrite Z.min_r by lia. rewrite Nat2Z.id.
      rewrite !drop_ge; [done | lia | lia].
Qed.

End AnyLog.

(** ** The validator on any registry *)

Section ValidatorLaws.

Lemma dict_get_snoc_ne (params : pydict) (k name : string) (v : pyvalue) :
  k <> name -> dict_get (params ++ [(k, v)]) name = dict_get params name.
Proof.
  intros Hne. induction params as [|[k' v'] params IH]; cbn.
  - by destruct (String.eqb_spec k name).
  - by destruct (String.eqb k' name).
Qed.

Lemma check_required_snoc tool_name (params : pydict) k v
    (req : list (string * string)) :
  k ∉ req.*1 ->
  check_required tool_name (params ++ [(k, v)]) req
  = check_required tool_name params req.
Proof.
  induction req as [|[name ty] req IH]; [done|].
  cbn [fmap list_fmap fst]. intros Hk.
  apply not_elem_of_cons in Hk as [Hne Hk].
  cbn [check_required]. by rewrite dict_get_snoc_ne, IH.
Qed.

Lemma check_optional_snoc tool_name (params : pydict) k v
    (opt : list (string * string)) :
  k ∉ opt.*1 ->
  check_optional tool_name (params ++ [(k, v)]) opt
  = check_optional tool_name params opt.
Proof.
  induction opt as [|[name ty] opt IH]; [done|].
  cbn [fmap list_fmap fst]. intros Hk.
  apply not_elem_of_cons in Hk as [Hne Hk].
  cbn [check_optional]. by rewrite dict_get_snoc_ne, IH.
Qed.

(** A parameter the schema does not name is never a violation: adding
    it to the arguments leaves the result of validation as it was, so it
    is sent to the server; it only shows up among the names the
    validator warns about. *)
Theorem unknown_parameters_are_not_violations
    (schemas : gmap string tool_schema) (tool_name : string)
    (schema : tool_schema) (params : pydict) (k : string) (v : pyvalue) :
  schemas !! tool_name = Some schema ->
  k ∉ (required schema).*1 ++ (optional schema).*1 ->
  validate_params_in schemas tool_name (params ++ [(k, v)])
  = validate_params_in schemas tool_name params /\
  k ∈ unexpected_params schema (params ++ [(k, v)]).
Proof.
  intros Hs Hk. unfold validate_params_in. rewrite Hs.
  pose proof Hk as Hk'. apply not_elem_of_app in Hk' as [Hr Ho].
  rewrite check_required_snoc, check_optional_snoc by done.
  split; [done|]. unfold unexpected_params.
  apply list_elem_of_filter. split; [done|].
  rewrite fmap_app. apply elem_of_app. right. cbn. constructor.
Qed.

Lemma check_required_nil tool_name (params : pydict)
    (req : list (string * string)) :
  check_required tool_name params req = [] <->
  (forall name ty, (name, ty) ∈ req ->
     exists v, dict_get params name = Some v /\ _validate_type v ty = true).
Proof.
  induction req as [|[name ty] req IH].
  - split; [|done]. intros _ name ty Hin. by apply elem_of_nil in Hin.
  - cbn [check_required]. split.
    + intros Happ. apply app_eq_nil in Happ as [Hhd Htl].
      intros name' ty' Hin. apply elem_of_cons in Hin as [[= -> ->] | Hin].
      * destruct (dict_get params name) as [v|]; [|done].
        exists v. split; [done|].
        by destruct (_validate_type v ty).
      * by apply IH.
    + intros Hall.
      destruct (Hall name ty) as (v & -> & ->); [constructor|].
      cbn. apply IH. intros name' ty' Hin. apply Hall. by constructor.
Qed.

Lemma check_optional_nil tool_name (params : pydict)
    (opt : list (string * string)) :
  check_optional tool_name params opt = [] <->
  (forall name ty v, (name, ty) ∈ opt -> dict_get params name = Some v ->
     _validate_type v ty = true).
Proof.
  induction opt as [|[name ty] opt IH].
  - split; [|done]. intros _ name ty v Hin. by apply elem_of_nil in Hin.
  - cbn [check_optional]. split.
    + intros Happ. apply app_eq_nil in Happ as [Hhd Htl].
      intros name' ty' v Hin Hget.
      apply elem_of_cons in Hin as [[= -> ->] | Hin].
      * rewrite Hget in Hhd. by destruct (_validate_type v ty).
      * by apply (proj1 IH Htl name').
    + intros Hall.
      assert (Htl : check_optional tool_name params opt = []).
      { apply IH. intros name' ty' v Hin. apply Hall. by constructor. }
      rewrite Htl, app_nil_r.
      destruct (dict_get params name) as [v|] eqn:Hget; [|done].
      by rewrite (Hall name ty v) by (done || constructor).
Qed.

(** Validation passes exactly when every required parameter is there
    with a value of its declared kind and every optional parameter that
    is there has a value of its declared kind; nothing else about the
    arguments matters. *)
Theorem validation_passes_iff
    (schemas : gmap string tool_schema) (tool_name : string)
    (schema : tool_schema) (params : pydict) :
  schemas !! tool_name = Some schema ->
  validate_params_in schemas tool_name params = [] <->
  (forall name ty, (name, ty) ∈ required schema ->
     exists v, dict_get params name = Some v /\ _validate_type v ty = true)
  /\
  (forall name ty v, (name, ty) ∈ optional schema ->
     dict_get params name = Some v -> _validate_type v ty = true).
Proof.
  intros Hs. unfold validate_params_in. rewrite Hs.
  rewrite <- check_required_nil, <- check_optional_nil.
  split; [apply app_eq_nil | by intros [-> ->]].
Qed.

(** A declared type the validator has no rule for is not checked: apart
    from "number", "string", "boolean", "array" and "object", every type
    name accepts every value, [None] included. *)
Theorem undeclared_type_names_accept_everything
    (value : pyvalue) (type_str : string) :
  type_str ∉ ["number"; "string"; "boolean"; "array"; "object"] ->
  _validate_type value type_str = true.
Proof.
  intros Hty. unfold _validate_type.
  repeat match goal with
         | |- context [String.eqb type_str ?s] =>
             destruct (String.eqb_spec type_str s) as [-> | _]
         end; try done.
  all: exfalso; apply Hty; set_solver.
Qed.

End ValidatorLaws.

(** ** The convenience methods *)

Section ConvenienceMethods.

Context {Env : Type} `{RT : Runtime Env}.

Lemma convenience_well_shaped (m : Convenience.method) :
  Convenience.fixed_signature m = true ->
  exists schema,
    TOOL_SCHEMAS !! Convenience.tool_of m = Some schema /\
    well_shaped schema (Convenience.tool_of m) (Convenience.kwargs_of m)
    = true.
Proof.
  intros Hf. destruct m; try discriminate Hf; clear Hf;
    (eexists; split; [by vm_compute|]);
    repeat match goal with
           | x : option _ |- _ => destruct x
           | b : bool |- _ => destruct b
           | x : int_or_str |- _ => destruct x
           end;
    try (by vm_compute).
  all: cbn [Convenience.kwargs_of Convenience.tool_of]; cbv zeta;
    destruct (count =? 1); by vm_compute.
Qed.

Lemma well_shaped_spec schema (tool_name : string) (args : pydict) :
  TOOL_SCHEMAS !! tool_name = Some schema ->
  well_shaped schema tool_name args = true ->
  validate_params tool_name args = [] /\
  unexpected_params schema args = [] /\
  NoDup args.*1 /\
  (forall k v, (k, v) ∈ args -> v <> PyNone).
Proof.
  unfold well_shaped, validate_params, validate_params_in. intros ->.
  rewrite !andb_true_iff, !bool_decide_eq_true, forallb_forall.
  intros [[[Hv Hu] Hn] Hall]. repeat split; [done..|].
  intros k v Hin ->. apply list_elem_of_In in Hin.
  by specialize (Hall _ Hin).
Qed.


(** A convenience method with a closed signature sends only parameters
    its schema knows (the validator has nothing to warn about), each
    once, and never a [None]: an optional argument left at [None] is left
    out of the request. *)
Theorem convenience_methods_send_known_keys (m : Convenience.method) :
  Convenience.fixed_signature m = true ->
  exists schema,
    TOOL_SCHEMAS !! Convenience.tool_of m = Some schema /\
    unexpected_params schema (Convenience.kwargs_of m) = [] /\
    NoDup (Convenience.kwargs_of m).*1 /\
    (forall k v, (k, v) ∈ Convenience.kwargs_of m -> v <> PyNone).
Proof.
  intros Hf.
  destruct (convenience_well_shaped m Hf) as (schema & Hs & Hw).
  destruct (well_shaped_spec _ _ _ Hs Hw) as (_ & Hu & Hn & Hnone).
  exists schema. split; [exact Hs|]. split; [exact Hu|].
  split; [exact Hn | exact Hnone].
Qed.

End ConvenienceMethods.

(** ** More runs on the scripted runtime *)



Lemma first_attempt_success_witness :
  exists v entry w',
    _call_raw default_client "vice.ping" []
      (stub_world [HttpOk 200 "ok"] false) = (Ok v, w') /\
    _entries w' = [entry] /\ success entry = true /\ retry_count entry = 0.
Proof.
  edestruct (first_attempt_success default_client "vice.ping" []
               (stub_world [HttpOk 200 "ok"] false))
    as (entry & w' & Hrun & _ & Hen & _ & Hs & _ & _ & Hrc & _);
    [cbn; lia | vm_compute; reflexivity |].
  eexists _, entry, w'. split; [exact Hrun|]. split; [exact Hen|].
  split; [exact Hs | exact Hrc].
Defined.

Lemma negative_max_retries_sends_nothing_witness :
  exists exc w',
    _call_raw (client_with (-1) (1 # 2)) "vice.ping" []
      (stub_world [HttpOk 200 "ok"] false) = (Raise exc, w') /\
    trace w' = [] /\
    exc_str exc = "Call to vice.ping failed after 0 attempts: Unknown error".
Proof.
  destruct (negative_max_retries_sends_nothing (client_with (-1) (1 # 2))
              "vice.ping" [] (stub_world [HttpOk 200 "ok"] false))
    as (entry & exc & w' & Hrun & Htr & _ & _ & _ & _ & _ & _ & Hstr);
    [cbn; lia|].
  exists exc, w'. split; [exact Hrun|]. split; [exact Htr | exact Hstr].
Defined.

Lemma negative_delay_raises_value_error_witness :
  exists w',
    _call_raw (client_with 3 (- 1 # 2)) "vice.ping" [] (stub_world [] false)
    = (Raise sleep_value_error, w') /\
    _entries w' = [] /\ length (trace w') = 1%nat.
Proof.
  edestruct (negative_delay_raises_value_error (client_with 3 (- 1 # 2))
               "vice.ping" [] (stub_world [] false))
    as (w' & Hrun & Hen & Htr);
    [cbn; lia | by vm_compute | vm_compute; reflexivity |].
  exists w'. split; [exact Hrun|]. split; [exact Hen|]. by rewrite Htr.
Defined.

Lemma tool_error_after_fallback_logs_protocol_error_witness :
  exists entry w',
    _call_raw default_client "vice.ping" []
      (stub_world [HttpOk 200 "method-not-found";
                   HttpOk 200 "invalid-address"] false)
    = (Raise invalid_address_error, w') /\
    _entries w' = [entry] /\
    error entry = Some "Method not found" /\
    error_code entry = PyInt (-32601).
Proof.
  edestruct (tool_error_after_fallback_logs_protocol_error default_client
               "vice.ping" []
               (stub_world [HttpOk 200 "method-not-found";
                            HttpOk 200 "invalid-address"] false))
    as (entry & w' & Hrun & Hen & _ & Her & Hco & _);
    [cbn; lia | vm_compute; reflexivity | reflexivity
     | vm_compute; reflexivity | reflexivity |].
  exists entry, w'. split; [exact Hrun|]. split; [exact Hen|].
  split; [exact Her | exact Hco].
Defined.

Lemma second_protocol_error_backs_off_witness :
  exists v entry w',
    _call_raw default_client "vice.ping" []
      (stub_world [HttpOk 200 "method-not-found";
                   HttpOk 200 "method-not-found"; HttpOk 200 "ok"] false)
    = (Ok v, w') /\
    sleeps (trace w') = [(1 # 2) * inject_Z (2 ^ 1)]%Q /\
    _entries w' = [entry] /\ retry_count entry = 2 /\
    fallback_used entry = true.
Proof.
  pose proof (second_protocol_error_backs_off default_client "vice.ping" []
                (stub_world [HttpOk 200 "method-not-found";
                             HttpOk 200 "method-not-found"; HttpOk 200 "ok"]
                   false)) as H.
  cbv zeta in H.
  edestruct H as (entry & w' & Hrun & Htr & Hen & _ & Hrc & Hfu);
    [cbn; lia | by vm_compute | vm_compute; reflexivity | reflexivity
     | vm_compute; reflexivity | reflexivity | vm_compute; reflexivity |].
  eexists _, entry, w'. split; [exact Hrun|].
  split; [by rewrite Htr|]. split; [exact Hen|]. split; [exact Hrc|exact Hfu].
Defined.

Lemma fallback_flag_without_fallback_attempt_witness :
  exists entry w',
    _call_raw (client_with 0 (1 # 2)) "vice.ping" []
      (stub_world [HttpOk 200 "method-not-found"] false)
    = (Raise method_not_found_error, w') /\
    _entries w' = [entry] /\ fallback_used entry = true /\
    retry_count entry = 0.
Proof.
  edestruct (fallback_flag_without_fallback_attempt (client_with 0 (1 # 2))
               "vice.ping" []
               (stub_world [HttpOk 200 "method-not-found"] false))
    as (entry & w' & Hrun & _ & Hen & _ & Hfu & Hrc & _);
    [reflexivity | vm_compute; reflexivity | reflexivity |].
  exists entry, w'. split; [exact Hrun|]. split; [exact Hen|].
  split; [exact Hfu | exact Hrc].
Defined.


Lemma error_code_decides_class_witness :
  exists exc,
    _unwrap_result
      [("error", PyDict [("code", PyInt (-32601));
                         ("message", PyStr "Method not found")])]
    = Raise exc /\
    exc_class_of exc = ViceMCPProtocolError.
Proof.
  destruct (error_code_decides_class
              [("error", PyDict [("code", PyInt (-32601));
                                 ("message", PyStr "Method not found")])]
              [("code", PyInt (-32601)); ("message", PyStr "Method not found")]
              (-32601))
    as (exc & Hrun & Hcl & _); [reflexivity | reflexivity |].
  exists exc. split; [exact Hrun | exact Hcl].
Defined.

Lemma error_without_code_is_tool_error_witness :
  exists exc,
    _unwrap_result [("error", PyStr "boom")] = Raise exc /\
    exc_class_of exc = ViceMCPToolError /\
    exc_code exc = PyInt (-1).
Proof.
  apply (error_without_code_is_tool_error [("error", PyStr "boom")]
           (PyStr "boom")); [reflexivity | exact I].
Defined.


Lemma unhashable_error_code_is_retried_witness :
  exists exc,
    decode (RT := list_code_runtime) "list-code" = Raise exc /\
    exc_str exc = "unhashable type: 'list'" /\
    (attempt_body (RT := list_code_runtime) default_client "vice.ping" [] 0
       0 None false (stub_world [HttpOk 200 "list-code"] false)).1
    = Ok (Continue (Some exc) false).
Proof.
  edestruct (unhashable_error_code_is_retried (RT := list_code_runtime)
               default_client "vice.ping" [] 0%Q 0 None false
               (stub_world [HttpOk 200 "list-code"] false))
    as (exc & Hdec & _ & _ & Hstr & Hrun);
    [cbn; lia | by vm_compute | vm_compute; reflexivity
     | vm_compute; reflexivity | reflexivity | reflexivity | reflexivity |].
  exists exc. split; [exact Hdec|]. split; [exact Hstr|]. by rewrite Hrun.
Defined.


Lemma convenience_methods_send_known_keys_witness :
  NoDup (Convenience.kwargs_of
           (Convenience.checkpoint_toggle 3 true)).*1 /\
  forall k v,
    (k, v) ∈ Convenience.kwargs_of (Convenience.checkpoint_toggle 3 true) ->
    v <> PyNone.
Proof.
  destruct (convenience_methods_send_known_keys
              (Convenience.checkpoint_toggle 3 true))
    as (schema & _ & _ & Hnd & Hnn); [reflexivity|].
  split; [exact Hnd | exact Hnn].
Defined.

Lemma failures_by_tool_counts_witness :
  let s := get_stats_of [sample_entry false; sample_entry true;
                         sample_entry false] in
  failures_by_tool s !! "vice.ping" = Some 2 /\
  failures_by_tool s !! "vice.memory.read" = None /\
  0 <= failures s <= total_calls s.
Proof.
  cbv zeta.
  destruct (failures_by_tool_counts
              [sample_entry false; sample_entry true; sample_entry false]
              "vice.ping") as (Hping & _ & _ & Hle); [done|].
  destruct (failures_by_tool_counts
              [sample_entry false; sample_entry true; sample_entry false]
              "vice.memory.read") as (Hread & _); [done|].
  split; [exact Hping|]. split; [exact Hread | exact Hle].
Defined.

Lemma recent_failures_slice_witness :
  get_recent_failures_of [sample_entry false; sample_entry true] 0
  = [sample_entry false].
Proof.
  exact (proj1 (proj2 (recent_failures_slice
                         [sample_entry false; sample_entry true] 0))
           eq_refl).
Defined.

Lemma unknown_parameters_are_not_violations_witness :
  validate_params "vice.ping" [("verbose", PyBool true)] = [] /\
  "verbose"
  ∈ unexpected_params {| required := []; optional := [] |}
      [("verbose", PyBool true)].
Proof.
  destruct (unknown_parameters_are_not_violations TOOL_SCHEMAS "vice.ping"
              {| required := []; optional := [] |} [] "verbose"
              (PyBool true)) as [Hv Hu].
  - by vm_compute.
  - cbn. apply not_elem_of_nil.
  - split; [exact Hv | exact Hu].
Defined.

Lemma validation_passes_iff_witness :
  validate_params "vice.checkpoint.delete" [("checkpoint_num", PyInt 1)]
  = [].
Proof.
  apply (validation_passes_iff TOOL_SCHEMAS "vice.checkpoint.delete"
           {| required := [("checkpoint_num", "number")]; optional := [] |}).
  - by vm_compute.
  - split.
    + intros name ty Hin. apply list_elem_of_singleton in Hin as [= -> ->].
      by exists (PyInt 1).
    + intros name ty v Hin. by apply elem_of_nil in Hin.
Defined.

Lemma undeclared_type_names_accept_everything_witness :
  _validate_type PyNone "integer" = true.
Proof.
  apply undeclared_type_names_accept_everything.
  intros Hin. vm_compute in Hin.
  repeat (apply elem_of_cons in Hin as [Hin | Hin]; [discriminate|]).
  by apply elem_of_nil in Hin.
Defined.
